(** * parse_excel.py: workbook tables to typed records

    A shallow embedding of [src/parse_excel.py] (the Bookem heatmap
    Excel parser) and the properties of its four stages: column
    detection, row coercion, workbook loading and export.

    Python values are modelled as follows.
    - [str] is [string]: the UTF-8 bytes of the text.  [str.lower()] is a
      parameter, about which only its effect on ASCII text is assumed.
    - A table cell is a [cell]: the objects pandas hands back for a
      worksheet cell (int, float, str, bool, datetime-like).  A blank
      cell is the float NaN.  A table keeps the dtype of each column,
      and [iterrows] hands over the rows of [df.values], cast to the
      dtype common to the columns.
    - The numeric builtins that depend on the floating point format
      ([float], [int] of a float, [repr] of a float) are parameters.
    - The file system and the workbooks pandas opens are a [World].
    - [json.dumps] with [indent=2] is written out from the documentation
      of the [json] module, next to a decoder for the JSON grammar.
    - Exceptions are the constructors of [exn]; a computation that may
      raise returns a [result].
    - [print] appends an [event] to the standard output log. *)

From Stdlib Require Import ZArith String Ascii List.
From stdpp Require Import gmap strings list fin_maps pretty sorting.

Open Scope string_scope.
Open Scope list_scope.
Open Scope Z_scope.

(** ** Python builtins *)

(** ASCII case folding: the letters A-Z become a-z. *)
Definition ascii_lower_char (c : ascii) : ascii :=
  let n := nat_of_ascii c in
  if bool_decide (65 ≤ n ≤ 90)%nat then ascii_of_nat (n + 32) else c.

Fixpoint ascii_lower (s : string) : string :=
  match s with
  | EmptyString => EmptyString
  | String c s' => String (ascii_lower_char c) (ascii_lower s')
  end.

(** Text made of ASCII characters only. *)
Fixpoint ascii_text (s : string) : bool :=
  match s with
  | EmptyString => true
  | String c s' => bool_decide (nat_of_ascii c < 128)%nat && ascii_text s'
  end.

(** [str.lower()].  Python lower-cases by the Unicode character tables,
    which also send characters outside ASCII to ASCII letters (the Kelvin
    sign U+212A to [k]); the method is a parameter of the model. *)
Class PyText := {
  lower : string → string;
}.

(** What is assumed of it: on ASCII text it is ASCII case folding. *)
Class PyTextOk (txt : PyText) := {
  lower_ascii_text : ∀ s, ascii_text s = true → lower s = ascii_lower s;
}.

(** An instance for running the model: it folds the ASCII letters and
    sends the Kelvin sign (the bytes E2 84 AA) to [k], which is what
    [str.lower()] does on text made of ASCII characters and Kelvin
    signs. *)
Module Folding.

Fixpoint fold (s : string) : string :=
  match s with
  | EmptyString => EmptyString
  | String c s1 =>
      if bool_decide (nat_of_ascii c = 226)%nat then
        match s1 with
        | String c1 (String c2 s2) =>
            if bool_decide (nat_of_ascii c1 = 132)%nat
               && bool_decide (nat_of_ascii c2 = 170)%nat
            then String "k" (fold s2)
            else String c (fold s1)
        | _ => String c (fold s1)
        end
      else String (ascii_lower_char c) (fold s1)
  end.

#[export] Instance text : PyText := {| lower := fold |}.

End Folding.

(** Outcome of [int(x)] on a float: truncation toward zero, or the
    failure Python reports for NaN ([ValueError]) and for an infinity
    ([OverflowError]). *)
Inductive truncation :=
| Trunc (z : Z)
| TruncNaN
| TruncInf.

(** The numeric builtins whose results depend on the binary floating
    point format.  [None] stands for the exception documented next to
    each field. *)
Class PyNumeric := {
  float : Type;
  float_of_int : Z → option float;      (* float(n); OverflowError *)
  float_of_str : string → option float; (* float(s); ValueError *)
  int_of_float : float → truncation;    (* int(x) *)
  int_of_str : string → option Z;       (* int(s); ValueError *)
  str_of_float : float → string;        (* str(x) *)
}.

(** An instance with decimal numerals [m * 10^e] as floats, used to run
    the model on concrete tables.  It reads decimal text with an
    optional exponent, writes a float as digits and exponent, and does
    not round to binary64. *)
Module Decimal.

Inductive dfloat :=
| DNaN
| DInf (negative : bool)
| DFin (m : Z) (e : Z).

Definition digit_of (c : ascii) : option Z :=
  let n := nat_of_ascii c in
  if bool_decide (48 ≤ n ≤ 57)%nat then Some (Z.of_nat (n - 48)) else None.

(** Reads a run of decimal digits; [None] on any other character. *)
Fixpoint digits (s : string) (acc : Z) : option Z :=
  match s with
  | EmptyString => Some acc
  | String c s' =>
      match digit_of c with
      | Some d => digits s' (10 * acc + d)
      | None => None
      end
  end.

Definition unsigned_int (s : string) : option Z :=
  match s with
  | EmptyString => None
  | _ => digits s 0
  end.

Definition signed {A} (f : string → option A) (neg : A → A) (s : string) : option A :=
  match s with
  | String "-" s' => neg <$> f s'
  | String "+" s' => f s'
  | _ => f s
  end.

Definition parse_int : string → option Z := signed unsigned_int Z.opp.

(** Splits at the first ['.']. *)
Fixpoint split_dot (s : string) : string * option string :=
  match s with
  | EmptyString => (EmptyString, None)
  | String "." s' => (EmptyString, Some s')
  | String c s' => let '(a, b) := split_dot s' in (String c a, b)
  end.

(** Splits at the first [e] or [E]. *)
Fixpoint split_exp (s : string) : string * option string :=
  match s with
  | EmptyString => (EmptyString, None)
  | String c s' =>
      if bool_decide (c = "e"%char ∨ c = "E"%char) then (EmptyString, Some s')
      else let '(a, b) := split_exp s' in (String c a, b)
  end.

(** The digits and the scale of a numeral without exponent. *)
Definition mantissa (s : string) : option (Z * Z) :=
  match split_dot s with
  | (a, None) => m ← unsigned_int a; Some (m, 0)
  | (a, Some b) =>
      if bool_decide (a = EmptyString ∧ b = EmptyString) then None
      else
        m ← digits (a +:+ b) 0;
        Some (m, - Z.of_nat (String.length b))
  end.

Definition unsigned_float (s : string) : option dfloat :=
  match ascii_lower s with
  | "nan" => Some DNaN
  | "inf" | "infinity" => Some (DInf false)
  | _ =>
      match split_exp s with
      | (a, None) => '(m, e) ← mantissa a; Some (DFin m e)
      | (a, Some x) => '(m, e) ← mantissa a; k ← parse_int x; Some (DFin m (e + k))
      end
  end.

Definition dneg (x : dfloat) : dfloat :=
  match x with
  | DNaN => DNaN
  | DInf n => DInf (negb n)
  | DFin m e => DFin (- m) e
  end.

Definition parse_float : string → option dfloat := signed unsigned_float dneg.

Definition trunc (x : dfloat) : truncation :=
  match x with
  | DNaN => TruncNaN
  | DInf _ => TruncInf
  | DFin m e => Trunc (if bool_decide (0 ≤ e) then m * 10 ^ e else Z.quot m (10 ^ (- e)))
  end.

Definition show (x : dfloat) : string :=
  match x with
  | DNaN => "nan"
  | DInf true => "-inf"
  | DInf false => "inf"
  | DFin m e => pretty m +:+ "e" +:+ pretty e
  end.

#[export] Instance numeric : PyNumeric := {|
  float := dfloat;
  float_of_int := λ n, Some (DFin n 0);
  float_of_str := parse_float;
  int_of_float := trunc;
  int_of_str := parse_int;
  str_of_float := show;
|}.

End Decimal.

(** ** The text of the json module

    What [json.dumps] and [json.loads] do to strings and numbers, from
    the documentation of the module and RFC 8259.  A [str] is held as
    its UTF-8 bytes, so that a character is one to four bytes. *)

Definition nl : string := String (ascii_of_nat 10) EmptyString.

Definition dquote : string := String (ascii_of_nat 34) EmptyString.

Definition backslash : string := String (ascii_of_nat 92) EmptyString.

(** Four lower-case hexadecimal digits, as in [\uXXXX]. *)
Definition hex_digit (d : N) : ascii :=
  ascii_of_N (if (d <? 10)%N then 48 + d else 87 + d)%N.

Definition hex4 (n : N) : string :=
  String (hex_digit (n / 4096))
    (String (hex_digit ((n / 256) mod 16))
       (String (hex_digit ((n / 16) mod 16))
          (String (hex_digit (n mod 16)) EmptyString)))%N.

Definition hex_value (c : ascii) : option N :=
  let n := N_of_ascii c in
  if ((48 <=? n) && (n <=? 57))%N then Some (n - 48)%N
  else if ((97 <=? n) && (n <=? 102))%N then Some (n - 87)%N
  else if ((65 <=? n) && (n <=? 70))%N then Some (n - 55)%N
  else None.

Definition hex4_value (h1 h2 h3 h4 : ascii) : option N :=
  d1 ← hex_value h1; d2 ← hex_value h2; d3 ← hex_value h3; d4 ← hex_value h4;
  Some (((d1 * 16 + d2) * 16 + d3) * 16 + d4)%N.

(** The UTF-8 bytes of a code point. *)
Definition utf8 (cp : N) : string :=
  if (cp <? 128)%N then String (ascii_of_N cp) EmptyString
  else if (cp <? 2048)%N then
    String (ascii_of_N (192 + cp / 64))
      (String (ascii_of_N (128 + cp mod 64)) EmptyString)
  else if (cp <? 65536)%N then
    String (ascii_of_N (224 + cp / 4096))
      (String (ascii_of_N (128 + (cp / 64) mod 64))
         (String (ascii_of_N (128 + cp mod 64)) EmptyString))
  else
    String (ascii_of_N (240 + cp / 262144))
      (String (ascii_of_N (128 + (cp / 4096) mod 64))
         (String (ascii_of_N (128 + (cp / 64) mod 64))
            (String (ascii_of_N (128 + cp mod 64)) EmptyString))).

(** The bytes after the first of a character of several bytes. *)
Definition trailing (b : N) : bool := ((128 <=? b) && (b <=? 191))%N.

(** The code point of a character of two, three or four bytes; [None]
    when the bytes are not the UTF-8 form of a character. *)
Definition decode2 (b0 b1 : N) : option N :=
  if ((194 <=? b0) && (b0 <=? 223))%N && trailing b1
  then Some ((b0 - 192) * 64 + (b1 - 128))%N else None.

Definition decode3 (b0 b1 b2 : N) : option N :=
  let cp := ((b0 - 224) * 4096 + (b1 - 128) * 64 + (b2 - 128))%N in
  if ((224 <=? b0) && (b0 <=? 239))%N && trailing b1 && trailing b2
     && (2048 <=? cp)%N && negb ((55296 <=? cp) && (cp <=? 57343))%N
  then Some cp else None.

Definition decode4 (b0 b1 b2 b3 : N) : option N :=
  let cp := ((b0 - 240) * 262144 + (b1 - 128) * 4096 + (b2 - 128) * 64 + (b3 - 128))%N in
  if ((240 <=? b0) && (b0 <=? 244))%N && trailing b1 && trailing b2 && trailing b3
     && (65536 <=? cp)%N && (cp <=? 1114111)%N
  then Some cp else None.

(** One character inside a JSON string as [json.dumps] writes it with
    [ensure_ascii]: the short escapes, the printable ASCII characters
    as they are, and [\uXXXX] for the rest, a character beyond U+FFFF
    as a surrogate pair. *)
Definition escape_code_point (cp : N) : string :=
  if (cp =? 34)%N then backslash +:+ dquote
  else if (cp =? 92)%N then backslash +:+ backslash
  else if (cp =? 8)%N then backslash +:+ "b"
  else if (cp =? 12)%N then backslash +:+ "f"
  else if (cp =? 10)%N then backslash +:+ "n"
  else if (cp =? 13)%N then backslash +:+ "r"
  else if (cp =? 9)%N then backslash +:+ "t"
  else if ((32 <=? cp) && (cp <=? 126))%N then String (ascii_of_N cp) EmptyString
  else if (cp <? 65536)%N then backslash +:+ "u" +:+ hex4 cp
  else
    backslash +:+ "u" +:+ hex4 (55296 + (cp - 65536) / 1024)
    +:+ backslash +:+ "u" +:+ hex4 (56320 + (cp - 65536) mod 1024).

(** The inside of a JSON string for a text.  Bytes that are not UTF-8
    do not occur in a [str]; they are copied. *)
Fixpoint escape (s : string) : string :=
  match s with
  | EmptyString => EmptyString
  | String c0 s1 =>
      let b0 := N_of_ascii c0 in
      if (b0 <? 128)%N then escape_code_point b0 +:+ escape s1
      else
        match s1 with
        | EmptyString => String c0 EmptyString
        | String c1 s2 =>
            match decode2 b0 (N_of_ascii c1) with
            | Some cp => escape_code_point cp +:+ escape s2
            | None =>
                match s2 with
                | EmptyString => String c0 (escape s1)
                | String c2 s3 =>
                    match decode3 b0 (N_of_ascii c1) (N_of_ascii c2) with
                    | Some cp => escape_code_point cp +:+ escape s3
                    | None =>
                        match s3 with
                        | EmptyString => String c0 (escape s1)
                        | String c3 s4 =>
                            match decode4 b0 (N_of_ascii c1) (N_of_ascii c2)
                                    (N_of_ascii c3) with
                            | Some cp => escape_code_point cp +:+ escape s4
                            | None => String c0 (escape s1)
                            end
                        end
                    end
                end
            end
        end
  end.

Definition quote (s : string) : string := dquote +:+ escape s +:+ dquote.

(** The character that a short escape stands for. *)
Definition simple_escape (b : N) : option ascii :=
  if (b =? 34)%N then Some (ascii_of_N 34)
  else if (b =? 92)%N then Some (ascii_of_N 92)
  else if (b =? 47)%N then Some (ascii_of_N 47)
  else if (b =? 98)%N then Some (ascii_of_N 8)
  else if (b =? 102)%N then Some (ascii_of_N 12)
  else if (b =? 110)%N then Some (ascii_of_N 10)
  else if (b =? 114)%N then Some (ascii_of_N 13)
  else if (b =? 116)%N then Some (ascii_of_N 9)
  else None.

(** The decoder's [scanstring], from after the opening quote: the text
    of the string and what follows the closing quote.  It fails on an
    unescaped control character, on an unknown escape, on an escape
    that is half of a surrogate pair, and when the string does not
    end. *)
Fixpoint scanstring (s : string) : option (string * string) :=
  match s with
  | EmptyString => None
  | String c s1 =>
      let b := N_of_ascii c in
      if (b =? 34)%N then Some (EmptyString, s1)
      else if (b =? 92)%N then
        match s1 with
        | EmptyString => None
        | String e s2 =>
            if (N_of_ascii e =? 117)%N then
              match s2 with
              | String h1 (String h2 (String h3 (String h4 s3))) =>
                  match hex4_value h1 h2 h3 h4 with
                  | None => None
                  | Some n =>
                      if ((55296 <=? n) && (n <=? 56319))%N then
                        match s3 with
                        | String c5 (String c6
                            (String l1 (String l2 (String l3 (String l4 s4))))) =>
                            if ((N_of_ascii c5 =? 92) && (N_of_ascii c6 =? 117))%N then
                              match hex4_value l1 l2 l3 l4 with
                              | None => None
                              | Some m =>
                                  if ((56320 <=? m) && (m <=? 57343))%N then
                                    match scanstring s4 with
                                    | Some (text, rest) =>
                                        Some (utf8 (65536 + (n - 55296) * 1024
                                                    + (m - 56320))%N +:+ text, rest)
                                    | None => None
                                    end
                                  else None
                              end
                            else None
                        | _ => None
                        end
                      else if ((56320 <=? n) && (n <=? 57343))%N then None
                      else
                        match scanstring s3 with
                        | Some (text, rest) => Some (utf8 n +:+ text, rest)
                        | None => None
                        end
                  end
              | _ => None
              end
            else
              match simple_escape (N_of_ascii e) with
              | None => None
              | Some ch =>
                  match scanstring s2 with
                  | Some (text, rest) => Some (String ch text, rest)
                  | None => None
                  end
              end
        end
      else if (b <? 32)%N then None
      else
        match scanstring s1 with
        | Some (text, rest) => Some (String c text, rest)
        | None => None
        end
  end.

(** Numbers, by the grammar of the decoder: an optional minus sign; an
    integer part, which is 0 or digits that do not start with 0; an
    optional fraction, a point and digits; an optional exponent, [e]
    or [E], an optional sign and digits. *)
Definition is_digit (c : ascii) : bool :=
  ((48 <=? N_of_ascii c) && (N_of_ascii c <=? 57))%N.

(** The longest run of digits at the start, and the rest. *)
Fixpoint span_digits (s : string) : string * string :=
  match s with
  | EmptyString => (EmptyString, EmptyString)
  | String c s' =>
      if is_digit c then let '(d, r) := span_digits s' in (String c d, r)
      else (EmptyString, s)
  end.

(** The value of a run of digits. *)
Fixpoint digits_value (s : string) (acc : N) : N :=
  match s with
  | EmptyString => acc
  | String c s' => digits_value s' (10 * acc + (N_of_ascii c - 48))%N
  end.

Definition scan_sign (s : string) : string * string :=
  match s with
  | String c s' => if (N_of_ascii c =? 45)%N then (String c EmptyString, s') else (EmptyString, s)
  | EmptyString => (EmptyString, s)
  end.

Definition scan_int (s : string) : option (string * string) :=
  match s with
  | String c s' =>
      if (N_of_ascii c =? 48)%N then Some (String c EmptyString, s')
      else
        let '(d, r) := span_digits s in
        match d with
        | EmptyString => None
        | _ => Some (d, r)
        end
  | EmptyString => None
  end.

(** The fraction, if a point and at least one digit follow. *)
Definition scan_frac (s : string) : string * string :=
  match s with
  | String c s' =>
      if (N_of_ascii c =? 46)%N then
        let '(d, r) := span_digits s' in
        match d with
        | EmptyString => (EmptyString, s)
        | _ => (String c d, r)
        end
      else (EmptyString, s)
  | EmptyString => (EmptyString, s)
  end.

(** The exponent, if [e] or [E], an optional sign and at least one
    digit follow. *)
Definition scan_exp (s : string) : string * string :=
  match s with
  | String c s' =>
      if ((N_of_ascii c =? 101) || (N_of_ascii c =? 69))%N then
        let '(sign, s'') :=
          match s' with
          | String g t =>
              if ((N_of_ascii g =? 43) || (N_of_ascii g =? 45))%N
              then (String g EmptyString, t) else (EmptyString, s')
          | EmptyString => (EmptyString, s')
          end in
        let '(d, r) := span_digits s'' in
        match d with
        | EmptyString => (EmptyString, s)
        | _ => (String c (sign +:+ d), r)
        end
      else (EmptyString, s)
  | EmptyString => (EmptyString, s)
  end.

(** A number at the start of [s]: its sign, integer part, fraction and
    exponent, each as written, and the rest. *)
Definition scan_number (s : string) : option (string * string * string * string * string) :=
  let '(sign, s1) := scan_sign s in
  '(int, s2) ← scan_int s1;
  let '(frac, s3) := scan_frac s2 in
  let '(exp, s4) := scan_exp s3 in
  Some (sign, int, frac, exp, s4).

(** A text that is one JSON number with a fraction or an exponent,
    which the decoder reads with [float]. *)
Definition json_float (text : string) : bool :=
  match scan_number text with
  | Some (sign, int, frac, exp, EmptyString) =>
      negb (bool_decide (frac = EmptyString ∧ exp = EmptyString))
  | _ => false
  end.

(** Whitespace between the tokens. *)
Definition is_space (c : ascii) : bool :=
  let n := N_of_ascii c in ((n =? 32) || (n =? 9) || (n =? 10) || (n =? 13))%N.

Fixpoint skip_ws (s : string) : string :=
  match s with
  | String c s' => if is_space c then skip_ws s' else s
  | EmptyString => EmptyString
  end.

(** [s] without the word [word] at its start. *)
Fixpoint after_word (word s : string) : option string :=
  match word, s with
  | EmptyString, _ => Some s
  | String a word', String b s' =>
      if bool_decide (a = b) then after_word word' s' else None
  | String _ _, EmptyString => None
  end.

(** The dtype of a DataFrame column: [int64], [float64], [bool],
    [datetime64] or [object]. *)
Inductive dtype := Int64 | Float64 | Bool | Datetime64 | Object.

#[global] Instance dtype_eq_dec : EqDecision dtype.
Proof. solve_decision. Defined.

Definition numeric_dtype (t : dtype) : bool :=
  match t with
  | Int64 | Float64 => true
  | _ => false
  end.

(** ** Values, exceptions and effects *)

Section Program.
Context {num : PyNumeric} {txt : PyText}.

(** A worksheet cell as pandas returns it.  [CDate] stands for the
    datetime-like objects (Timestamp, datetime, time), which are neither
    strings nor real numbers; its argument is their [str()]. *)
Inductive cell :=
| CInt (n : Z)
| CFloat (x : float)
| CStr (s : string)
| CBool (b : bool)
| CDate (text : string).

(** The exceptions, by class.  A conversion error carries the value
    that did not convert; a [ValueError] raised by a library carries
    its message as text. *)
Inductive exn :=
| ValueError (c : cell)
| KeyError (key : string)
| TypeError (c : cell)
| OverflowError (c : cell)
| IndexError
| FileNotFoundError (path : string)
| OSError (path : string).

Inductive result (A : Type) :=
| Ok (a : A)
| Raise (e : exn).
Arguments Ok {A} a.
Arguments Raise {A} e.

(** Sequencing: the first exception raised is the one that propagates. *)
#[global] Instance result_bind : MBind result := λ A B k m,
  match m with
  | Ok a => k a
  | Raise e => Raise e
  end.

(** [float(c)] *)
Definition py_float (c : cell) : result float :=
  match c with
  | CInt n => from_option Ok (Raise (OverflowError c)) (float_of_int n)
  | CFloat x => Ok x
  | CStr s => from_option Ok (Raise (ValueError c)) (float_of_str s)
  | CBool b => from_option Ok (Raise (OverflowError c)) (float_of_int (if b then 1 else 0))
  | CDate _ => Raise (TypeError c)
  end.

(** [int(c)] *)
Definition py_int (c : cell) : result Z :=
  match c with
  | CInt n => Ok n
  | CFloat x =>
      match int_of_float x with
      | Trunc z => Ok z
      | TruncNaN => Raise (ValueError c)
      | TruncInf => Raise (OverflowError c)
      end
  | CStr s => from_option Ok (Raise (ValueError c)) (int_of_str s)
  | CBool b => Ok (if b then 1 else 0)
  | CDate _ => Raise (TypeError c)
  end.

(** [str(c)] *)
Definition py_str (c : cell) : string :=
  match c with
  | CInt n => pretty n
  | CFloat x => str_of_float x
  | CStr s => s
  | CBool b => if b then "True" else "False"
  | CDate text => text
  end.

(** ** Tables *)

(** A row as [iterrows] yields it: a Series of cells labelled by the
    column names. *)
Definition Series := list (string * cell).

(** A DataFrame as [pd.read_excel] builds it from a sheet with a header
    row of text: the column labels, which [read_excel] keeps pairwise
    distinct by renaming repeated headers, the dtype of each column,
    the values stored in the columns, row by row in sheet order, and
    the default index 0, 1, 2, ... *)
Record DataFrame := {
  columns : list string;
  dtypes : list dtype;
  data : list (list cell);
}.

(** The dtype of the array that holds all the columns together, as
    pandas' [find_common_type] gives it: the dtype of the columns when
    they all have the same one, [float64] when they are all [int64] or
    [float64], and [object] otherwise. *)
Definition find_common_type (types : list dtype) : dtype :=
  match types with
  | [] => Object
  | t :: rest =>
      if forallb (λ t', bool_decide (t' = t)) rest then t
      else if forallb numeric_dtype types then Float64
      else Object
  end.

(** The cast of a stored value to the dtype of that array.  An integer
    becomes a float in a [float64] array (an [int64] is in the range of
    the floats); every other value is handed over as it is stored. *)
Definition astype (target : dtype) (c : cell) : cell :=
  match target, c with
  | Float64, CInt n => from_option CFloat c (float_of_int n)
  | _, _ => c
  end.

(** [df.values]: the rows, every value cast to the common dtype of the
    columns. *)
Definition values (df : DataFrame) : list (list cell) :=
  map (astype (find_common_type (dtypes df))) <$> data df.

(** [df.iterrows()] pairs the index with the rows of [df.values], each
    made a Series over the column labels: a row does not keep the
    dtypes of the columns. *)
Definition iterrows (df : DataFrame) : list (Z * Series) :=
  imap (λ i cells, (Z.of_nat i, zip (columns df) cells)) (values df).

(** [col in row] *)
Definition contains (row : Series) (col : string) : bool :=
  bool_decide (col ∈ row.*1).

(** [row[col]] *)
Fixpoint getitem (row : Series) (col : string) : result cell :=
  match row with
  | [] => Raise (KeyError col)
  | (label, c) :: row' => if bool_decide (label = col) then Ok c else getitem row' col
  end.

(** ** Records *)

Record BookPoint := {
  book_lat : float;
  book_lng : float;
  book_count : Z;
}.

Record Volunteer := {
  vol_id : Z;
  vol_lat : float;
  vol_lng : float;
  vol_name : string;
  vol_books : Z;
}.

Record School := {
  sch_id : Z;
  sch_lat : float;
  sch_lng : float;
  sch_name : string;
  sch_students : Z;
}.

(** ** Standard output *)

Inductive event :=
| Warning (what : string) (e : exn)
| AvailableSheets (names : list string)
| ParsingFrom (what : string) (sheet : string)
| ColumnsOf (cols : list string)
| AutoDetected (mapping : gmap string string)
| Parsed (n : nat) (what : string)
| ExportedTo (format : string) (path : string)
| Summary (books volunteers schools : nat)
| Usage.

(** A computation that prints and may raise: the lines printed, and
    the value returned or the exception that ended it. *)
Definition io (A : Type) : Type := list event * result A.

#[global] Instance io_ret : MRet io := λ A a, ([], Ok a).

#[global] Instance io_bind : MBind io := λ A B k m,
  match m with
  | (out, Ok a) => let '(out', r) := k a in (out ++ out', r)
  | (out, Raise e) => (out, Raise e)
  end.

Definition print (ev : event) : io unit := ([ev], Ok tt).
Definition raise {A} (e : exn) : io A := ([], Raise e).
Definition lift {A} (r : result A) : io A := ([], r).

(** ** Row Coercer *)

(** An exception that [except (ValueError, KeyError)] handles. *)
Definition caught (e : exn) : bool :=
  match e with
  | ValueError _ | KeyError _ => true
  | _ => false
  end.

(** The loop shared by the three parsers:
[[
    for idx, row in df.iterrows():
        try:
            acc.append(body(idx, row))
        except (ValueError, KeyError) as e:
            print(f"Warning: Skipping {what} due to error: {e}")
            continue
    return acc
]]
    The state is the list built so far and the lines printed so far.
    Any other exception leaves the loop and the function. *)
Fixpoint for_rows {R} (what : string) (body : Z → Series → result R)
    (rows : list (Z * Series)) (acc : list R) (out : list event) : io (list R) :=
  match rows with
  | [] => (out, Ok acc)
  | (idx, row) :: rest =>
      match body idx row with
      | Ok r => for_rows what body rest (acc ++ [r]) out
      | Raise e =>
          if caught e then for_rows what body rest acc (out ++ [Warning what e])
          else (out, Raise e)
      end
  end.

(** The dict literal of [parse_book_data], evaluated left to right. *)
Definition book_row (lat_col lng_col count_col : string) (idx : Z) (row : Series)
    : result BookPoint :=
  lat_cell ← getitem row lat_col;
  lat ← py_float lat_cell;
  lng_cell ← getitem row lng_col;
  lng ← py_float lng_cell;
  count_cell ← getitem row count_col;
  count ← py_int count_cell;
  Ok {| book_lat := lat; book_lng := lng; book_count := count |}.

Definition parse_book_data (df : DataFrame) (lat_col lng_col count_col : string)
    : io (list BookPoint) :=
  for_rows "row" (book_row lat_col lng_col count_col) (iterrows df) [] [].

(** [int(row[id_col]) if id_col in row else idx + 1] *)
Definition row_id (id_col : string) (idx : Z) (row : Series) : result Z :=
  if contains row id_col then
    id_cell ← getitem row id_col;
    py_int id_cell
  else Ok (idx + 1).

Definition volunteer_row (id_col lat_col lng_col name_col books_col : string)
    (idx : Z) (row : Series) : result Volunteer :=
  volunteer_id ← row_id id_col idx row;
  lat_cell ← getitem row lat_col;
  lat ← py_float lat_cell;
  lng_cell ← getitem row lng_col;
  lng ← py_float lng_cell;
  name_cell ← getitem row name_col;
  books_cell ← getitem row books_col;
  books ← py_int books_cell;
  Ok {| vol_id := volunteer_id; vol_lat := lat; vol_lng := lng;
        vol_name := py_str name_cell; vol_books := books |}.

Definition parse_volunteers (df : DataFrame)
    (id_col lat_col lng_col name_col books_col : string)
    : io (list Volunteer) :=
  for_rows "volunteer row"
    (volunteer_row id_col lat_col lng_col name_col books_col) (iterrows df) [] [].

Definition school_row (id_col lat_col lng_col name_col students_col : string)
    (idx : Z) (row : Series) : result School :=
  school_id ← row_id id_col idx row;
  lat_cell ← getitem row lat_col;
  lat ← py_float lat_cell;
  lng_cell ← getitem row lng_col;
  lng ← py_float lng_cell;
  name_cell ← getitem row name_col;
  students_cell ← getitem row students_col;
  students ← py_int students_cell;
  Ok {| sch_id := school_id; sch_lat := lat; sch_lng := lng;
        sch_name := py_str name_cell; sch_students := students |}.

Definition parse_schools (df : DataFrame)
    (id_col lat_col lng_col name_col students_col : string)
    : io (list School) :=
  for_rows "school row"
    (school_row id_col lat_col lng_col name_col students_col) (iterrows df) [] [].

(** ** Column Detector *)

(** [{col.lower(): col for col in df.columns}]: a later column replaces
    an earlier one with the same lower-case name. *)
Definition columns_lower (df : DataFrame) : gmap string string :=
  foldl (λ m col, <[lower col := col]> m) ∅ (columns df).

(** One detection loop:
[[
    for pattern in patterns:
        if pattern in columns_lower:
            mapping[role] = columns_lower[pattern]
            break
]] *)
Fixpoint detect (lowered : gmap string string) (role : string)
    (patterns : list string) (mapping : gmap string string) : gmap string string :=
  match patterns with
  | [] => mapping
  | pattern :: rest =>
      match lowered !! pattern with
      | Some col => <[role := col]> mapping
      | None => detect lowered role rest mapping
      end
  end.

Definition auto_detect_columns (df : DataFrame) (data_type : string)
    : gmap string string :=
  let lowered := columns_lower df in
  let mapping : gmap string string := ∅ in
  if bool_decide (data_type = "books") then
    let mapping := detect lowered "lat" ["lat"; "latitude"; "y"; "coord_y"] mapping in
    let mapping :=
      detect lowered "lng" ["lng"; "lon"; "long"; "longitude"; "x"; "coord_x"] mapping in
    let mapping :=
      detect lowered "count" ["count"; "books"; "book_count"; "quantity"; "num"] mapping in
    mapping
  else if bool_decide (data_type = "volunteers") then
    let mapping := detect lowered "id" ["id"; "volunteer_id"; "vol_id"] mapping in
    let mapping := detect lowered "lat" ["lat"; "latitude"; "y"] mapping in
    let mapping := detect lowered "lng" ["lng"; "lon"; "long"; "longitude"; "x"] mapping in
    let mapping :=
      detect lowered "name" ["name"; "volunteer_name"; "vol_name"; "full_name"] mapping in
    let mapping :=
      detect lowered "books" ["books"; "book_count"; "books_distributed"] mapping in
    mapping
  else if bool_decide (data_type = "schools") then
    let mapping := detect lowered "id" ["id"; "school_id"] mapping in
    let mapping := detect lowered "lat" ["lat"; "latitude"; "y"] mapping in
    let mapping := detect lowered "lng" ["lng"; "lon"; "long"; "longitude"; "x"] mapping in
    let mapping := detect lowered "name" ["name"; "school_name"; "school"] mapping in
    let mapping :=
      detect lowered "students" ["students"; "student_count"; "num_students"] mapping in
    mapping
  else mapping.

(** ** Workbook Loader *)

(** An opened workbook: the sheets in tab order, each with the table
    [pd.read_excel] returns for it. *)
Definition workbook := list (string * DataFrame).

(** What the program sees of the file system.
    - [on_disk p]: a file (or directory) is at the path [p].
    - [stat_error p]: examining [p] fails with an error other than
      "no such file" (a name that is too long, a directory that may not
      be searched), which [Path(p).exists()] does not catch.
    - [ExcelFile p]: the workbook that [pd.ExcelFile(p)] opens, [None]
      when pandas cannot open the path as a workbook; it then raises
      [read_error p] (a [ValueError] when it cannot tell the format of
      the file).
    - [writable p]: [open(p, 'w')] succeeds, and so do the writes to
      the file. *)
Record World := {
  on_disk : string → bool;
  stat_error : string → bool;
  ExcelFile : string → option workbook;
  read_error : string → exn;
  writable : string → bool;
}.

(** [Path(p).exists()]: [True] or [False], or the [OSError] of a path
    that cannot be examined. *)
Definition path_exists (w : World) (p : string) : result bool :=
  if stat_error w p then Raise (OSError p) else Ok (on_disk w p).

(** [pd.read_excel(excel_file, sheet_name=sheet_name)], [None] when
    [sheet_name not in available_sheets]. *)
Fixpoint read_excel (excel_file : workbook) (sheet_name : string) : option DataFrame :=
  match excel_file with
  | [] => None
  | (name, df) :: sheets =>
      if bool_decide (name = sheet_name) then Some df else read_excel sheets sheet_name
  end.

(** The left operand of [x or y] when it is truthy: neither [None]
    nor the empty string. *)
Definition truthy (x : option string) : option string :=
  match x with
  | Some EmptyString => None
  | _ => x
  end.

(** [l[i]] *)
Definition item (l : list string) (i : nat) : result string :=
  from_option Ok (Raise IndexError) (l !! i).

(** [sheet_names['books'] or available_sheets[0]] *)
Definition books_sheet (sheet_names : gmap string (option string))
    (available_sheets : list string) : result string :=
  match truthy (mjoin (sheet_names !! "books")) with
  | Some name => Ok name
  | None => item available_sheets 0
  end.

(** [sheet_names['volunteers'] or (available_sheets[1]
    if len(available_sheets) > 1 else available_sheets[0])] *)
Definition volunteers_sheet (sheet_names : gmap string (option string))
    (available_sheets : list string) : result string :=
  match truthy (mjoin (sheet_names !! "volunteers")) with
  | Some name => Ok name
  | None =>
      if bool_decide (1 < length available_sheets)%nat
      then item available_sheets 1 else item available_sheets 0
  end.

(** [sheet_names['schools'] or (available_sheets[2]
    if len(available_sheets) > 2 else available_sheets[0])] *)
Definition schools_sheet (sheet_names : gmap string (option string))
    (available_sheets : list string) : result string :=
  match truthy (mjoin (sheet_names !! "schools")) with
  | Some name => Ok name
  | None =>
      if bool_decide (2 < length available_sheets)%nat
      then item available_sheets 2 else item available_sheets 0
  end.

(** The mapping for a dataset: the caller's, or the detected one, which
    is stored and printed. *)
Definition mapping_for (data_type : string) (df : DataFrame)
    (column_mappings : gmap string (gmap string string))
    : io (gmap string (gmap string string) * gmap string string) :=
  match column_mappings !! data_type with
  | Some mapping => mret (column_mappings, mapping)
  | None =>
      let detected := auto_detect_columns df data_type in
      _ ← print (AutoDetected detected);
      mret (<[data_type := detected]> column_mappings, detected)
  end.

(** [mapping.get(role, role)] *)
Definition get (mapping : gmap string string) (role : string) : string :=
  default role (mapping !! role).

(** The statements under [if sheet_name in available_sheets:] for the
    books, on the table read from that sheet. *)
Definition load_books (sheet_name : string) (df_books : DataFrame)
    (column_mappings : gmap string (gmap string string))
    : io (gmap string (gmap string string) * list BookPoint) :=
  _ ← print (ParsingFrom "books" sheet_name);
  _ ← print (ColumnsOf (columns df_books));
  '(column_mappings, mapping) ← mapping_for "books" df_books column_mappings;
  book_data ← parse_book_data df_books
    (get mapping "lat") (get mapping "lng") (get mapping "count");
  _ ← print (Parsed (length book_data) "book data points");
  mret (column_mappings, book_data).

(** The block under [# Parse books data]. *)
Definition parse_books_block (excel_file : workbook)
    (sheet_names : gmap string (option string))
    (column_mappings : gmap string (gmap string string))
    : io (gmap string (gmap string string) * list BookPoint) :=
  if bool_decide (is_Some (sheet_names !! "books")) then
    sheet_name ← lift (books_sheet sheet_names excel_file.*1);
    match read_excel excel_file sheet_name with
    | Some df_books => load_books sheet_name df_books column_mappings
    | None => mret (column_mappings, [])
    end
  else mret (column_mappings, []).

Definition load_volunteers (sheet_name : string) (df_volunteers : DataFrame)
    (column_mappings : gmap string (gmap string string))
    : io (gmap string (gmap string string) * list Volunteer) :=
  _ ← print (ParsingFrom "volunteers" sheet_name);
  _ ← print (ColumnsOf (columns df_volunteers));
  '(column_mappings, mapping) ← mapping_for "volunteers" df_volunteers column_mappings;
  volunteers ← parse_volunteers df_volunteers
    (get mapping "id") (get mapping "lat") (get mapping "lng")
    (get mapping "name") (get mapping "books");
  _ ← print (Parsed (length volunteers) "volunteers");
  mret (column_mappings, volunteers).

(** The block under [# Parse volunteers data]. *)
Definition parse_volunteers_block (excel_file : workbook)
    (sheet_names : gmap string (option string))
    (column_mappings : gmap string (gmap string string))
    : io (gmap string (gmap string string) * list Volunteer) :=
  if bool_decide (is_Some (sheet_names !! "volunteers")) then
    sheet_name ← lift (volunteers_sheet sheet_names excel_file.*1);
    match read_excel excel_file sheet_name with
    | Some df_volunteers => load_volunteers sheet_name df_volunteers column_mappings
    | None => mret (column_mappings, [])
    end
  else mret (column_mappings, []).

Definition load_schools (sheet_name : string) (df_schools : DataFrame)
    (column_mappings : gmap string (gmap string string))
    : io (gmap string (gmap string string) * list School) :=
  _ ← print (ParsingFrom "schools" sheet_name);
  _ ← print (ColumnsOf (columns df_schools));
  '(column_mappings, mapping) ← mapping_for "schools" df_schools column_mappings;
  schools ← parse_schools df_schools
    (get mapping "id") (get mapping "lat") (get mapping "lng")
    (get mapping "name") (get mapping "students");
  _ ← print (Parsed (length schools) "schools");
  mret (column_mappings, schools).

(** The block under [# Parse schools data]. *)
Definition parse_schools_block (excel_file : workbook)
    (sheet_names : gmap string (option string))
    (column_mappings : gmap string (gmap string string))
    : io (gmap string (gmap string string) * list School) :=
  if bool_decide (is_Some (sheet_names !! "schools")) then
    sheet_name ← lift (schools_sheet sheet_names excel_file.*1);
    match read_excel excel_file sheet_name with
    | Some df_schools => load_schools sheet_name df_schools column_mappings
    | None => mret (column_mappings, [])
    end
  else mret (column_mappings, []).

(** The [result] dict of [parse_excel_file]. *)
Record Aggregate := {
  bookData : list BookPoint;
  volunteers : list Volunteer;
  schools : list School;
}.

(** The selection used when [sheet_names is None]. *)
Definition no_selection : gmap string (option string) :=
  <["books" := None]> (<["volunteers" := None]> (<["schools" := None]> ∅)).

Definition parse_excel_file (w : World) (file_path : string)
    (sheet_names : option (gmap string (option string)))
    (column_mappings : option (gmap string (gmap string string))) : io Aggregate :=
  found ← lift (path_exists w file_path);
  if negb found then raise (FileNotFoundError file_path)
  else
    let sheet_names := default no_selection sheet_names in
    let column_mappings := default ∅ column_mappings in
    excel_file ←
      lift (from_option Ok (Raise (read_error w file_path)) (ExcelFile w file_path));
    _ ← print (AvailableSheets excel_file.*1);
    '(column_mappings, book_data) ←
      parse_books_block excel_file sheet_names column_mappings;
    '(column_mappings, volunteers) ←
      parse_volunteers_block excel_file sheet_names column_mappings;
    '(column_mappings, schools) ←
      parse_schools_block excel_file sheet_names column_mappings;
    mret {| bookData := book_data; volunteers := volunteers; schools := schools |}.

(** ** Exporter *)

(** The Python values that the [json] module writes and reads: [None],
    [bool], [int], [float], [str], [list], and [dict] with its items in
    order. *)
#[warnings="-register-all"]
Inductive json :=
| JNull
| JBool (b : bool)
| JInt (n : Z)
| JFloat (x : float)
| JStr (s : string)
| JList (items : list json)
| JDict (items : list (string * json)).

(** The encoder's text of a float: [float.__repr__], but [NaN],
    [Infinity] and [-Infinity] for the values whose repr is [nan],
    [inf] and [-inf]. *)
Definition float_repr (x : float) : string :=
  let text := str_of_float x in
  if bool_decide (text = "nan") then "NaN"
  else if bool_decide (text = "inf") then "Infinity"
  else if bool_decide (text = "-inf") then "-Infinity"
  else text.

Fixpoint spaces (n : nat) : string :=
  match n with
  | O => EmptyString
  | S n' => String " " (spaces n')
  end.

Definition newline_indent (level : nat) : string := nl +:+ spaces (2 * level).

Fixpoint join (sep : string) (parts : list string) : string :=
  match parts with
  | [] => EmptyString
  | [part] => part
  | part :: rest => part +:+ sep +:+ join sep rest
  end.

(** [json.dumps(value, indent=2)] at nesting depth [level], from the
    documentation of the module: items one per line, indented by two
    spaces per level, [", "] never written and [": "] after a key;
    [[]] and [{}] for the empty containers. *)
Fixpoint dumps (level : nat) (value : json) : string :=
  match value with
  | JNull => "null"
  | JBool true => "true"
  | JBool false => "false"
  | JInt n => pretty n
  | JFloat x => float_repr x
  | JStr s => quote s
  | JList [] => "[]"
  | JList items =>
      "[" +:+ newline_indent (S level)
      +:+ join ("," +:+ newline_indent (S level)) (map (dumps (S level)) items)
      +:+ newline_indent level +:+ "]"
  | JDict [] => "{}"
  | JDict items =>
      "{" +:+ newline_indent (S level)
      +:+ join ("," +:+ newline_indent (S level))
            (map (λ kv, quote kv.1 +:+ ": " +:+ dumps (S level) kv.2) items)
      +:+ newline_indent level +:+ "}"
  end.

(** A number as the decoder reads it: with [int] when it has neither
    fraction nor exponent, with [float] otherwise. *)
Definition parse_number (s : string) : option (json * string) :=
  '(sign, int, frac, exp, rest) ← scan_number s;
  if bool_decide (frac = EmptyString ∧ exp = EmptyString) then
    let n := Z.of_N (digits_value int 0) in
    Some (JInt (if bool_decide (sign = EmptyString) then n else - n), rest)
  else
    x ← float_of_str (sign +:+ int +:+ frac +:+ exp);
    Some (JFloat x, rest).

Definition parse_constant (s : string) : option (json * string) :=
  match after_word "null" s, after_word "true" s, after_word "false" s with
  | Some rest, _, _ => Some (JNull, rest)
  | _, Some rest, _ => Some (JBool true, rest)
  | _, _, Some rest => Some (JBool false, rest)
  | _, _, _ => None
  end.

(** The decoder, by the JSON grammar (RFC 8259): a value at the start
    of [s], and the rest.  [parse_elements] reads the items of an array
    from its first item on, [parse_members] those of an object from
    after the opening quote of a key.  The tokens [NaN], [Infinity] and
    [-Infinity], which Python's decoder also takes, are not JSON and
    are refused.  [fuel] bounds the number of values and items. *)
Fixpoint parse_value (fuel : nat) (s : string) {struct fuel} : option (json * string) :=
  match fuel with
  | O => None
  | S fuel =>
      match s with
      | EmptyString => None
      | String c s1 =>
          let b := N_of_ascii c in
          if (b =? 34)%N then
            '(text, rest) ← scanstring s1; Some (JStr text, rest)
          else if (b =? 123)%N then
            match skip_ws s1 with
            | EmptyString => None
            | String c2 s2 =>
                if (N_of_ascii c2 =? 125)%N then Some (JDict [], s2)
                else if (N_of_ascii c2 =? 34)%N then
                  '(items, rest) ← parse_members fuel s2; Some (JDict items, rest)
                else None
            end
          else if (b =? 91)%N then
            match skip_ws s1 with
            | EmptyString => None
            | String c2 s2 =>
                if (N_of_ascii c2 =? 93)%N then Some (JList [], s2)
                else
                  '(items, rest) ← parse_elements fuel (String c2 s2);
                  Some (JList items, rest)
            end
          else
            match parse_constant s with
            | Some r => Some r
            | None => parse_number s
            end
      end
  end
with parse_elements (fuel : nat) (s : string) {struct fuel}
    : option (list json * string) :=
  match fuel with
  | O => None
  | S fuel =>
      '(item, s1) ← parse_value fuel s;
      match skip_ws s1 with
      | EmptyString => None
      | String c s2 =>
          if (N_of_ascii c =? 93)%N then Some ([item], s2)
          else if (N_of_ascii c =? 44)%N then
            '(items, rest) ← parse_elements fuel (skip_ws s2);
            Some (item :: items, rest)
          else None
      end
  end
with parse_members (fuel : nat) (s : string) {struct fuel}
    : option (list (string * json) * string) :=
  match fuel with
  | O => None
  | S fuel =>
      '(key, s1) ← scanstring s;
      match skip_ws s1 with
      | EmptyString => None
      | String c s2 =>
          if (N_of_ascii c =? 58)%N then
            '(item, s3) ← parse_value fuel (skip_ws s2);
            match skip_ws s3 with
            | EmptyString => None
            | String c' s4 =>
                if (N_of_ascii c' =? 125)%N then Some ([(key, item)], s4)
                else if (N_of_ascii c' =? 44)%N then
                  match skip_ws s4 with
                  | EmptyString => None
                  | String q s5 =>
                      if (N_of_ascii q =? 34)%N then
                        '(items, rest) ← parse_members fuel s5;
                        Some ((key, item) :: items, rest)
                      else None
                  end
                else None
            end
          else None
      end
  end.

(** [json.loads(text)] under that grammar: one value, with nothing but
    whitespace around it. *)
Definition loads (text : string) : option json :=
  '(value, rest) ← parse_value (String.length text) (skip_ws text);
  match skip_ws rest with
  | EmptyString => Some value
  | _ => None
  end.

(** [json.dumps(value, indent=2)], which is also the text that
    [json.dump(value, f, indent=2)] writes. *)
Class JsonEncoder := json_dumps : json → string.
Context {encoder : JsonEncoder}.

Definition book_dict (b : BookPoint) : json :=
  JDict [("lat", JFloat (book_lat b)); ("lng", JFloat (book_lng b));
         ("count", JInt (book_count b))].

Definition volunteer_dict (v : Volunteer) : json :=
  JDict [("id", JInt (vol_id v)); ("lat", JFloat (vol_lat v));
         ("lng", JFloat (vol_lng v)); ("name", JStr (vol_name v));
         ("books", JInt (vol_books v))].

Definition school_dict (s : School) : json :=
  JDict [("id", JInt (sch_id s)); ("lat", JFloat (sch_lat s));
         ("lng", JFloat (sch_lng s)); ("name", JStr (sch_name s));
         ("students", JInt (sch_students s))].

Definition data_dict (data : Aggregate) : json :=
  JDict [("bookData", JList (book_dict <$> bookData data));
         ("volunteers", JList (volunteer_dict <$> volunteers data));
         ("schools", JList (school_dict <$> schools data))].

(** The exporters act on the files on disk, a map from path to
    content; a file that cannot be opened raises and nothing is
    written.  A write that fails after the file was opened, which
    leaves part of the text in the file, is not modelled. *)
Definition export_to_json (w : World) (data : Aggregate) (output_path : string)
    (fs : gmap string string) : io (gmap string string) :=
  if writable w output_path then
    let f := json_dumps (data_dict data) in
    _ ← print (ExportedTo "JSON" output_path);
    mret (<[output_path := f]> fs)
  else raise (OSError output_path).

(** [f.write(text)] on the text written so far. *)
Definition write (f text : string) : string := f +:+ text.

Definition export_to_typescript (w : World) (data : Aggregate) (output_path : string)
    (fs : gmap string string) : io (gmap string string) :=
  if writable w output_path then
    let f := EmptyString in
    let f := write f ("// Auto-generated from Excel file" +:+ nl) in
    let f := write f ("// Book Data" +:+ nl) in
    let f := write f "export const bookData = " in
    let f := write f (json_dumps (JList (book_dict <$> bookData data))) in
    let f := write f (";" +:+ nl +:+ nl) in
    let f := write f ("// Volunteers" +:+ nl) in
    let f := write f "export const volunteers = " in
    let f := write f (json_dumps (JList (volunteer_dict <$> volunteers data))) in
    let f := write f (";" +:+ nl +:+ nl) in
    let f := write f ("// Schools" +:+ nl) in
    let f := write f "export const schools = " in
    let f := write f (json_dumps (JList (school_dict <$> schools data))) in
    let f := write f (";" +:+ nl) in
    _ ← print (ExportedTo "TypeScript" output_path);
    mret (<[output_path := f]> fs)
  else raise (OSError output_path).

(** ** Command line *)

(** One run of the program: what it printed, the error it reported on
    the error stream, its exit status and the files afterwards. *)
Record Run := {
  stdout : list event;
  stderr : option exn;
  exit_code : Z;
  files : gmap string string;
}.

(** The [try] block of [main]. *)
Definition main_try (w : World) (excel_file output_format : string)
    (output_file : option string) (fs : gmap string string) : io (gmap string string) :=
  data ← parse_excel_file w excel_file (Some no_selection) None;
  fs ←
    (if bool_decide (lower output_format = "ts")
        || bool_decide (lower output_format = "typescript")
     then
       let output_path := default "data.ts" (truthy output_file) in
       export_to_typescript w data output_path fs
     else
       let output_path := default "data.json" (truthy output_file) in
       export_to_json w data output_path fs);
  _ ← print (Summary (length (bookData data)) (length (volunteers data))
               (length (schools data)));
  mret fs.

Definition main (w : World) (argv : list string) (fs : gmap string string) : Run :=
  match argv with
  | _ :: excel_file :: rest =>
      let output_format := default "json" (rest !! 0%nat) in
      let output_file := rest !! 1%nat in
      match main_try w excel_file output_format output_file fs with
      | (out, Ok fs) => {| stdout := out; stderr := None; exit_code := 0; files := fs |}
      | (out, Raise e) => {| stdout := out; stderr := Some e; exit_code := 1; files := fs |}
      end
  | _ => {| stdout := [Usage]; stderr := None; exit_code := 1; files := fs |}
  end.

End Program.

Arguments Ok {num A} a.
Arguments Raise {num A} e.

(** * Vocabulary of the statements

    Notions used to state the properties; none of them is part of the
    program. *)

(** What is assumed of [repr] and [float] on the floats that are
    numbers: the text is a JSON number with a fraction or an exponent,
    and [float] reads it back to the same float. *)
Class PyNumericOk (num : PyNumeric) := {
  repr_json_float : ∀ x z, int_of_float x = Trunc z → json_float (str_of_float x) = true;
  repr_round_trip : ∀ x z, int_of_float x = Trunc z → float_of_str (str_of_float x) = Some x;
}.

(** A character: a code point that is not half of a surrogate pair. *)
Definition scalar (cp : N) : Prop := ((cp < 55296 ∨ 57343 < cp) ∧ cp ≤ 1114111)%N.

(** What [scanstring] does when it has read the character [cp]. *)
Definition consume (cp : N) (X : string) : option (string * string) :=
  match scanstring X with
  | Some (text, rest) => Some (utf8 cp +:+ text, rest)
  | None => None
  end.

(** What may follow a value in a JSON text: a comma, a closing bracket
    or brace, whitespace, or the end. *)
Definition delimiter (c : ascii) : bool :=
  ((N_of_ascii c =? 44) || (N_of_ascii c =? 93) || (N_of_ascii c =? 125))%N || is_space c.

Definition delimited (rest : string) : Prop :=
  match rest with
  | EmptyString => True
  | String c _ => delimiter c = true
  end.

Fixpoint digits_only (s : string) : bool :=
  match s with
  | EmptyString => true
  | String c s' => is_digit c && digits_only s'
  end.

(** The first character of a number. *)
Definition number_head (c : ascii) : bool := is_digit c || (N_of_ascii c =? 45)%N.

(** The first character of a value: not whitespace and not a closing
    bracket. *)
Definition value_head (c : ascii) : bool :=
  negb (is_space c) && negb (N_of_ascii c =? 93)%N.

Section Statements.
Context {num : PyNumeric} {txt : PyText}.

(** The records of the rows on which [body] returns, in row order. *)
Definition coerced {R} (body : Z → Series → result R) (rows : list (Z * Series))
    : list R :=
  omap (λ '(idx, row), match body idx row with Ok r => Some r | Raise _ => None end) rows.

(** The exceptions of the rows on which [body] raises, in row order. *)
Definition failures {R} (body : Z → Series → result R) (rows : list (Z * Series))
    : list exn :=
  omap (λ '(idx, row), match body idx row with Ok _ => None | Raise e => Some e end) rows.

(** Every failing row of [rows] fails with an exception the handler
    takes. *)
Definition handled {R} (body : Z → Series → result R) (rows : list (Z * Series))
    : bool :=
  forallb (λ '(idx, row), match body idx row with Ok _ => true | Raise e => caught e end)
    rows.

(** [float(row[col])] returns [x]. *)
Definition converts_float (row : Series) (col : string) (x : float) : Prop :=
  ∃ c, getitem row col = Ok c ∧ py_float c = Ok x.

(** [int(row[col])] returns [n]. *)
Definition converts_int (row : Series) (col : string) (n : Z) : Prop :=
  ∃ c, getitem row col = Ok c ∧ py_int c = Ok n.

(** [str(row[col])] returns [s]. *)
Definition converts_str (row : Series) (col : string) (s : string) : Prop :=
  ∃ c, getitem row col = Ok c ∧ py_str c = s.

(** The loop run on the rows before position [i], then on the rows after
    it from the same list of records and one more warning: row [i] is
    passed over. *)
Definition skip_row {R} (what : string) (body : Z → Series → result R)
    (rows : list (Z * Series)) (i : nat) (e : exn) : io (list R) :=
  match for_rows what body (take i rows) [] [] with
  | (out, Ok acc) => for_rows what body (drop (S i) rows) acc (out ++ [Warning what e])
  | (out, Raise e') => (out, Raise e')
  end.

(** The column that a candidate name selects: the last column of the
    table equal to it once lower-cased. *)
Definition matching (pattern : string) (cols : list string) : option string :=
  last (filter (λ col, lower col = pattern) cols).

(** The column selected by the first candidate that selects one. *)
Fixpoint first_candidate (cols : list string) (patterns : list string) : option string :=
  match patterns with
  | [] => None
  | pattern :: rest =>
      match matching pattern cols with
      | Some col => Some col
      | None => first_candidate cols rest
      end
  end.

(** The candidate names of each role, per dataset, as listed in
    [auto_detect_columns]. *)
Definition candidates (data_type role : string) : list string :=
  if bool_decide (data_type = "books") then
    if bool_decide (role = "lat") then ["lat"; "latitude"; "y"; "coord_y"]
    else if bool_decide (role = "lng") then
      ["lng"; "lon"; "long"; "longitude"; "x"; "coord_x"]
    else if bool_decide (role = "count") then
      ["count"; "books"; "book_count"; "quantity"; "num"]
    else []
  else if bool_decide (data_type = "volunteers") then
    if bool_decide (role = "id") then ["id"; "volunteer_id"; "vol_id"]
    else if bool_decide (role = "lat") then ["lat"; "latitude"; "y"]
    else if bool_decide (role = "lng") then ["lng"; "lon"; "long"; "longitude"; "x"]
    else if bool_decide (role = "name") then
      ["name"; "volunteer_name"; "vol_name"; "full_name"]
    else if bool_decide (role = "books") then
      ["books"; "book_count"; "books_distributed"]
    else []
  else if bool_decide (data_type = "schools") then
    if bool_decide (role = "id") then ["id"; "school_id"]
    else if bool_decide (role = "lat") then ["lat"; "latitude"; "y"]
    else if bool_decide (role = "lng") then ["lng"; "lon"; "long"; "longitude"; "x"]
    else if bool_decide (role = "name") then ["name"; "school_name"; "school"]
    else if bool_decide (role = "students") then
      ["students"; "student_count"; "num_students"]
    else []
  else [].

(** A computation that does not end with [FileNotFoundError]. *)
Definition is_not_found (e : exn) : bool :=
  match e with
  | FileNotFoundError _ => true
  | _ => false
  end.

Definition finds_its_files {A} (m : io A) : Prop :=
  ∀ out e, m = (out, Raise e) → is_not_found e = false.

(** The text up to the first line feed, and the lines after it: the
    lines of a text are those of [text.split(chr(10))]. *)
Fixpoint lines (text : string) : list string :=
  match text with
  | EmptyString => [EmptyString]
  | String c text' =>
      if bool_decide (c = ascii_of_nat 10) then EmptyString :: lines text'
      else
        match lines text' with
        | line :: rest => String c line :: rest
        | [] => [String c EmptyString]
        end
  end.

(** [line] with [prefix] removed from its start, if it starts with it. *)
Fixpoint strip_prefix (prefix line : string) : option string :=
  match prefix, line with
  | EmptyString, _ => Some line
  | String a prefix', String b line' =>
      if bool_decide (a = b) then strip_prefix prefix' line' else None
  | String _ _, EmptyString => None
  end.

Fixpoint until_space (s : string) : string :=
  match s with
  | EmptyString => EmptyString
  | String c s' => if bool_decide (c = " "%char) then EmptyString else String c (until_space s')
  end.

(** The constant that a line declares: the word after a leading
    [export const ]. *)
Definition declared_name (line : string) : option string :=
  until_space <$> strip_prefix "export const " line.

Definition declared_names (text : string) : list string :=
  omap declared_name (lines text).

(** A line that opens with a space or a closing bracket, as the lines
    after the first do in an indented JSON array. *)
Definition continuation (line : string) : bool :=
  match line with
  | String c _ => bool_decide (c = " "%char) || bool_decide (c = "]"%char)
  | EmptyString => false
  end.

(** One exported constant as the exporter writes it. *)
Definition declaration (name value : string) : string :=
  "export const " +:+ name +:+ " = " +:+ value +:+ ";" +:+ nl.

(** The table that holds the given records under the default column
    names, one row each. *)
Definition books_frame (points : list BookPoint) : DataFrame := {|
  columns := ["lat"; "lng"; "count"];
  dtypes := [Float64; Float64; Int64];
  data := (λ b, [CFloat (book_lat b); CFloat (book_lng b); CInt (book_count b)])
          <$> points;
|}.

Definition volunteers_frame (people : list Volunteer) : DataFrame := {|
  columns := ["id"; "lat"; "lng"; "name"; "books"];
  dtypes := [Int64; Float64; Float64; Object; Int64];
  data := (λ v, [CInt (vol_id v); CFloat (vol_lat v); CFloat (vol_lng v);
                 CStr (vol_name v); CInt (vol_books v)]) <$> people;
|}.

Definition schools_frame (places : list School) : DataFrame := {|
  columns := ["id"; "lat"; "lng"; "name"; "students"];
  dtypes := [Int64; Float64; Float64; Object; Int64];
  data := (λ s, [CInt (sch_id s); CFloat (sch_lat s); CFloat (sch_lng s);
                 CStr (sch_name s); CInt (sch_students s)]) <$> places;
|}.

(** The loop over [rows] ends at some row with the exception [e], which
    the handler does not take, after printing [out]: the warnings of
    the rows before it, all of which were kept or skipped. *)
Definition raises_at {R} (what : string) (body : Z → Series → result R)
    (rows : list (Z * Series)) (out : list event) (e : exn) : Prop :=
  ∃ i idx row,
    rows !! i = Some (idx, row) ∧ body idx row = Raise e ∧ caught e = false
    ∧ handled body (take i rows) = true
    ∧ out = Warning what <$> failures body (take i rows).

(** The exceptions of [float()] and [int()] that the handler does not
    take. *)
Definition escapes_handler (e : exn) : Prop :=
  ∃ c, e = TypeError c ∨ e = OverflowError c.

(** An integer that a float holds exactly: [int(float(n)) == n]. *)
Definition exact_count (n : Z) : bool :=
  match float_of_int n with
  | Some x =>
      match int_of_float x with
      | Trunc z => bool_decide (z = n)
      | _ => false
      end
  | None => false
  end.

(** The selection lists the dataset [key] without a sheet name that
    counts ([None] or the empty string), so that its sheet is looked up
    by position. *)
Definition by_position (sheet_names : gmap string (option string)) (key : string) : bool :=
  bool_decide (is_Some (sheet_names !! key))
  && bool_decide (truthy (mjoin (sheet_names !! key)) = None).


(** A workbook of three sheets that hold the given records under the
    default column names. *)
Definition clean_workbook (s1 s2 s3 : string) (points : list BookPoint)
    (people : list Volunteer) (places : list School) : workbook :=
  [(s1, books_frame points); (s2, volunteers_frame people); (s3, schools_frame places)].


(** A float that is a number: neither NaN nor an infinity. *)
Definition finite (x : float) : bool :=
  match int_of_float x with
  | Trunc _ => true
  | _ => false
  end.

(** A value all of whose floats are numbers. *)
Fixpoint json_finite (v : json) : bool :=
  match v with
  | JFloat x => finite x
  | JList items => forallb json_finite items
  | JDict items => forallb (λ kv, json_finite kv.2) items
  | _ => true
  end.

(** The values and items of a value, which bound the work of the
    decoder. *)
Fixpoint need (v : json) : nat :=
  match v with
  | JList items => S (list_sum (map (λ item, S (need item)) items))
  | JDict items => S (list_sum (map (λ kv, S (need kv.2)) items))
  | _ => 1
  end.

(** The decoder reads the text of [v] back, whatever follows it. *)
Definition parses (v : json) : Prop :=
  ∀ level rest fuel, delimited rest → (need v ≤ fuel)%nat →
    parse_value fuel (dumps level v +:+ rest) = Some (v, rest).

(** The latitudes and longitudes of the records are numbers. *)
Definition finite_coordinates (data : Aggregate) : bool :=
  forallb (λ b, finite (book_lat b) && finite (book_lng b)) (bookData data)
  && forallb (λ v, finite (vol_lat v) && finite (vol_lng v)) (volunteers data)
  && forallb (λ s, finite (sch_lat s) && finite (sch_lng s)) (schools data).

End Statements.

(** * Example tables

    Concrete workbooks over the decimal numerals, on which the model is
    run below. *)

Module Examples.
Import Decimal Folding.

(** The encoder of the model over the decimal numerals. *)
#[export] Instance encoder : JsonEncoder := dumps 0.

(** The sheet of the specification's scenario. *)
Definition scenario_sheet : DataFrame := {|
  columns := ["latitude"; "longitude"; "quantity"];
  dtypes := [Object; Float64; Int64];
  data := [[CFloat (DFin 401 (-1)); CFloat (DFin (-739) (-1)); CInt 3];
           [CStr "abc"; CFloat (DFin (-738) (-1)); CInt 2]];
|}.

(** A books sheet whose second row has a date in the latitude column. *)
Definition books_with_date : DataFrame := {|
  columns := ["lat"; "lng"; "count"];
  dtypes := [Object; Float64; Int64];
  data := [[CFloat (DFin 401 (-1)); CFloat (DFin (-739) (-1)); CInt 3];
           [CDate "2024-01-05 00:00:00"; CFloat (DFin (-738) (-1)); CInt 2]];
|}.

(** A schools sheet whose second row has a date in the students
    column. *)
Definition schools_with_date : DataFrame := {|
  columns := ["name"; "lat"; "lng"; "students"];
  dtypes := [Object; Float64; Float64; Object];
  data := [[CStr "Lincoln"; CFloat (DFin 3616 (-2)); CFloat (DFin (-8678) (-2)); CInt 420];
           [CStr "Adams"; CFloat (DFin 3617 (-2)); CFloat (DFin (-8679) (-2));
            CDate "2024-09-01 00:00:00"]];
|}.

(** Volunteers without an identifier column; the second row has no
    number of books. *)
Definition volunteers_sheet_no_id : DataFrame := {|
  columns := ["Lat"; "Lon"; "Name"; "Books"];
  dtypes := [Float64; Float64; Object; Object];
  data := [[CFloat (DFin 3616 (-2)); CFloat (DFin (-8678) (-2)); CStr "Ann"; CInt 12];
           [CFloat (DFin 3617 (-2)); CFloat (DFin (-8679) (-2)); CStr "Bob"; CStr "n/a"];
           [CFloat (DFin 3618 (-2)); CFloat (DFin (-8680) (-2)); CStr "Cy"; CInt 7]];
|}.

(** Volunteers with an identifier column; the second id is text. *)
Definition volunteers_sheet_with_id : DataFrame := {|
  columns := ["id"; "lat"; "lng"; "name"; "books"];
  dtypes := [Object; Float64; Float64; Object; Int64];
  data := [[CInt 10; CFloat (DFin 3616 (-2)); CFloat (DFin (-8678) (-2)); CStr "Ann"; CInt 12];
           [CStr "abc"; CFloat (DFin 3617 (-2)); CFloat (DFin (-8679) (-2)); CStr "Bob";
            CInt 5];
           [CInt 30; CFloat (DFin 3618 (-2)); CFloat (DFin (-8680) (-2)); CStr "Cy"; CInt 7]];
|}.

(** Volunteers whose first id is a date. *)
Definition volunteers_sheet_date_id : DataFrame := {|
  columns := ["id"; "lat"; "lng"; "name"; "books"];
  dtypes := [Object; Float64; Float64; Object; Int64];
  data := [[CDate "2024-03-01 00:00:00"; CFloat (DFin 3616 (-2));
            CFloat (DFin (-8678) (-2)); CStr "Ann"; CInt 12];
           [CInt 2; CFloat (DFin 3617 (-2)); CFloat (DFin (-8679) (-2)); CStr "Bob";
            CInt 5]];
|}.

(** A books sheet with two latitude columns that differ in case. *)
Definition two_lat_columns : DataFrame := {|
  columns := ["lat"; "LAT"; "lng"; "count"];
  dtypes := [Float64; Float64; Float64; Int64];
  data := [[CFloat (DFin 401 (-1)); CFloat (DFin 0 0); CFloat (DFin (-739) (-1)); CInt 3]];
|}.

Definition schools_sheet_plain : DataFrame := {|
  columns := ["School"; "Latitude"; "Longitude"; "Students"];
  dtypes := [Object; Float64; Float64; Int64];
  data := [[CStr "Lincoln"; CFloat (DFin 3616 (-2)); CFloat (DFin (-8678) (-2)); CInt 420]];
|}.

(** A workbook of three sheets and the file system around it. *)
Definition three_sheets : workbook :=
  [("Books", scenario_sheet); ("Volunteers", volunteers_sheet_no_id);
   ("Schools", schools_sheet_plain)].

(** The error of [pd.ExcelFile] on a file that is not a workbook. *)
Definition format_error : exn :=
  ValueError
    (CStr "Excel file format cannot be determined, you must specify an engine manually.").

(** A name of [n] letters. *)
Fixpoint letters (n : nat) : string :=
  match n with
  | O => EmptyString
  | S n' => String "x" (letters n')
  end.

(** A file name longer than the file system takes. *)
Definition long_name : string := letters 300 +:+ ".xlsx".

Definition disk : World := {|
  on_disk := λ path, bool_decide (path = "data.xlsx");
  stat_error := λ path, bool_decide (255 < String.length path)%nat;
  ExcelFile := λ path, if bool_decide (path = "data.xlsx") then Some three_sheets else None;
  read_error := λ path, format_error;
  writable := λ path, negb (bool_decide (path = EmptyString));
|}.

(** The records expected from the sheets above. *)
Definition scenario_point : BookPoint :=
  {| book_lat := DFin 401 (-1); book_lng := DFin (-739) (-1); book_count := 3 |}.

Definition ann : Volunteer :=
  {| vol_id := 1; vol_lat := DFin 3616 (-2); vol_lng := DFin (-8678) (-2);
     vol_name := "Ann"; vol_books := 12 |}.

Definition cy : Volunteer :=
  {| vol_id := 3; vol_lat := DFin 3618 (-2); vol_lng := DFin (-8680) (-2);
     vol_name := "Cy"; vol_books := 7 |}.

Definition one_book : Aggregate :=
  {| bookData := [scenario_point]; volunteers := []; schools := [] |}.

(** A selection that names the books sheet only. *)
Definition books_only : gmap string (option string) := {["books" := Some "Books"]}.

(** A selection whose sheets do not exist. *)
Definition wrong_names : gmap string (option string) :=
  <["books" := Some "B"]> (<["volunteers" := Some "V"]> (<["schools" := Some "S"]> ∅)).

(** The books of [books_with_date] under upper-case headers. *)
Definition upper_case_headers : DataFrame := {|
  columns := ["LAT"; "Lng"; "COUNT"];
  dtypes := dtypes books_with_date;
  data := data books_with_date;
|}.

(** A books sheet whose headers the detector does not know. *)
Definition unknown_headers : DataFrame := {|
  columns := ["north"; "east"; "total"];
  dtypes := dtypes scenario_sheet;
  data := data scenario_sheet;
|}.

(** A books sheet whose second row has no latitude: pandas reads the
    blank cell of a numeric column as NaN. *)
Definition blank_latitude : DataFrame := {|
  columns := ["lat"; "lng"; "count"];
  dtypes := [Float64; Float64; Int64];
  data := [[CFloat (DFin 401 (-1)); CFloat (DFin (-739) (-1)); CInt 3];
           [CFloat DNaN; CFloat (DFin (-738) (-1)); CInt 2]];
|}.

Definition no_latitude : BookPoint :=
  {| book_lat := DNaN; book_lng := DFin (-738) (-1); book_count := 2 |}.

(** What the loader returns for a workbook of that sheet alone. *)
Definition blank_books : Aggregate :=
  {| bookData := [scenario_point; no_latitude]; volunteers := []; schools := [] |}.

(** The Kelvin sign, U+212A, which [str.lower()] maps to [k]. *)
Definition kelvin : string :=
  String (ascii_of_nat 226) (String (ascii_of_nat 132) (String (ascii_of_nat 170) EmptyString)).

(** A books sheet whose count column is spelled with the Kelvin sign. *)
Definition kelvin_headers : DataFrame := {|
  columns := ["lat"; "lng"; "BOO" +:+ kelvin +:+ "S"];
  dtypes := [Float64; Float64; Int64];
  data := [[CFloat (DFin 401 (-1)); CFloat (DFin (-739) (-1)); CInt 3]];
|}.

Definition lincoln : School :=
  {| sch_id := 1; sch_lat := DFin 3616 (-2); sch_lng := DFin (-8678) (-2);
     sch_name := "Lincoln"; sch_students := 420 |}.

(** What the loader returns for [three_sheets]. *)
Definition three_datasets : Aggregate :=
  {| bookData := [scenario_point]; volunteers := [ann; cy]; schools := [lincoln] |}.

(** A mapping for the books that names the latitude column only. *)
Definition latitude_only : gmap string (gmap string string) :=
  {["books" := {["lat" := "latitude"]}]}.

(** A directory with workbooks of one, two, three and no sheets, one
    with a blank latitude, and a file that is not a workbook. *)
Definition shelf : World := {|
  on_disk := λ path,
    bool_decide (path ∈ ["one.xlsx"; "two.xlsx"; "clean.xlsx"; "empty.xlsx"; "blank.xlsx";
                         "notes.txt"]);
  stat_error := λ path, false;
  ExcelFile := λ path,
    if bool_decide (path = "one.xlsx") then Some [("Sheet1", scenario_sheet)]
    else if bool_decide (path = "two.xlsx") then
      Some [("A", scenario_sheet); ("B", volunteers_sheet_no_id)]
    else if bool_decide (path = "clean.xlsx") then
      Some (clean_workbook "Books" "Volunteers" "Schools" [scenario_point] [ann; cy] [])
    else if bool_decide (path = "empty.xlsx") then Some []
    else if bool_decide (path = "blank.xlsx") then Some [("Books", blank_latitude)]
    else None;
  read_error := λ path, format_error;
  writable := λ path, negb (bool_decide (path = EmptyString));
|}.

End Examples.

(** * Properties *)

Section Properties.
Context {num : PyNumeric} {txt : PyText} {txt_ok : PyTextOk txt}.
Context {encoder : JsonEncoder}.

(** ** Tables *)

Lemma length_values (df : DataFrame) : length (values df) = length (data df).
Proof. unfold values. apply length_fmap. Qed.

Lemma length_iterrows (df : DataFrame) : length (iterrows df) = length (data df).
Proof. unfold iterrows. by rewrite length_imap, length_values. Qed.

(** ** The row loop *)

Lemma for_rows_app {R} what (body : Z → Series → result R) rows1 rows2 acc out :
  for_rows what body (rows1 ++ rows2) acc out =
  match for_rows what body rows1 acc out with
  | (out1, Ok acc1) => for_rows what body rows2 acc1 out1
  | (out1, Raise e) => (out1, Raise e)
  end.
Proof.
  revert acc out. induction rows1 as [|[idx row] rows1 IH]; intros acc out; simpl.
  - reflexivity.
  - destruct (body idx row) as [r|e]; [apply IH|].
    destruct (caught e); [apply IH|reflexivity].
Qed.

(** A row whose failure the handler takes adds nothing but a warning. *)
Lemma for_rows_skip {R} what (body : Z → Series → result R) idx row rest acc out e :
  body idx row = Raise e → caught e = true →
  for_rows what body ((idx, row) :: rest) acc out =
  for_rows what body rest acc (out ++ [Warning what e]).
Proof. intros Hb Hc. simpl. by rewrite Hb, Hc. Qed.

Lemma for_rows_keep {R} what (body : Z → Series → result R) idx row rest acc out r :
  body idx row = Ok r →
  for_rows what body ((idx, row) :: rest) acc out =
  for_rows what body rest (acc ++ [r]) out.
Proof. intros Hb. simpl. by rewrite Hb. Qed.

(** A row whose failure the handler does not take ends the loop. *)
Lemma for_rows_abort {R} what (body : Z → Series → result R) idx row rest acc out e :
  body idx row = Raise e → caught e = false →
  for_rows what body ((idx, row) :: rest) acc out = (out, Raise e).
Proof. intros Hb Hc. simpl. by rewrite Hb, Hc. Qed.

Lemma for_rows_handled {R} what (body : Z → Series → result R) rows acc out :
  handled body rows = true →
  for_rows what body rows acc out =
  (out ++ (Warning what <$> failures body rows), Ok (acc ++ coerced body rows)).
Proof.
  revert acc out. induction rows as [|[idx row] rows IH]; intros acc out Hh.
  - simpl. by rewrite !app_nil_r.
  - unfold handled in Hh. cbn [forallb] in Hh. apply andb_true_iff in Hh as [Hrow Hh].
    unfold coerced, failures in *. cbn [for_rows omap list_omap].
    destruct (body idx row) as [r|e] eqn:Hb.
    + rewrite IH by done. by rewrite <- app_assoc.
    + rewrite Hrow, IH by done. cbn. by rewrite <- app_assoc.
Qed.

Lemma coerced_failures_length {R} (body : Z → Series → result R) rows :
  (length (coerced body rows) + length (failures body rows))%nat = length rows.
Proof.
  unfold coerced, failures. induction rows as [|[idx row] rows IH]; [done|].
  cbn [omap list_omap]. destruct (body idx row); cbn; lia.
Qed.

(** ** Rows that coerce *)

Ltac step_bind H :=
  match type of H with
  | context [mbind _ ?m] =>
      let E := fresh "E" in
      destruct m eqn:E; cbn [mbind result_bind] in H; [|discriminate H]
  end.

Lemma book_row_Ok lat_col lng_col count_col idx row r :
  book_row lat_col lng_col count_col idx row = Ok r ↔
  converts_float row lat_col (book_lat r) ∧ converts_float row lng_col (book_lng r) ∧
  converts_int row count_col (book_count r).
Proof.
  unfold book_row, converts_float, converts_int. split.
  - intros H. repeat step_bind H. injection H as <-. cbn. eauto 10.
  - intros ((c1 & -> & H1) & (c2 & -> & H2) & (c3 & -> & H3)).
    cbn [mbind result_bind]. rewrite H1, H2, H3. cbn. by destruct r.
Qed.

Lemma row_id_absent id_col idx row :
  contains row id_col = false → row_id id_col idx row = Ok (idx + 1).
Proof. unfold row_id. by intros ->. Qed.

Lemma row_id_present id_col idx row :
  contains row id_col = true →
  ∃ c, getitem row id_col = Ok c ∧ row_id id_col idx row = py_int c.
Proof.
  unfold row_id, contains. intros H. rewrite H. apply bool_decide_eq_true in H.
  induction row as [|[label c] row IH]; [by apply elem_of_nil in H|].
  cbn [getitem]. case_bool_decide as Hl; [eauto|].
  cbn in H. apply elem_of_cons in H as [->|H]; [done|]. by apply IH.
Qed.

Lemma volunteer_row_Ok id_col lat_col lng_col name_col books_col idx row r :
  volunteer_row id_col lat_col lng_col name_col books_col idx row = Ok r ↔
  row_id id_col idx row = Ok (vol_id r) ∧
  converts_float row lat_col (vol_lat r) ∧ converts_float row lng_col (vol_lng r) ∧
  converts_str row name_col (vol_name r) ∧ converts_int row books_col (vol_books r).
Proof.
  unfold volunteer_row, converts_float, converts_int, converts_str. split.
  - intros H. repeat step_bind H. injection H as <-. cbn. eauto 15.
  - intros (-> & (c1 & -> & H1) & (c2 & -> & H2) & (c3 & -> & H3) & (c4 & -> & H4)).
    cbn [mbind result_bind]. rewrite H1, H2, H4. cbn. rewrite H3. by destruct r.
Qed.

Lemma school_row_Ok id_col lat_col lng_col name_col students_col idx row r :
  school_row id_col lat_col lng_col name_col students_col idx row = Ok r ↔
  row_id id_col idx row = Ok (sch_id r) ∧
  converts_float row lat_col (sch_lat r) ∧ converts_float row lng_col (sch_lng r) ∧
  converts_str row name_col (sch_name r) ∧ converts_int row students_col (sch_students r).
Proof.
  unfold school_row, converts_float, converts_int, converts_str. split.
  - intros H. repeat step_bind H. injection H as <-. cbn. eauto 15.
  - intros (-> & (c1 & -> & H1) & (c2 & -> & H2) & (c3 & -> & H3) & (c4 & -> & H4)).
    cbn [mbind result_bind]. rewrite H1, H2, H4. cbn. rewrite H3. by destruct r.
Qed.

(** ** What the parsers return *)

Lemma for_rows_Ok {R} what (body : Z → Series → result R) rows acc out out' recs :
  for_rows what body rows acc out = (out', Ok recs) →
  handled body rows = true ∧
  out' = out ++ (Warning what <$> failures body rows) ∧
  recs = acc ++ coerced body rows.
Proof.
  revert acc out. induction rows as [|[idx row] rows IH]; intros acc out H.
  - cbn in H. injection H as <- <-. by rewrite !app_nil_r.
  - unfold handled, coerced, failures in *. cbn [for_rows forallb omap list_omap] in *.
    destruct (body idx row) as [r|e].
    + apply IH in H as (-> & -> & ->). by rewrite <- app_assoc.
    + destruct (caught e); [|discriminate H].
      apply IH in H as (-> & -> & ->). cbn. by rewrite <- app_assoc.
Qed.

(** The first row that fails with an exception outside the handler ends
    the function with that exception. *)
Lemma for_rows_unhandled {R} what (body : Z → Series → result R) rows acc out :
  handled body rows = false →
  ∃ out' e, for_rows what body rows acc out = (out', Raise e) ∧ caught e = false.
Proof.
  revert acc out. induction rows as [|[idx row] rows IH]; intros acc out H; [done|].
  unfold handled in *. cbn [for_rows forallb] in *.
  destruct (body idx row) as [r|e]; [by apply IH|].
  destruct (caught e) eqn:Hc; [by apply IH|eauto].
Qed.

(** C1 (as amended).  On a table in which no row fails with an exception
    other than [ValueError] or [KeyError], each of the three parsers
    returns, in source order, exactly one record for every row whose
    columns are all present and convert, and prints exactly one warning
    for every other row and no record for it; records and warnings
    together count the rows, and every record returned has all of its
    fields converted from its row (nothing partial). *)
Theorem row_coercer_records_and_warnings (df : DataFrame)
    (id_col lat_col lng_col name_col count_col : string) :
  let books := book_row lat_col lng_col count_col in
  let vols := volunteer_row id_col lat_col lng_col name_col count_col in
  let schs := school_row id_col lat_col lng_col name_col count_col in
  (handled books (iterrows df) = true →
   parse_book_data df lat_col lng_col count_col =
     (Warning "row" <$> failures books (iterrows df), Ok (coerced books (iterrows df))))
  ∧ (handled vols (iterrows df) = true →
     parse_volunteers df id_col lat_col lng_col name_col count_col =
       (Warning "volunteer row" <$> failures vols (iterrows df),
        Ok (coerced vols (iterrows df))))
  ∧ (handled schs (iterrows df) = true →
     parse_schools df id_col lat_col lng_col name_col count_col =
       (Warning "school row" <$> failures schs (iterrows df),
        Ok (coerced schs (iterrows df))))
  ∧ (length (coerced books (iterrows df)) + length (failures books (iterrows df))
     = length (data df)
     ∧ length (coerced vols (iterrows df)) + length (failures vols (iterrows df))
       = length (data df)
     ∧ length (coerced schs (iterrows df)) + length (failures schs (iterrows df))
       = length (data df))%nat
  ∧ (∀ idx row r, books idx row = Ok r ↔
       converts_float row lat_col (book_lat r) ∧ converts_float row lng_col (book_lng r) ∧
       converts_int row count_col (book_count r))
  ∧ (∀ idx row r, vols idx row = Ok r ↔
       row_id id_col idx row = Ok (vol_id r) ∧
       converts_float row lat_col (vol_lat r) ∧ converts_float row lng_col (vol_lng r) ∧
       converts_str row name_col (vol_name r) ∧ converts_int row count_col (vol_books r))
  ∧ (∀ idx row r, schs idx row = Ok r ↔
       row_id id_col idx row = Ok (sch_id r) ∧
       converts_float row lat_col (sch_lat r) ∧ converts_float row lng_col (sch_lng r) ∧
       converts_str row name_col (sch_name r) ∧
       converts_int row count_col (sch_students r)).
Proof.
  intros books vols schs.
  assert (Hlen : length (iterrows df) = length (data df))
    by apply length_iterrows.
  split_and!.
  - intros H. unfold parse_book_data. by rewrite for_rows_handled.
  - intros H. unfold parse_volunteers. by rewrite for_rows_handled.
  - intros H. unfold parse_schools. by rewrite for_rows_handled.
  - by rewrite coerced_failures_length.
  - by rewrite coerced_failures_length.
  - by rewrite coerced_failures_length.
  - intros. apply book_row_Ok.
  - intros. apply volunteer_row_Ok.
  - intros. apply school_row_Ok.
Qed.

(** ** Failing rows *)

Lemma for_rows_skip_at {R} what (body : Z → Series → result R) rows i idx row e :
  rows !! i = Some (idx, row) → body idx row = Raise e → caught e = true →
  for_rows what body rows [] [] = skip_row what body rows i e.
Proof.
  intros Hi Hb Hc. unfold skip_row.
  rewrite <- (take_drop_middle rows i (idx, row)) at 1 by done.
  rewrite for_rows_app.
  destruct (for_rows what body (take i rows) [] []) as [out1 [acc1|e']]; [|done].
  by apply for_rows_skip.
Qed.

Lemma iterrows_lookup (df : DataFrame) i cells :
  values df !! i = Some cells →
  iterrows df !! i = Some (Z.of_nat i, zip (columns df) cells).
Proof. intros H. unfold iterrows. by rewrite list_lookup_imap, H. Qed.

Lemma getitem_missing (row : Series) col :
  contains row col = false → getitem row col = Raise (KeyError col).
Proof.
  unfold contains. intros H%bool_decide_eq_false.
  induction row as [|[label c] row IH]; [done|].
  cbn in *. apply not_elem_of_cons in H as [Hne H].
  case_bool_decide; [congruence|]. by apply IH.
Qed.

(** C2 (as amended).  A row whose coercion fails with a [ValueError]
    (text that is not a number, NaN to an integer) or a [KeyError] (a
    missing column) is discarded whole: in each parser the rows before
    it are processed, one warning carrying the failure is printed, and
    the loop goes on with the rows after it from the same records; and a
    table whose rows fail only in these ways never makes a parser
    raise. *)
Theorem handled_failure_skips_the_row (df : DataFrame)
    (id_col lat_col lng_col name_col count_col : string) :
  let books := book_row lat_col lng_col count_col in
  let vols := volunteer_row id_col lat_col lng_col name_col count_col in
  let schs := school_row id_col lat_col lng_col name_col count_col in
  (∀ row col, contains row col = false → getitem row col = Raise (KeyError col))
  ∧ (∀ s, float_of_str s = None → py_float (CStr s) = Raise (ValueError (CStr s)))
  ∧ (∀ s, int_of_str s = None → py_int (CStr s) = Raise (ValueError (CStr s)))
  ∧ (∀ x, int_of_float x = TruncNaN → py_int (CFloat x) = Raise (ValueError (CFloat x)))
  ∧ (∀ c key, caught (ValueError c) = true ∧ caught (KeyError key) = true)
  ∧ (∀ i cells e, values df !! i = Some cells → caught e = true →
       let idx := Z.of_nat i in
       let row := zip (columns df) cells in
       (books idx row = Raise e →
        parse_book_data df lat_col lng_col count_col =
          skip_row "row" books (iterrows df) i e)
       ∧ (vols idx row = Raise e →
          parse_volunteers df id_col lat_col lng_col name_col count_col =
            skip_row "volunteer row" vols (iterrows df) i e)
       ∧ (schs idx row = Raise e →
          parse_schools df id_col lat_col lng_col name_col count_col =
            skip_row "school row" schs (iterrows df) i e))
  ∧ (handled books (iterrows df) = true →
     ∃ out recs, parse_book_data df lat_col lng_col count_col = (out, Ok recs))
  ∧ (handled vols (iterrows df) = true →
     ∃ out recs,
       parse_volunteers df id_col lat_col lng_col name_col count_col = (out, Ok recs))
  ∧ (handled schs (iterrows df) = true →
     ∃ out recs,
       parse_schools df id_col lat_col lng_col name_col count_col = (out, Ok recs)).
Proof.
  intros books vols schs. split_and!.
  - apply getitem_missing.
  - intros s H. cbn. by rewrite H.
  - intros s H. cbn. by rewrite H.
  - intros x H. cbn. by rewrite H.
  - done.
  - intros i cells e Hi Hc idx row. apply iterrows_lookup in Hi.
    split_and!; intros Hb.
    + by apply (for_rows_skip_at _ _ _ _ idx row).
    + by apply (for_rows_skip_at _ _ _ _ idx row).
    + by apply (for_rows_skip_at _ _ _ _ idx row).
  - intros H. unfold parse_book_data. rewrite for_rows_handled by done. eauto.
  - intros H. unfold parse_volunteers. rewrite for_rows_handled by done. eauto.
  - intros H. unfold parse_schools. rewrite for_rows_handled by done. eauto.
Qed.

(** ** Identifiers *)

Lemma contains_zip_absent (cols : list string) (cells : list cell) col :
  col ∉ cols → contains (zip cols cells) col = false.
Proof.
  intros H. apply bool_decide_eq_false. intros Hin. apply H.
  apply list_elem_of_fmap in Hin as ([label c] & -> & Hin).
  by apply elem_of_zip_l in Hin.
Qed.

(** The records returned come from rows at increasing positions. *)
Lemma coerced_positions {A R} (body : Z → Series → result R)
    (f : nat → A → Z * Series) (l : list A) :
  ∃ positions : list nat,
    StronglySorted lt positions ∧
    Forall2 (λ r i, ∃ x, l !! i = Some x ∧ body (f i x).1 (f i x).2 = Ok r)
      (coerced body (imap f l)) positions.
Proof.
  revert f. induction l as [|x l IH]; intros f.
  - exists []. split; constructor.
  - destruct (IH (f ∘ S)) as (ps & Hs & HF).
    assert (Hs' : StronglySorted lt (S <$> ps))
      by (eapply StronglySorted_fmap; [|done]; intros; lia).
    assert (HF' : Forall2 (λ r i, ∃ y, (x :: l) !! i = Some y ∧
                             body (f i y).1 (f i y).2 = Ok r)
                    (coerced body (imap (f ∘ S) l)) (S <$> ps))
      by (apply Forall2_fmap_r; eapply Forall2_impl; [done|]; cbn; eauto).
    unfold coerced in *. cbn [imap omap list_omap].
    destruct (f 0%nat x) as [idx row] eqn:Hf.
    destruct (body idx row) as [r|e] eqn:Hb.
    + exists (0%nat :: (S <$> ps)). split.
      * constructor; [done|]. apply Forall_fmap, Forall_forall. intros; cbn; lia.
      * constructor; [|done]. exists x. by rewrite Hf.
    + by exists (S <$> ps).
Qed.

(** When no row is lost the positions are all of them. *)
Lemma coerced_all_positions {A R} (body : Z → Series → result R)
    (f : nat → A → Z * Series) (l : list A) :
  length (coerced body (imap f l)) = length l →
  Forall2 (λ r i, ∃ x, l !! i = Some x ∧ body (f i x).1 (f i x).2 = Ok r)
    (coerced body (imap f l)) (seq 0 (length l)).
Proof.
  revert f. induction l as [|x l IH]; intros f Hlen; [constructor|].
  pose proof (coerced_failures_length body (imap (f ∘ S) l)) as Hle.
  rewrite length_imap in Hle.
  unfold coerced in *. cbn [imap omap list_omap length seq] in *.
  destruct (f 0%nat x) as [idx row] eqn:Hf.
  destruct (body idx row) as [r|e] eqn:Hb; cbn in Hlen; [|lia].
  constructor; [exists x; by rewrite Hf|].
  rewrite <- fmap_S_seq. apply Forall2_fmap_r.
  eapply Forall2_impl; [apply IH; lia|]. cbn; eauto.
Qed.

Lemma Forall2_fmap_eq {A B C} (f : A → C) (g : B → C) l k :
  Forall2 (λ a b, f a = g b) l k → f <$> l = g <$> k.
Proof. induction 1; cbn; congruence. Qed.

Lemma volunteer_default_id id_col lat_col lng_col name_col books_col idx row r :
  contains row id_col = false →
  volunteer_row id_col lat_col lng_col name_col books_col idx row = Ok r →
  vol_id r = idx + 1.
Proof.
  intros Ha (Hid & _)%volunteer_row_Ok. rewrite row_id_absent in Hid by done. congruence.
Qed.

Lemma school_default_id id_col lat_col lng_col name_col students_col idx row r :
  contains row id_col = false →
  school_row id_col lat_col lng_col name_col students_col idx row = Ok r →
  sch_id r = idx + 1.
Proof.
  intros Ha (Hid & _)%school_row_Ok. rewrite row_id_absent in Hid by done. congruence.
Qed.

(** C9 (as amended).  In a volunteer or school row that has the
    identifier column, the id is [int] of that cell and nothing else: if
    that conversion raises, the coercion of the row raises the same
    exception whatever the other cells hold, and when the exception is a
    [ValueError] the row is passed over with one warning; the position
    [idx + 1] is the id only of rows that lack the column. *)
Theorem present_id_never_defaults (df : DataFrame)
    (id_col lat_col lng_col name_col count_col : string) :
  let vols := volunteer_row id_col lat_col lng_col name_col count_col in
  let schs := school_row id_col lat_col lng_col name_col count_col in
  (∀ i cells, values df !! i = Some cells →
     let idx := Z.of_nat i in
     let row := zip (columns df) cells in
     contains row id_col = true →
     ∃ c, getitem row id_col = Ok c
       ∧ row_id id_col idx row = py_int c
       ∧ (∀ e, py_int c = Raise e →
            vols idx row = Raise e ∧ schs idx row = Raise e
            ∧ (caught e = true →
               parse_volunteers df id_col lat_col lng_col name_col count_col =
                 skip_row "volunteer row" vols (iterrows df) i e
               ∧ parse_schools df id_col lat_col lng_col name_col count_col =
                   skip_row "school row" schs (iterrows df) i e)))
  ∧ (∀ idx row n, row_id id_col idx row = Ok n →
       (contains row id_col = false ∧ n = idx + 1)
       ∨ (contains row id_col = true ∧ converts_int row id_col n)).
Proof.
  intros vols schs. split.
  - intros i cells Hi idx row Hc.
    destruct (row_id_present id_col idx row Hc) as (c & Hg & Hr).
    exists c. split_and!; [done..|]. intros e He.
    assert (Hv : vols idx row = Raise e)
      by (unfold vols, volunteer_row; by rewrite Hr, He).
    assert (Hs : schs idx row = Raise e)
      by (unfold schs, school_row; by rewrite Hr, He).
    split_and!; [done..|]. intros Hcaught. apply iterrows_lookup in Hi.
    split; by apply (for_rows_skip_at _ _ _ _ idx row).
  - intros idx row n H. destruct (contains row id_col) eqn:Hc.
    + right. split; [done|].
      destruct (row_id_present id_col idx row Hc) as (c & Hg & Hr).
      exists c. split; congruence.
    + left. rewrite row_id_absent in H by done. split; congruence.
Qed.

(** ** Column Detector *)

Lemma matching_snoc pattern cols col :
  matching pattern (cols ++ [col]) =
  if bool_decide (lower col = pattern) then Some col else matching pattern cols.
Proof.
  unfold matching. rewrite filter_app, filter_cons, filter_nil.
  case_bool_decide; case_decide; try done.
  - by rewrite last_snoc.
  - by rewrite app_nil_r.
Qed.

Lemma columns_lower_lookup (df : DataFrame) pattern :
  columns_lower df !! pattern = matching pattern (columns df).
Proof.
  unfold columns_lower. induction (columns df) as [|col cols IH] using rev_ind; [done|].
  rewrite foldl_snoc, matching_snoc, lookup_insert.
  case_decide; case_bool_decide; done.
Qed.

Lemma detect_lookup cols lowered role patterns (mapping : gmap string string) r :
  (∀ p, lowered !! p = matching p cols) →
  detect lowered role patterns mapping !! r =
  if bool_decide (r = role) then
    match first_candidate cols patterns with
    | Some col => Some col
    | None => mapping !! r
    end
  else mapping !! r.
Proof.
  intros Hl. induction patterns as [|p ps IH]; cbn [detect first_candidate].
  - by case_bool_decide.
  - rewrite Hl. destruct (matching p cols) as [col|]; [|done].
    clear IH. rewrite lookup_insert.
    destruct (decide (role = r)); case_bool_decide; congruence.
Qed.

(** [matching] picks the last column with the given lower-case name. *)
Lemma matching_Some pattern cols col :
  matching pattern cols = Some col ↔
  ∃ before after, cols = before ++ col :: after ∧ lower col = pattern ∧
    Forall (λ col', lower col' ≠ pattern) after.
Proof.
  induction cols as [|x cols IH] using rev_ind.
  - split; [done|]. intros (before & after & H & _). by destruct before.
  - rewrite matching_snoc. case_bool_decide as Hx; split.
    + intros [= ->]. exists cols, []. by split_and!.
    + intros (before & after & H & Hc & Ha).
      destruct after as [|y after _] using rev_ind.
      * apply app_inj_tail in H as [_ ->]. done.
      * rewrite app_comm_cons, app_assoc in H. apply app_inj_tail in H as [_ ->].
        apply Forall_app in Ha as [_ Ha]. by inversion Ha.
    + intros (before & after & -> & Hc & Ha)%IH.
      exists before, (after ++ [x]). rewrite <- app_assoc. split_and!; [done..|].
      apply Forall_app. split; [done|]. by constructor.
    + intros (before & after & H & Hc & Ha).
      destruct after as [|y after _] using rev_ind.
      * apply app_inj_tail in H as [_ ->]. done.
      * rewrite app_comm_cons, app_assoc in H. apply app_inj_tail in H as [-> ->].
        apply Forall_app in Ha as [Ha _]. apply IH. eauto.
Qed.

Lemma matching_None pattern cols :
  matching pattern cols = None ↔ ∀ col, col ∈ cols → lower col ≠ pattern.
Proof.
  unfold matching. rewrite last_None. split.
  - intros H col Hin Hc. exact (filter_nil_not_elem_of _ cols col H Hc Hin).
  - intros H. destruct (filter _ cols) as [|x l] eqn:Hf; [done|].
    assert (Hx : x ∈ filter (λ col, lower col = pattern) cols) by (rewrite Hf; by left).
    apply list_elem_of_filter in Hx as [Hx Hin]. by destruct (H x).
Qed.

Lemma first_candidate_Some cols patterns col :
  first_candidate cols patterns = Some col ↔
  ∃ earlier pattern later, patterns = earlier ++ pattern :: later ∧
    Forall (λ p, matching p cols = None) earlier ∧ matching pattern cols = Some col.
Proof.
  induction patterns as [|p ps IH]; cbn [first_candidate].
  - split; [done|]. intros (earlier & ? & ? & H & _). by destruct earlier.
  - destruct (matching p cols) as [c|] eqn:Hp; split.
    + intros [= ->]. by exists [], p, ps.
    + intros ([|q earlier] & pattern & later & H & He & Hm).
      * injection H as -> ->. congruence.
      * injection H as -> ->. inversion He; congruence.
    + intros (earlier & pattern & later & -> & He & Hm)%IH.
      exists (p :: earlier), pattern, later. split_and!; [done| |done]. by constructor.
    + intros ([|q earlier] & pattern & later & H & He & Hm).
      * injection H as -> ->. congruence.
      * injection H as -> ->. inversion He; subst. apply IH. eauto 10.
Qed.

Lemma first_candidate_None cols patterns :
  first_candidate cols patterns = None ↔ Forall (λ p, matching p cols = None) patterns.
Proof.
  induction patterns as [|p ps IH]; cbn [first_candidate]; [done|].
  destruct (matching p cols) eqn:Hp.
  - split; [done|]. inversion 1; congruence.
  - rewrite IH. split; [by constructor|by inversion 1].
Qed.

Lemma auto_detect_columns_lookup (df : DataFrame) data_type role :
  auto_detect_columns df data_type !! role =
  first_candidate (columns df) (candidates data_type role).
Proof.
  pose proof (columns_lower_lookup df) as Hl.
  unfold auto_detect_columns, candidates.
  repeat case_bool_decide; subst; try done.
  all: rewrite !(detect_lookup (columns df)) by done.
  all: repeat (case_bool_decide; try congruence).
  all: rewrite ?lookup_empty; try done.
  all: repeat (destruct (first_candidate _ _); try done).
Qed.

(** C3 (as amended).  For every table, dataset and role, the detector
    maps the role to the column selected by the first candidate, in the
    fixed order, that equals some column of the table once that column
    is lower-cased, and leaves the role out when no candidate does; the
    column selected is the last one of the table with that lower-case
    name.  So on a table with a column named [lat] the role [lat] is
    mapped, whatever the other columns, to a column spelled [lat] up to
    letter case, which is the column [lat] itself unless another column
    differs from it only in case.  Lower-casing is that of
    [str.lower()], whatever it does outside ASCII: a header that it
    sends to a candidate is matched, as is one spelled with the Kelvin
    sign. *)
Theorem detector_first_matching_candidate (df : DataFrame) (data_type role : string) :
  auto_detect_columns df data_type !! role =
    first_candidate (columns df) (candidates data_type role)
  ∧ (∀ col, auto_detect_columns df data_type !! role = Some col ↔
       ∃ earlier pattern later,
         candidates data_type role = earlier ++ pattern :: later
         ∧ (∀ p c, p ∈ earlier → c ∈ columns df → lower c ≠ p)
         ∧ ∃ before after, columns df = before ++ col :: after ∧ lower col = pattern
             ∧ Forall (λ c, lower c ≠ pattern) after)
  ∧ (auto_detect_columns df data_type !! role = None ↔
       ∀ p c, p ∈ candidates data_type role → c ∈ columns df → lower c ≠ p)
  ∧ (data_type ∈ ["books"; "volunteers"; "schools"] → "lat" ∈ columns df →
     ∃ col, auto_detect_columns df data_type !! "lat" = Some col
       ∧ lower col = "lat"
       ∧ (∃ before after, columns df = before ++ col :: after
            ∧ Forall (λ c, lower c ≠ "lat") after)
       ∧ ((∀ c, c ∈ columns df → lower c = "lat" → c = "lat") → col = "lat")).
Proof.
  split_and!.
  - apply auto_detect_columns_lookup.
  - intros col. rewrite auto_detect_columns_lookup, first_candidate_Some.
    split.
    + intros (earlier & pattern & later & Hc & He & Hm).
      exists earlier, pattern, later. split_and!; [done| |by apply matching_Some].
      intros p c Hp. rewrite Forall_forall in He. by apply matching_None, He.
    + intros (earlier & pattern & later & Hc & He & Hm).
      exists earlier, pattern, later. split_and!; [done| |by apply matching_Some].
      apply Forall_forall. intros p Hp. apply matching_None. eauto.
  - rewrite auto_detect_columns_lookup, first_candidate_None, Forall_forall.
    split.
    + intros H p c Hp. by apply matching_None, H.
    + intros H p Hp. apply matching_None. eauto.
  - intros Hk Hlat.
    assert (Hc : ∃ rest, candidates data_type "lat" = "lat" :: rest).
    { rewrite !elem_of_cons, elem_of_nil in Hk.
      destruct Hk as [->|[->|[->|[]]]]; eexists; reflexivity. }
    destruct Hc as [rest Hc].
    destruct (matching "lat" (columns df)) as [col|] eqn:Hm.
    + exists col. rewrite auto_detect_columns_lookup, Hc. cbn [first_candidate].
      rewrite Hm. apply matching_Some in Hm as (before & after & Hcols & Hl & Ha).
      split_and!; [done..|eauto|].
      intros Hu. apply Hu; [|done]. rewrite Hcols. apply elem_of_app. right. by left.
    + rewrite matching_None in Hm. destruct (Hm "lat" Hlat).
      exact (lower_ascii_text "lat" eq_refl).
Qed.

(** ** Default identifiers *)

(** C5.  In a volunteer or school table without the identifier column,
    every record returned carries as id the 1-based position of the row
    it was coerced from, the records following the order of the rows;
    when no row is dropped the ids are 1, 2, ..., n.  The parsers do
    return when the rows fail only with handled exceptions.  A table in
    which the detector finds no identifier column is such a table: the
    fallback name [id] is not one of its columns. *)
Theorem default_ids_are_row_positions (df : DataFrame)
    (id_col lat_col lng_col name_col count_col : string) :
  let vols := volunteer_row id_col lat_col lng_col name_col count_col in
  let schs := school_row id_col lat_col lng_col name_col count_col in
  (∀ data_type, data_type ∈ ["volunteers"; "schools"] →
     auto_detect_columns df data_type !! "id" = None →
     get (auto_detect_columns df data_type) "id" ∉ columns df)
  ∧ (id_col ∉ columns df →
  (∀ out recs,
     parse_volunteers df id_col lat_col lng_col name_col count_col = (out, Ok recs) →
     (∃ positions : list nat,
        StronglySorted lt positions ∧
        Forall2 (λ r i, ∃ cells, values df !! i = Some cells ∧
                   vols (Z.of_nat i) (zip (columns df) cells) = Ok r ∧
                   vol_id r = Z.of_nat i + 1) recs positions)
     ∧ (length recs = length (data df) →
        vol_id <$> recs = (λ i, Z.of_nat i + 1) <$> seq 0 (length (data df))))
  ∧ (∀ out recs,
       parse_schools df id_col lat_col lng_col name_col count_col = (out, Ok recs) →
       (∃ positions : list nat,
          StronglySorted lt positions ∧
          Forall2 (λ r i, ∃ cells, values df !! i = Some cells ∧
                     schs (Z.of_nat i) (zip (columns df) cells) = Ok r ∧
                     sch_id r = Z.of_nat i + 1) recs positions)
       ∧ (length recs = length (data df) →
          sch_id <$> recs = (λ i, Z.of_nat i + 1) <$> seq 0 (length (data df))))
  ∧ (handled vols (iterrows df) = true →
     ∃ out recs,
       parse_volunteers df id_col lat_col lng_col name_col count_col = (out, Ok recs))
  ∧ (handled schs (iterrows df) = true →
     ∃ out recs,
       parse_schools df id_col lat_col lng_col name_col count_col = (out, Ok recs))).
Proof.
  intros vols schs. split.
  { intros data_type Hk Hnone. unfold get. rewrite Hnone. cbn [default].
    rewrite auto_detect_columns_lookup, first_candidate_None, Forall_forall in Hnone.
    intros Hin. apply (matching_None "id" (columns df)) with (col := "id");
      [|done|exact (lower_ascii_text "id" eq_refl)].
    apply Hnone. rewrite !elem_of_cons, elem_of_nil in Hk.
    destruct Hk as [->|[->|[]]]; by left. }
  intros Hid.
  pose proof (λ cells, contains_zip_absent (columns df) cells id_col Hid) as Habs.
  split_and!;
    [| |intros H; unfold parse_volunteers; rewrite for_rows_handled by done; eauto
     |intros H; unfold parse_schools; rewrite for_rows_handled by done; eauto].
  all: intros out recs H; apply for_rows_Ok in H as (_ & _ & ->); cbn [app];
    unfold iterrows; (split; [|intros Hlen]).
  - destruct (coerced_positions vols
                (λ i cells, (Z.of_nat i, zip (columns df) cells)) (values df))
      as (ps & Hs & HF).
    exists ps. split; [done|]. eapply Forall2_impl; [done|]. cbn.
    intros r i (cells & Hi & Hb). exists cells. split_and!; [done..|].
    eapply volunteer_default_id; [apply Habs|exact Hb].
  - rewrite <- (length_values df) in Hlen |- *.
    apply Forall2_fmap_eq. eapply Forall2_impl; [by apply coerced_all_positions|].
    cbn. intros r i (cells & Hi & Hb). eapply volunteer_default_id; [apply Habs|exact Hb].
  - destruct (coerced_positions schs
                (λ i cells, (Z.of_nat i, zip (columns df) cells)) (values df))
      as (ps & Hs & HF).
    exists ps. split; [done|]. eapply Forall2_impl; [done|]. cbn.
    intros r i (cells & Hi & Hb). exists cells. split_and!; [done..|].
    eapply school_default_id; [apply Habs|exact Hb].
  - rewrite <- (length_values df) in Hlen |- *.
    apply Forall2_fmap_eq. eapply Forall2_impl; [by apply coerced_all_positions|].
    cbn. intros r i (cells & Hi & Hb). eapply school_default_id; [apply Habs|exact Hb].
Qed.

(** ** Workbook Loader *)

Lemma bind_lift_Ok {A B} (a : A) (k : A → io B) : (x ← lift (Ok a); k x) = k a.
Proof. unfold lift. cbn. by destruct (k a). Qed.

Lemma bind_lift_Raise {A B} e (k : A → io B) : (x ← lift (Raise e); k x) = ([], Raise e).
Proof. done. Qed.

Lemma bind_ext {A B} (m : io A) (k1 k2 : A → io B) :
  (∀ a, k1 a = k2 a) → (m ≫= k1) = (m ≫= k2).
Proof. intros H. destruct m as [out [a|e]]; cbn; [by rewrite H|done]. Qed.

Lemma read_excel_None (excel_file : workbook) sheet_name :
  read_excel excel_file sheet_name = None ↔ sheet_name ∉ excel_file.*1.
Proof.
  induction excel_file as [|[name df] sheets IH]; cbn.
  - split; [intros _; apply not_elem_of_nil|done].
  - rewrite not_elem_of_cons. case_bool_decide as Hn.
    + split; [done|]. by intros [? _].
    + rewrite IH. split; [by split|by intros [_ ?]].
Qed.

(** The loader by the outcome of [file_path.exists()]. *)
Lemma parse_excel_file_found w file_path sheet_names column_mappings :
  path_exists w file_path = Ok true →
  parse_excel_file w file_path sheet_names column_mappings =
    (excel_file ←
       lift (from_option Ok (Raise (read_error w file_path)) (ExcelFile w file_path));
     _ ← print (AvailableSheets excel_file.*1);
     '(cm, book_data) ←
       parse_books_block excel_file (default no_selection sheet_names)
         (default ∅ column_mappings);
     '(cm, vols) ←
       parse_volunteers_block excel_file (default no_selection sheet_names) cm;
     '(cm, schs) ← parse_schools_block excel_file (default no_selection sheet_names) cm;
     mret {| bookData := book_data; volunteers := vols; schools := schs |}).
Proof. intros He. unfold parse_excel_file. rewrite He. by rewrite bind_lift_Ok. Qed.

Lemma parse_excel_file_missing w file_path sheet_names column_mappings :
  path_exists w file_path = Ok false →
  parse_excel_file w file_path sheet_names column_mappings =
    ([], Raise (FileNotFoundError file_path)).
Proof. intros He. unfold parse_excel_file. by rewrite He. Qed.

Lemma parse_excel_file_unexamined w file_path sheet_names column_mappings e :
  path_exists w file_path = Raise e →
  parse_excel_file w file_path sheet_names column_mappings = ([], Raise e).
Proof. intros He. unfold parse_excel_file. by rewrite He. Qed.

Lemma path_exists_Raise w file_path e :
  path_exists w file_path = Raise e → e = OSError file_path.
Proof. unfold path_exists. destruct (stat_error w file_path); congruence. Qed.

Lemma no_selection_lookup :
  no_selection !! "books" = Some None ∧ no_selection !! "volunteers" = Some None
  ∧ no_selection !! "schools" = Some None.
Proof. by vm_compute. Qed.

Lemma parse_books_block_reads (excel_file : workbook) sheet_names column_mappings name df :
  is_Some (sheet_names !! "books") →
  books_sheet sheet_names excel_file.*1 = Ok name →
  read_excel excel_file name = Some df →
  parse_books_block excel_file sheet_names column_mappings =
    load_books name df column_mappings.
Proof.
  intros Hs Hn Hr. unfold parse_books_block.
  rewrite bool_decide_eq_true_2 by done. by rewrite Hn, bind_lift_Ok, Hr.
Qed.

Lemma parse_volunteers_block_reads (excel_file : workbook) sheet_names column_mappings
    name df :
  is_Some (sheet_names !! "volunteers") →
  volunteers_sheet sheet_names excel_file.*1 = Ok name →
  read_excel excel_file name = Some df →
  parse_volunteers_block excel_file sheet_names column_mappings =
    load_volunteers name df column_mappings.
Proof.
  intros Hs Hn Hr. unfold parse_volunteers_block.
  rewrite bool_decide_eq_true_2 by done. by rewrite Hn, bind_lift_Ok, Hr.
Qed.

Lemma parse_schools_block_reads (excel_file : workbook) sheet_names column_mappings
    name df :
  is_Some (sheet_names !! "schools") →
  schools_sheet sheet_names excel_file.*1 = Ok name →
  read_excel excel_file name = Some df →
  parse_schools_block excel_file sheet_names column_mappings =
    load_schools name df column_mappings.
Proof.
  intros Hs Hn Hr. unfold parse_schools_block.
  rewrite bool_decide_eq_true_2 by done. by rewrite Hn, bind_lift_Ok, Hr.
Qed.

(** C4 (as amended).  For each dataset that the sheet selection lists,
    the loader reads the sheet with the explicit name when that name is
    given and not empty, and otherwise the 1st sheet for books, the 2nd
    for volunteers (the 1st when there is only one) and the 3rd for
    schools (the 1st when there are fewer than three); a dataset that
    the selection does not list is not read and stays empty.  Without a
    selection all three are listed, so a workbook of three sheets has
    its books read from sheet 1, volunteers from sheet 2 and schools
    from sheet 3. *)
Theorem sheet_resolution (excel_file : workbook)
    (sheet_names : gmap string (option string))
    (column_mappings : gmap string (gmap string string)) :
  let available := excel_file.*1 in
  let selected key := truthy (mjoin (sheet_names !! key)) in
  ((∀ name, selected "books" = Some name →
      books_sheet sheet_names available = Ok name)
   ∧ (∀ name, selected "volunteers" = Some name →
        volunteers_sheet sheet_names available = Ok name)
   ∧ (∀ name, selected "schools" = Some name →
        schools_sheet sheet_names available = Ok name))
  ∧ ((selected "books" = None → ∀ s1 rest, available = s1 :: rest →
        books_sheet sheet_names available = Ok s1)
     ∧ (selected "volunteers" = None →
          (∀ s1 s2 rest, available = s1 :: s2 :: rest →
             volunteers_sheet sheet_names available = Ok s2)
          ∧ (∀ s1, available = [s1] → volunteers_sheet sheet_names available = Ok s1))
     ∧ (selected "schools" = None →
          (∀ s1 s2 s3 rest, available = s1 :: s2 :: s3 :: rest →
             schools_sheet sheet_names available = Ok s3)
          ∧ (∀ s1 rest, available = s1 :: rest → (length rest < 2)%nat →
               schools_sheet sheet_names available = Ok s1)))
  ∧ ((∀ name df, is_Some (sheet_names !! "books") →
        books_sheet sheet_names available = Ok name →
        read_excel excel_file name = Some df →
        parse_books_block excel_file sheet_names column_mappings =
          load_books name df column_mappings)
     ∧ (∀ name df, is_Some (sheet_names !! "volunteers") →
          volunteers_sheet sheet_names available = Ok name →
          read_excel excel_file name = Some df →
          parse_volunteers_block excel_file sheet_names column_mappings =
            load_volunteers name df column_mappings)
     ∧ (∀ name df, is_Some (sheet_names !! "schools") →
          schools_sheet sheet_names available = Ok name →
          read_excel excel_file name = Some df →
          parse_schools_block excel_file sheet_names column_mappings =
            load_schools name df column_mappings))
  ∧ ((sheet_names !! "books" = None →
        parse_books_block excel_file sheet_names column_mappings =
          mret (column_mappings, []))
     ∧ (sheet_names !! "volunteers" = None →
          parse_volunteers_block excel_file sheet_names column_mappings =
            mret (column_mappings, []))
     ∧ (sheet_names !! "schools" = None →
          parse_schools_block excel_file sheet_names column_mappings =
            mret (column_mappings, [])))
  ∧ (∀ (w : World) file_path s1 df1 s2 df2 s3 df3,
       path_exists w file_path = Ok true →
       ExcelFile w file_path = Some [(s1, df1); (s2, df2); (s3, df3)] →
       s1 ≠ s2 → s1 ≠ s3 → s2 ≠ s3 →
       parse_excel_file w file_path None (Some column_mappings) =
         (_ ← print (AvailableSheets [s1; s2; s3]);
          '(column_mappings, book_data) ← load_books s1 df1 column_mappings;
          '(column_mappings, volunteers) ← load_volunteers s2 df2 column_mappings;
          '(column_mappings, schools) ← load_schools s3 df3 column_mappings;
          mret {| bookData := book_data; volunteers := volunteers;
                  schools := schools |})).
Proof.
  intros available selected. split_and!.
  - intros name H. unfold books_sheet. fold (selected "books"). by rewrite H.
  - intros name H. unfold volunteers_sheet. fold (selected "volunteers"). by rewrite H.
  - intros name H. unfold schools_sheet. fold (selected "schools"). by rewrite H.
  - intros H s1 rest Ha. unfold books_sheet. fold (selected "books").
    by rewrite H, Ha.
  - intros H. unfold volunteers_sheet. fold (selected "volunteers"). rewrite H.
    split; [intros s1 s2 rest Ha|intros s1 Ha]; by rewrite Ha.
  - intros H. unfold schools_sheet. fold (selected "schools"). rewrite H.
    split; [intros s1 s2 s3 rest Ha|intros s1 rest Ha Hl]; rewrite Ha; [done|].
    cbn [length]. case_bool_decide; [lia|done].
  - apply parse_books_block_reads.
  - apply parse_volunteers_block_reads.
  - apply parse_schools_block_reads.
  - intros H. unfold parse_books_block. rewrite bool_decide_eq_false_2; [done|].
    rewrite H. by intros [? [=]].
  - intros H. unfold parse_volunteers_block. rewrite bool_decide_eq_false_2; [done|].
    rewrite H. by intros [? [=]].
  - intros H. unfold parse_schools_block. rewrite bool_decide_eq_false_2; [done|].
    rewrite H. by intros [? [=]].
  - intros w file_path s1 df1 s2 df2 s3 df3 He Hw H12 H13 H23.
    destruct no_selection_lookup as (Hb & Hv & Hs).
    rewrite parse_excel_file_found by done. rewrite Hw. cbn [default from_option].
    rewrite bind_lift_Ok. apply bind_ext. intros _.
    set (wb := [(s1, df1); (s2, df2); (s3, df3)]).
    rewrite (parse_books_block_reads wb _ _ s1 df1); first last.
    { cbn. by rewrite bool_decide_eq_true_2. }
    { unfold books_sheet. by rewrite Hb. }
    { by rewrite Hb. }
    apply bind_ext. intros [cm1 book_data].
    rewrite (parse_volunteers_block_reads wb _ _ s2 df2); first last.
    { cbn. rewrite bool_decide_eq_false_2 by done. by rewrite bool_decide_eq_true_2. }
    { unfold volunteers_sheet. by rewrite Hv. }
    { by rewrite Hv. }
    apply bind_ext. intros [cm2 vols].
    rewrite (parse_schools_block_reads wb _ _ s3 df3); first last.
    { cbn. rewrite !bool_decide_eq_false_2 by done. by rewrite bool_decide_eq_true_2. }
    { unfold schools_sheet. by rewrite Hs. }
    { by rewrite Hs. }
    reflexivity.
Qed.

(** *** Exceptions of the loader *)

Lemma bind_Raise {A B} (m : io A) (k : A → io B) out e :
  (m ≫= k) = (out, Raise e) →
  (∃ out1, m = (out1, Raise e))
  ∨ (∃ out1 a out2, m = (out1, Ok a) ∧ k a = (out2, Raise e)).
Proof.
  destruct m as [out1 [a|e1]]; cbn.
  - destruct (k a) as [out2 r] eqn:Hk. intros [= <- ->]. right. eauto.
  - intros [= <- <-]. left. eauto.
Qed.

Lemma bind_Ok {A B} (m : io A) (k : A → io B) out b :
  (m ≫= k) = (out, Ok b) →
  ∃ out1 a out2, m = (out1, Ok a) ∧ k a = (out2, Ok b) ∧ out = out1 ++ out2.
Proof.
  destruct m as [out1 [a|e1]]; cbn; [|done].
  destruct (k a) as [out2 r] eqn:Hk. intros [= <- ->]. eauto 10.
Qed.

Lemma finds_bind {A B} (m : io A) (k : A → io B) :
  finds_its_files m → (∀ a, finds_its_files (k a)) → finds_its_files (m ≫= k).
Proof.
  intros Hm Hk out e [(out1 & H)|(out1 & a & out2 & _ & H)]%bind_Raise.
  - by eapply Hm.
  - by eapply Hk.
Qed.

Lemma finds_print ev : finds_its_files (print ev).
Proof. by intros out e. Qed.

Lemma finds_mret {A} (a : A) : finds_its_files (mret a).
Proof. by intros out e. Qed.

Lemma getitem_Raise row col e : getitem row col = Raise e → e = KeyError col.
Proof.
  induction row as [|[label c] row IH]; cbn; [congruence|].
  case_bool_decide; [done|apply IH].
Qed.

Lemma py_float_Raise c e : py_float c = Raise e → is_not_found e = false.
Proof.
  destruct c; cbn; try by intros [= <-].
  - destruct (float_of_int _); by intros [= <-].
  - destruct (float_of_str _); by intros [= <-].
  - destruct (float_of_int _); by intros [= <-].
Qed.

Lemma py_int_Raise c e : py_int c = Raise e → is_not_found e = false.
Proof.
  destruct c; cbn; try by intros [= <-].
  - destruct (int_of_float _); by intros [= <-].
  - destruct (int_of_str _); by intros [= <-].
Qed.

Ltac row_raise H :=
  repeat match type of H with
  | mbind _ ?m = Raise _ =>
      let E := fresh "E" in
      destruct m eqn:E; cbn [mbind result_bind] in H;
      [|injection H as <-;
        first [ by apply getitem_Raise in E as ->
              | by eapply py_float_Raise | by eapply py_int_Raise ]]
  end.

Lemma row_id_Raise id_col idx row e :
  row_id id_col idx row = Raise e → is_not_found e = false.
Proof.
  unfold row_id. destruct (contains row id_col); [|done].
  intros H. row_raise H. by eapply py_int_Raise.
Qed.

Lemma book_row_Raise lat_col lng_col count_col idx row e :
  book_row lat_col lng_col count_col idx row = Raise e → is_not_found e = false.
Proof. unfold book_row. intros H. row_raise H. done. Qed.

Lemma volunteer_row_Raise id_col lat_col lng_col name_col books_col idx row e :
  volunteer_row id_col lat_col lng_col name_col books_col idx row = Raise e →
  is_not_found e = false.
Proof.
  unfold volunteer_row. intros H.
  destruct (row_id id_col idx row) eqn:Hid; cbn [mbind result_bind] in H.
  - row_raise H. done.
  - injection H as <-. by eapply row_id_Raise.
Qed.

Lemma school_row_Raise id_col lat_col lng_col name_col students_col idx row e :
  school_row id_col lat_col lng_col name_col students_col idx row = Raise e →
  is_not_found e = false.
Proof.
  unfold school_row. intros H.
  destruct (row_id id_col idx row) eqn:Hid; cbn [mbind result_bind] in H.
  - row_raise H. done.
  - injection H as <-. by eapply row_id_Raise.
Qed.

Lemma for_rows_Raise {R} what (body : Z → Series → result R) rows acc out out' e :
  for_rows what body rows acc out = (out', Raise e) →
  ∃ idx row, body idx row = Raise e ∧ caught e = false.
Proof.
  revert acc out. induction rows as [|[idx row] rows IH]; intros acc out; cbn; [done|].
  destruct (body idx row) as [r|e1] eqn:Hb; [apply IH|].
  destruct (caught e1) eqn:Hc; [apply IH|]. intros [= <- <-]. eauto.
Qed.

Lemma finds_mapping_for data_type df column_mappings :
  finds_its_files (mapping_for data_type df column_mappings).
Proof. unfold mapping_for. by destruct (column_mappings !! data_type); intros out e. Qed.

Lemma finds_item {A} l i (k : string → io A) :
  (∀ a, finds_its_files (k a)) → finds_its_files (x ← lift (item l i); k x).
Proof.
  intros Hk. unfold item. destruct (l !! i); cbn [from_option].
  - rewrite bind_lift_Ok. apply Hk.
  - by intros out e [= <- <-].
Qed.

Lemma finds_load_books sheet_name df column_mappings :
  finds_its_files (load_books sheet_name df column_mappings).
Proof.
  unfold load_books. repeat (apply finds_bind; [apply finds_print|intros _]).
  apply finds_bind; [apply finds_mapping_for|intros [cm mapping]].
  apply finds_bind.
  - intros out e (idx & row & H & _)%for_rows_Raise. by eapply book_row_Raise.
  - intros recs. apply finds_bind; [apply finds_print|intros _; apply finds_mret].
Qed.

Lemma finds_load_volunteers sheet_name df column_mappings :
  finds_its_files (load_volunteers sheet_name df column_mappings).
Proof.
  unfold load_volunteers. repeat (apply finds_bind; [apply finds_print|intros _]).
  apply finds_bind; [apply finds_mapping_for|intros [cm mapping]].
  apply finds_bind.
  - intros out e (idx & row & H & _)%for_rows_Raise. by eapply volunteer_row_Raise.
  - intros recs. apply finds_bind; [apply finds_print|intros _; apply finds_mret].
Qed.

Lemma finds_load_schools sheet_name df column_mappings :
  finds_its_files (load_schools sheet_name df column_mappings).
Proof.
  unfold load_schools. repeat (apply finds_bind; [apply finds_print|intros _]).
  apply finds_bind; [apply finds_mapping_for|intros [cm mapping]].
  apply finds_bind.
  - intros out e (idx & row & H & _)%for_rows_Raise. by eapply school_row_Raise.
  - intros recs. apply finds_bind; [apply finds_print|intros _; apply finds_mret].
Qed.

Lemma finds_books_block excel_file sheet_names column_mappings :
  finds_its_files (parse_books_block excel_file sheet_names column_mappings).
Proof.
  unfold parse_books_block. case_bool_decide; [|apply finds_mret].
  assert (Hk : ∀ name, finds_its_files
    match read_excel excel_file name with
    | Some df => load_books name df column_mappings
    | None => mret (column_mappings, [])
    end)
    by (intros name; destruct (read_excel _ _); [apply finds_load_books|apply finds_mret]).
  unfold books_sheet. destruct (truthy _); [by rewrite bind_lift_Ok|].
  by apply finds_item.
Qed.

Lemma finds_volunteers_block excel_file sheet_names column_mappings :
  finds_its_files (parse_volunteers_block excel_file sheet_names column_mappings).
Proof.
  unfold parse_volunteers_block. case_bool_decide; [|apply finds_mret].
  assert (Hk : ∀ name, finds_its_files
    match read_excel excel_file name with
    | Some df => load_volunteers name df column_mappings
    | None => mret (column_mappings, [])
    end)
    by (intros name; destruct (read_excel _ _);
        [apply finds_load_volunteers|apply finds_mret]).
  unfold volunteers_sheet. destruct (truthy _); [by rewrite bind_lift_Ok|].
  case_bool_decide; by apply finds_item.
Qed.

Lemma finds_schools_block excel_file sheet_names column_mappings :
  finds_its_files (parse_schools_block excel_file sheet_names column_mappings).
Proof.
  unfold parse_schools_block. case_bool_decide; [|apply finds_mret].
  assert (Hk : ∀ name, finds_its_files
    match read_excel excel_file name with
    | Some df => load_schools name df column_mappings
    | None => mret (column_mappings, [])
    end)
    by (intros name; destruct (read_excel _ _);
        [apply finds_load_schools|apply finds_mret]).
  unfold schools_sheet. destruct (truthy _); [by rewrite bind_lift_Ok|].
  case_bool_decide; by apply finds_item.
Qed.

Lemma books_block_missing excel_file sheet_names column_mappings name :
  books_sheet sheet_names excel_file.*1 = Ok name → name ∉ excel_file.*1 →
  parse_books_block excel_file sheet_names column_mappings = mret (column_mappings, []).
Proof.
  intros Hn Hm%read_excel_None. unfold parse_books_block.
  case_bool_decide; [|done]. by rewrite Hn, bind_lift_Ok, Hm.
Qed.

Lemma volunteers_block_missing excel_file sheet_names column_mappings name :
  volunteers_sheet sheet_names excel_file.*1 = Ok name → name ∉ excel_file.*1 →
  parse_volunteers_block excel_file sheet_names column_mappings =
    mret (column_mappings, []).
Proof.
  intros Hn Hm%read_excel_None. unfold parse_volunteers_block.
  case_bool_decide; [|done]. by rewrite Hn, bind_lift_Ok, Hm.
Qed.

Lemma schools_block_missing excel_file sheet_names column_mappings name :
  schools_sheet sheet_names excel_file.*1 = Ok name → name ∉ excel_file.*1 →
  parse_schools_block excel_file sheet_names column_mappings = mret (column_mappings, []).
Proof.
  intros Hn Hm%read_excel_None. unfold parse_schools_block.
  case_bool_decide; [|done]. by rewrite Hn, bind_lift_Ok, Hm.
Qed.

(** C6 (as amended).  The loader ends with [FileNotFoundError] exactly
    when [file_path.exists()] returns false, or when pandas itself
    reports it while opening a path that was found.  When the check
    cannot examine the path it raises [OSError], and that is how the
    loader ends, whether or not a file is there.  A dataset whose
    resolved sheet name is not a sheet of the workbook raises nothing:
    its block returns the empty sequence and prints nothing, every
    aggregate the loader returns has that dataset empty, and when this
    holds for all three datasets the loader returns the three empty
    sequences. *)
Theorem loader_not_found_and_missing_sheet (w : World) (file_path : string)
    (sheet_names : option (gmap string (option string)))
    (column_mappings : option (gmap string (gmap string string))) :
  let selection := default no_selection sheet_names in
  let mappings := default ∅ column_mappings in
  ((∃ out path, parse_excel_file w file_path sheet_names column_mappings =
                  (out, Raise (FileNotFoundError path)))
   ↔ path_exists w file_path = Ok false
     ∨ (path_exists w file_path = Ok true ∧ ExcelFile w file_path = None
        ∧ is_not_found (read_error w file_path) = true))
  ∧ (path_exists w file_path = Ok false →
     parse_excel_file w file_path sheet_names column_mappings =
       ([], Raise (FileNotFoundError file_path)))
  ∧ (∀ e, path_exists w file_path = Raise e →
     e = OSError file_path
     ∧ parse_excel_file w file_path sheet_names column_mappings = ([], Raise e))
  ∧ (∀ excel_file cm name,
       (books_sheet selection excel_file.*1 = Ok name → name ∉ excel_file.*1 →
        parse_books_block excel_file selection cm = ([], Ok (cm, [])))
       ∧ (volunteers_sheet selection excel_file.*1 = Ok name → name ∉ excel_file.*1 →
          parse_volunteers_block excel_file selection cm = ([], Ok (cm, [])))
       ∧ (schools_sheet selection excel_file.*1 = Ok name → name ∉ excel_file.*1 →
          parse_schools_block excel_file selection cm = ([], Ok (cm, []))))
  ∧ (∀ excel_file out data,
       ExcelFile w file_path = Some excel_file →
       parse_excel_file w file_path sheet_names column_mappings = (out, Ok data) →
       (∀ name, books_sheet selection excel_file.*1 = Ok name →
          name ∉ excel_file.*1 → bookData data = [])
       ∧ (∀ name, volunteers_sheet selection excel_file.*1 = Ok name →
            name ∉ excel_file.*1 → volunteers data = [])
       ∧ (∀ name, schools_sheet selection excel_file.*1 = Ok name →
            name ∉ excel_file.*1 → schools data = []))
  ∧ (∀ excel_file name1 name2 name3,
       path_exists w file_path = Ok true →
       ExcelFile w file_path = Some excel_file →
       books_sheet selection excel_file.*1 = Ok name1 → name1 ∉ excel_file.*1 →
       volunteers_sheet selection excel_file.*1 = Ok name2 → name2 ∉ excel_file.*1 →
       schools_sheet selection excel_file.*1 = Ok name3 → name3 ∉ excel_file.*1 →
       parse_excel_file w file_path sheet_names column_mappings =
         ([AvailableSheets excel_file.*1],
          Ok {| bookData := []; volunteers := []; schools := [] |})).
Proof.
  intros selection mappings.
  assert (Hopened : ∀ excel_file, finds_its_files
    (_ ← print (AvailableSheets excel_file.*1);
     '(cm, book_data) ← parse_books_block excel_file selection mappings;
     '(cm, vols) ← parse_volunteers_block excel_file selection cm;
     '(cm, schs) ← parse_schools_block excel_file selection cm;
     mret {| bookData := book_data; volunteers := vols; schools := schs |})).
  { intros excel_file. apply finds_bind; [apply finds_print|intros _].
    apply finds_bind; [apply finds_books_block|intros [cm1 book_data]].
    apply finds_bind; [apply finds_volunteers_block|intros [cm2 vols]].
    apply finds_bind; [apply finds_schools_block|intros [cm3 schs]].
    apply finds_mret. }
  split_and!.
  - split.
    + intros (out & path & H).
      destruct (path_exists w file_path) as [[|]|e] eqn:He; [right|by left|].
      * rewrite parse_excel_file_found in H by done. fold selection mappings in H.
        destruct (ExcelFile w file_path) as [excel_file|]; cbn [from_option] in H.
        -- rewrite bind_lift_Ok in H. by apply Hopened in H.
        -- injection H as _ ->. by split_and!.
      * rewrite (parse_excel_file_unexamined _ _ _ _ e) in H by done.
        apply path_exists_Raise in He. congruence.
    + intros [He|(He & Hw & Hr)].
      * rewrite parse_excel_file_missing by done. eauto.
      * rewrite parse_excel_file_found by done. rewrite Hw. cbn [from_option].
        destruct (read_error w file_path) eqn:Hre; try done.
        rewrite bind_lift_Raise. eauto.
  - apply parse_excel_file_missing.
  - intros e He. split; [by eapply path_exists_Raise|].
    by apply parse_excel_file_unexamined.
  - intros excel_file cm name. split_and!.
    + apply books_block_missing.
    + apply volunteers_block_missing.
    + apply schools_block_missing.
  - intros excel_file out data Hw H.
    destruct (path_exists w file_path) as [[|]|e] eqn:He.
    2: { by rewrite parse_excel_file_missing in H. }
    2: { by rewrite (parse_excel_file_unexamined _ _ _ _ e) in H. }
    rewrite parse_excel_file_found in H by done.
    fold selection mappings in H. rewrite Hw in H. cbn [from_option] in H.
    rewrite bind_lift_Ok in H. revert H.
    intros (? & [] & ? & _ & H & _)%bind_Ok.
    apply bind_Ok in H as (? & [cm1 book_data] & ? & Hb & H & _).
    apply bind_Ok in H as (? & [cm2 vols] & ? & Hv & H & _).
    apply bind_Ok in H as (? & [cm3 schs] & ? & Hs & H & _).
    injection H as _ <-. cbn. split_and!; intros name Hn Hm.
    + rewrite (books_block_missing _ _ _ name) in Hb by done. by injection Hb as _ _ <-.
    + rewrite (volunteers_block_missing _ _ _ name) in Hv by done.
      by injection Hv as _ _ <-.
    + rewrite (schools_block_missing _ _ _ name) in Hs by done.
      by injection Hs as _ _ <-.
  - intros excel_file name1 name2 name3 He Hw Hb Hb' Hv Hv' Hs Hs'.
    rewrite parse_excel_file_found by done. rewrite Hw. cbn [from_option].
    fold selection mappings. rewrite bind_lift_Ok.
    rewrite (books_block_missing _ _ _ name1) by done. cbn.
    rewrite (volunteers_block_missing _ _ _ name2) by done. cbn.
    by rewrite (schools_block_missing _ _ _ name3) by done.
Qed.

(** ** Exporter *)

Lemma append_cons (x : ascii) (a b : string) : String x a +:+ b = String x (a +:+ b).
Proof. reflexivity. Qed.

Lemma append_nil (b : string) : EmptyString +:+ b = b.
Proof. reflexivity. Qed.

Lemma append_assoc (a b c : string) : (a +:+ b) +:+ c = a +:+ (b +:+ c).
Proof. induction a as [|x a IH]; [done|]. rewrite !append_cons. by f_equal. Qed.

Lemma lines_cons text : ∃ line rest, lines text = line :: rest.
Proof.
  induction text as [|c text (line & rest & IH)]; cbn; [eauto|].
  case_bool_decide; [eauto|]. rewrite IH. eauto.
Qed.

Lemma lines_nl (a b : string) : lines (a +:+ nl +:+ b) = lines a ++ lines b.
Proof.
  induction a as [|c a IH].
  - unfold nl. rewrite append_nil, append_cons, append_nil. cbn.
    by rewrite bool_decide_eq_true_2.
  - rewrite append_cons. cbn [lines]. rewrite IH. case_bool_decide; [done|].
    by destruct (lines_cons a) as (line & rest & ->).
Qed.

Lemma lines_semicolon (text : string) :
  (Forall (λ line, continuation line = true) (tail (lines text)) →
   Forall (λ line, continuation line = true) (tail (lines (text +:+ ";"))))
  ∧ (Forall (λ line, continuation line = true) (lines text) →
     Forall (λ line, continuation line = true) (lines (text +:+ ";"))).
Proof.
  induction text as [|c text [IHtail IHall]].
  - split; [by constructor|]. by inversion 1.
  - rewrite append_cons. cbn [lines]. case_bool_decide as Hc.
    + split; [apply IHall|]. by inversion 1.
    + destruct (lines_cons text) as (line & rest & Ht).
      destruct (lines_cons (text +:+ ";")) as (line' & rest' & Ht').
      rewrite Ht, Ht' in *. cbn [tail] in *. split; [done|].
      inversion 1; subst. constructor; [done|]. by apply IHtail.
Qed.

Lemma declared_name_continuation line :
  continuation line = true → declared_name line = None.
Proof.
  destruct line as [|c line]; [done|]. unfold declared_name. cbn.
  intros [->%bool_decide_eq_true| ->%bool_decide_eq_true]%orb_true_iff; done.
Qed.

Lemma declared_names_continuation (rest : list string) :
  Forall (λ line, continuation line = true) rest → omap declared_name rest = [].
Proof.
  induction 1 as [|line rest Hl _ IH]; [done|].
  cbn [omap list_omap]. by rewrite declared_name_continuation.
Qed.

Lemma lines_prefix (prefix text line : string) rest :
  lines prefix = [prefix] → lines text = line :: rest →
  lines (prefix +:+ text) = (prefix +:+ line) :: rest.
Proof.
  intros Hp Ht. induction prefix as [|c prefix IH]; [done|].
  rewrite !append_cons. cbn [lines] in *. case_bool_decide; [done|].
  destruct (lines_cons prefix) as (l & r & Hl). rewrite Hl in *.
  injection Hp as -> ->. by rewrite IH.
Qed.

(** The lines of one declaration name that constant and no other. *)
Lemma declared_names_declaration (prefix name value : string) :
  lines prefix = [prefix] →
  (∀ line, declared_name (prefix +:+ line) = Some name) →
  Forall (λ line, continuation line = true) (tail (lines value)) →
  omap declared_name (lines (prefix +:+ value +:+ ";")) = [name].
Proof.
  intros Hp Hn Hv. destruct (lines_cons (value +:+ ";")) as (line & rest & Hl).
  rewrite (lines_prefix _ _ line rest) by done. cbn [omap list_omap]. rewrite Hn.
  apply lines_semicolon in Hv. rewrite Hl in Hv.
  by rewrite declared_names_continuation.
Qed.

(** C8.  When the output file can be opened, the TypeScript exporter
    writes to it the fixed header comment followed by three statements
    [export const bookData = ...;], [export const volunteers = ...;] and
    [export const schools = ...;], in this order, each initialised with
    the JSON text of its array, closed by a semicolon and a line end,
    with one empty line (and a comment line) between consecutive
    statements.  The JSON texts being indented arrays, whose lines after
    the first open with a space or a closing bracket, the lines of the
    file that declare a constant are exactly these three. *)
Theorem typescript_export_layout (w : World) (data : Aggregate) (output_path : string)
    (fs : gmap string string) :
  let books_json := json_dumps (JList (book_dict <$> bookData data)) in
  let volunteers_json := json_dumps (JList (volunteer_dict <$> volunteers data)) in
  let schools_json := json_dumps (JList (school_dict <$> schools data)) in
  let header := "// Auto-generated from Excel file" +:+ nl +:+ "// Book Data" +:+ nl in
  let content :=
    header +:+ declaration "bookData" books_json +:+ nl
    +:+ "// Volunteers" +:+ nl +:+ declaration "volunteers" volunteers_json +:+ nl
    +:+ "// Schools" +:+ nl +:+ declaration "schools" schools_json in
  (writable w output_path = true →
   export_to_typescript w data output_path fs =
     ([ExportedTo "TypeScript" output_path], Ok (<[output_path := content]> fs)))
  ∧ (writable w output_path = false →
     export_to_typescript w data output_path fs = ([], Raise (OSError output_path)))
  ∧ (Forall (λ line, continuation line = true) (tail (lines books_json)) →
     Forall (λ line, continuation line = true) (tail (lines volunteers_json)) →
     Forall (λ line, continuation line = true) (tail (lines schools_json)) →
     declared_names content = ["bookData"; "volunteers"; "schools"]).
Proof.
  intros books_json volunteers_json schools_json header content. split_and!.
  - intros Hw. unfold export_to_typescript. rewrite Hw. cbn [mbind io_bind print mret io_ret].
    do 3 f_equal. fold books_json volunteers_json schools_json.
    unfold content, header, declaration, write. by rewrite !append_assoc.
  - intros Hw. unfold export_to_typescript. by rewrite Hw.
  - intros Hb Hv Hs.
    assert (Hc : content =
      "// Auto-generated from Excel file" +:+ nl +:+ "// Book Data" +:+ nl
      +:+ ("export const bookData = " +:+ books_json +:+ ";") +:+ nl
      +:+ EmptyString +:+ nl +:+ "// Volunteers" +:+ nl
      +:+ ("export const volunteers = " +:+ volunteers_json +:+ ";") +:+ nl
      +:+ EmptyString +:+ nl +:+ "// Schools" +:+ nl
      +:+ ("export const schools = " +:+ schools_json +:+ ";") +:+ nl +:+ EmptyString).
    { unfold content, header, declaration. by rewrite !append_assoc. }
    unfold declared_names. rewrite Hc, !lines_nl, !omap_app.
    rewrite (declared_names_declaration _ "bookData") by done.
    rewrite (declared_names_declaration _ "volunteers") by done.
    rewrite (declared_names_declaration _ "schools") by done.
    reflexivity.
Qed.

(** ** Command line *)

(** C10.  Whatever the [output_format] argument is, as long as its
    lower-case form is neither [ts] nor [typescript] (for instance
    [xml]), the program takes the JSON branch: once the workbook is
    loaded it writes the JSON text to the output file argument, or to
    [data.json] when that argument is missing or empty, and exits with
    status 0.  The only failures are those of loading and of opening
    the output file; the format itself is never one. *)
Theorem unrecognised_format_writes_json (w : World)
    (prog excel_file output_format : string) (rest : list string)
    (fs : gmap string string) :
  lower output_format ≠ "ts" → lower output_format ≠ "typescript" →
  let output_path := default "data.json" (truthy (rest !! 0%nat)) in
  main w (prog :: excel_file :: output_format :: rest) fs =
    match parse_excel_file w excel_file (Some no_selection) None with
    | (out, Ok data) =>
        if writable w output_path then
          {| stdout := out ++ [ExportedTo "JSON" output_path;
                               Summary (length (bookData data))
                                 (length (volunteers data)) (length (schools data))];
             stderr := None; exit_code := 0;
             files := <[output_path := json_dumps (data_dict data)]> fs |}
        else
          {| stdout := out; stderr := Some (OSError output_path); exit_code := 1;
             files := fs |}
    | (out, Raise e) =>
        {| stdout := out; stderr := Some e; exit_code := 1; files := fs |}
    end.
Proof.
  intros Hts Htypescript output_path. unfold main, main_try.
  cbn [lookup list_lookup default].
  rewrite (bool_decide_eq_false_2 _ Hts), (bool_decide_eq_false_2 _ Htypescript).
  cbn [orb]. fold output_path.
  destruct (parse_excel_file w excel_file (Some no_selection) None) as [out [data|e]];
    [|done].
  unfold export_to_json. subst output_path.
  destruct (writable w _); cbn; [done|]. by rewrite app_nil_r.
Qed.

(** * Further properties of the program *)

(** ** Row Coercer *)

(** The loop adds to the records and the lines it starts from. *)
Lemma for_rows_state {R} what (body : Z → Series → result R) rows acc out :
  for_rows what body rows acc out =
  match for_rows what body rows [] [] with
  | (out', Ok recs) => (out ++ out', Ok (acc ++ recs))
  | (out', Raise e) => (out ++ out', Raise e)
  end.
Proof.
  revert acc out. induction rows as [|[idx row] rows IH]; intros acc out.
  - cbn. by rewrite !app_nil_r.
  - cbn [for_rows]. destruct (body idx row) as [r|e].
    + rewrite (IH (acc ++ [r]) out), (IH ([] ++ [r]) []).
      destruct (for_rows what body rows [] []) as [out' [recs|e']]; [|done].
      cbn. by rewrite <- app_assoc.
    + destruct (caught e); [|by rewrite app_nil_r].
      rewrite (IH acc (out ++ [Warning what e])), (IH [] ([] ++ [Warning what e])).
      destruct (for_rows what body rows [] []) as [out' [recs|e']];
        cbn; by rewrite <- app_assoc.
Qed.

Lemma for_rows_raises {R} what (body : Z → Series → result R) rows acc out out' e :
  for_rows what body rows acc out = (out', Raise e) →
  ∃ i idx row,
    rows !! i = Some (idx, row) ∧ body idx row = Raise e ∧ caught e = false
    ∧ handled body (take i rows) = true
    ∧ out' = out ++ (Warning what <$> failures body (take i rows)).
Proof.
  revert acc out. induction rows as [|[idx row] rows IH]; intros acc out; [done|].
  cbn [for_rows]. destruct (body idx row) as [r|e1] eqn:Hb.
  - intros (i & idx' & row' & Hi & Hr & Hc & Hh & ->)%IH.
    exists (S i), idx', row'. unfold handled, failures in *.
    cbn [take forallb omap list_omap]. rewrite Hb. by split_and!.
  - destruct (caught e1) eqn:Hc1.
    + intros (i & idx' & row' & Hi & Hr & Hc & Hh & ->)%IH.
      exists (S i), idx', row'. unfold handled, failures in *.
      cbn [take forallb omap list_omap]. rewrite Hb, Hc1.
      split_and!; [done..|]. cbn. by rewrite <- app_assoc.
    + intros [= <- <-]. exists 0%nat, idx, row. cbn. by rewrite app_nil_r.
Qed.

Lemma for_rows_raises_at {R} what (body : Z → Series → result R) rows out e :
  for_rows what body rows [] [] = (out, Raise e) ↔ raises_at what body rows out e.
Proof.
  unfold raises_at. split; [intros H; by apply for_rows_raises in H|].
  intros (i & idx & row & Hi & Hb & Hc & Hh & ->).
  rewrite <- (take_drop_middle rows i (idx, row)) at 1 by done.
  rewrite for_rows_app, for_rows_handled by done. cbn [app].
  by apply for_rows_abort.
Qed.

Lemma getitem_caught row col e : getitem row col = Raise e → caught e = true.
Proof. by intros ->%getitem_Raise. Qed.

Lemma py_float_escapes c e :
  py_float c = Raise e → caught e = false → escapes_handler e.
Proof.
  unfold escapes_handler. destruct c; cbn.
  - destruct (float_of_int _); intros [= <-]; eauto.
  - done.
  - destruct (float_of_str _); by intros [= <-].
  - destruct (float_of_int _); intros [= <-]; eauto.
  - intros [= <-]; eauto.
Qed.

Lemma py_int_escapes c e :
  py_int c = Raise e → caught e = false → escapes_handler e.
Proof.
  unfold escapes_handler. destruct c; cbn; try done.
  - destruct (int_of_float _); intros [= <-]; (done || eauto).
  - destruct (int_of_str _); by intros [= <-].
  - intros [= <-]; eauto.
Qed.

Ltac row_escapes H Hc :=
  repeat match type of H with
  | mbind _ ?m = Raise _ =>
      let E := fresh "E" in
      destruct m eqn:E; cbn [mbind result_bind] in H;
      [|injection H as <-;
        first [ apply getitem_caught in E; congruence
              | by eapply py_float_escapes | by eapply py_int_escapes ]]
  end.

Lemma row_id_escapes id_col idx row e :
  row_id id_col idx row = Raise e → caught e = false → escapes_handler e.
Proof.
  unfold row_id. destruct (contains row id_col); [|done].
  intros H Hc. row_escapes H Hc. by eapply py_int_escapes.
Qed.

Lemma book_row_escapes lat_col lng_col count_col idx row e :
  book_row lat_col lng_col count_col idx row = Raise e → caught e = false →
  escapes_handler e.
Proof. unfold book_row. intros H Hc. row_escapes H Hc. done. Qed.

Lemma volunteer_row_escapes id_col lat_col lng_col name_col books_col idx row e :
  volunteer_row id_col lat_col lng_col name_col books_col idx row = Raise e →
  caught e = false → escapes_handler e.
Proof.
  unfold volunteer_row. intros H Hc.
  destruct (row_id id_col idx row) eqn:Hid; cbn [mbind result_bind] in H.
  - row_escapes H Hc. done.
  - injection H as <-. by eapply row_id_escapes.
Qed.

Lemma school_row_escapes id_col lat_col lng_col name_col students_col idx row e :
  school_row id_col lat_col lng_col name_col students_col idx row = Raise e →
  caught e = false → escapes_handler e.
Proof.
  unfold school_row. intros H Hc.
  destruct (row_id id_col idx row) eqn:Hid; cbn [mbind result_bind] in H.
  - row_escapes H Hc. done.
  - injection H as <-. by eapply row_id_escapes.
Qed.

Lemma for_rows_returns {R} what (body : Z → Series → result R) rows :
  (∃ out recs, for_rows what body rows [] [] = (out, Ok recs)) ↔
  handled body rows = true.
Proof.
  split.
  - intros (out & recs & H). by apply for_rows_Ok in H as (? & _).
  - intros H. rewrite for_rows_handled by done. eauto.
Qed.

(** X1.  A parser raises exactly when some row fails with an exception
    outside [except (ValueError, KeyError)]: it stops at the first such
    row with that exception, having printed the warnings of the rows
    before it.  The exception is then a [TypeError] or an
    [OverflowError] of [float()] or [int()]; a parser never raises
    [ValueError] or [KeyError], and it returns exactly when every
    failing row is handled. *)
Theorem parser_raises_at_first_unhandled_row (df : DataFrame)
    (id_col lat_col lng_col name_col count_col : string) :
  let books := book_row lat_col lng_col count_col in
  let vols := volunteer_row id_col lat_col lng_col name_col count_col in
  let schs := school_row id_col lat_col lng_col name_col count_col in
  (∀ out e,
     (parse_book_data df lat_col lng_col count_col = (out, Raise e)
      ↔ raises_at "row" books (iterrows df) out e)
     ∧ (parse_volunteers df id_col lat_col lng_col name_col count_col = (out, Raise e)
        ↔ raises_at "volunteer row" vols (iterrows df) out e)
     ∧ (parse_schools df id_col lat_col lng_col name_col count_col = (out, Raise e)
        ↔ raises_at "school row" schs (iterrows df) out e))
  ∧ (∀ out e,
       parse_book_data df lat_col lng_col count_col = (out, Raise e)
       ∨ parse_volunteers df id_col lat_col lng_col name_col count_col = (out, Raise e)
       ∨ parse_schools df id_col lat_col lng_col name_col count_col = (out, Raise e) →
       caught e = false ∧ escapes_handler e)
  ∧ (((∃ out recs, parse_book_data df lat_col lng_col count_col = (out, Ok recs))
      ↔ handled books (iterrows df) = true)
     ∧ ((∃ out recs,
           parse_volunteers df id_col lat_col lng_col name_col count_col = (out, Ok recs))
        ↔ handled vols (iterrows df) = true)
     ∧ ((∃ out recs,
           parse_schools df id_col lat_col lng_col name_col count_col = (out, Ok recs))
        ↔ handled schs (iterrows df) = true)).
Proof.
  intros books vols schs. split_and!.
  - intros out e. split_and!; apply for_rows_raises_at.
  - intros out e [H|[H|H]]; apply for_rows_raises_at in H
      as (i & idx & row & _ & Hb & Hc & _); (split; [done|]).
    + by eapply book_row_escapes.
    + by eapply volunteer_row_escapes.
    + by eapply school_row_escapes.
  - apply for_rows_returns.
  - apply for_rows_returns.
  - apply for_rows_returns.
Qed.

(** *** Missing columns *)

Lemma getitem_zip_absent (cols : list string) (cells : list cell) col :
  col ∉ cols → getitem (zip cols cells) col = Raise (KeyError col).
Proof. intros H. by apply getitem_missing, contains_zip_absent. Qed.

Lemma for_rows_all_skipped {R} what (body : Z → Series → result R) rows e acc out :
  caught e = true →
  (∀ idx row, (idx, row) ∈ rows → body idx row = Raise e) →
  for_rows what body rows acc out =
    (out ++ replicate (length rows) (Warning what e), Ok acc).
Proof.
  intros Hc. revert out. induction rows as [|[idx row] rows IH]; intros out Hb.
  - cbn. by rewrite app_nil_r.
  - cbn [for_rows]. rewrite (Hb idx row) by (by left). rewrite Hc.
    rewrite IH by (intros; apply Hb; by right). cbn. by rewrite <- app_assoc.
Qed.

Lemma coerced_nil {R} (body : Z → Series → result R) rows :
  (∀ idx row r, (idx, row) ∈ rows → body idx row ≠ Ok r) → coerced body rows = [].
Proof.
  unfold coerced. induction rows as [|[idx row] rows IH]; intros Hb; [done|].
  cbn [omap list_omap]. destruct (body idx row) as [r|e] eqn:Hr.
  - by destruct (Hb idx row r); [left|].
  - apply IH. intros; apply Hb; by right.
Qed.

Lemma iterrows_elem_of (df : DataFrame) idx row :
  (idx, row) ∈ iterrows df → ∃ cells, row = zip (columns df) cells.
Proof.
  unfold iterrows. intros (i & cells & [= -> ->] & _)%elem_of_lookup_imap. eauto.
Qed.

(** No record comes out of a loop none of whose rows coerce; each row
    then has its warning. *)
Lemma for_rows_none_coerced {R} what (body : Z → Series → result R) rows out recs :
  (∀ idx row r, (idx, row) ∈ rows → body idx row ≠ Ok r) →
  for_rows what body rows [] [] = (out, Ok recs) →
  recs = [] ∧ length out = length rows.
Proof.
  intros Hb (_ & -> & ->)%for_rows_Ok.
  pose proof (coerced_failures_length body rows) as Hl.
  rewrite (coerced_nil body rows) in * by done. cbn in *.
  by rewrite length_fmap.
Qed.

Lemma parse_book_data_no_lat (df : DataFrame) lat_col lng_col count_col :
  lat_col ∉ columns df →
  parse_book_data df lat_col lng_col count_col =
    (replicate (length (data df)) (Warning "row" (KeyError lat_col)), Ok []).
Proof.
  intros Hcol. unfold parse_book_data.
  rewrite (for_rows_all_skipped _ _ _ (KeyError lat_col)); [|done|].
  - by rewrite length_iterrows.
  - intros idx row (cells & ->)%iterrows_elem_of.
    unfold book_row. rewrite (getitem_zip_absent _ _ lat_col) by done. reflexivity.
Qed.

(** X2.  A required column that the table lacks costs every row: when
    the latitude column is missing, [parse_book_data] returns no record
    and prints one [KeyError] warning per row; and whichever of the
    columns a parser reads for latitude, longitude, name or count is
    missing, a call that returns gives no record and one warning per
    row. *)
Theorem missing_column_drops_every_row (df : DataFrame)
    (id_col lat_col lng_col name_col count_col : string) :
  (lat_col ∉ columns df →
   parse_book_data df lat_col lng_col count_col =
     (replicate (length (data df)) (Warning "row" (KeyError lat_col)), Ok []))
  ∧ (∀ col, col ∈ [lat_col; lng_col; count_col] → col ∉ columns df →
     ∀ out recs, parse_book_data df lat_col lng_col count_col = (out, Ok recs) →
     recs = [] ∧ length out = length (data df))
  ∧ (∀ col, col ∈ [lat_col; lng_col; name_col; count_col] → col ∉ columns df →
     ∀ out recs,
       parse_volunteers df id_col lat_col lng_col name_col count_col = (out, Ok recs) →
       recs = [] ∧ length out = length (data df))
  ∧ (∀ col, col ∈ [lat_col; lng_col; name_col; count_col] → col ∉ columns df →
     ∀ out recs,
       parse_schools df id_col lat_col lng_col name_col count_col = (out, Ok recs) →
       recs = [] ∧ length out = length (data df)).
Proof.
  assert (Hlen : length (iterrows df) = length (data df))
    by apply length_iterrows.
  assert (Hget : ∀ col idx row c, col ∉ columns df → (idx, row) ∈ iterrows df →
            getitem row col ≠ Ok c).
  { intros col idx row c Hcol (cells & ->)%iterrows_elem_of.
    by rewrite getitem_zip_absent. }
  split_and!.
  - apply parse_book_data_no_lat.
  - intros col Hin Hcol out recs H. rewrite <- Hlen.
    eapply for_rows_none_coerced; [|exact H].
    intros idx row r Hrow ((c1 & H1 & _) & (c2 & H2 & _) & (c3 & H3 & _))%book_row_Ok.
    rewrite !elem_of_cons, elem_of_nil in Hin.
    destruct Hin as [->|[->|[->|[]]]]; by eapply Hget.
  - intros col Hin Hcol out recs H. rewrite <- Hlen.
    eapply for_rows_none_coerced; [|exact H].
    intros idx row r Hrow
      (_ & (c1 & H1 & _) & (c2 & H2 & _) & (c3 & H3 & _) & (c4 & H4 & _))%volunteer_row_Ok.
    rewrite !elem_of_cons, elem_of_nil in Hin.
    destruct Hin as [->|[->|[->|[->|[]]]]]; by eapply Hget.
  - intros col Hin Hcol out recs H. rewrite <- Hlen.
    eapply for_rows_none_coerced; [|exact H].
    intros idx row r Hrow
      (_ & (c1 & H1 & _) & (c2 & H2 & _) & (c3 & H3 & _) & (c4 & H4 & _))%school_row_Ok.
    rewrite !elem_of_cons, elem_of_nil in Hin.
    destruct Hin as [->|[->|[->|[->|[]]]]]; by eapply Hget.
Qed.

(** *** Tables put together *)

Lemma for_rows_index_free {R} what (body : Z → Series → result R) rows rows' acc out :
  (∀ idx idx' row, body idx row = body idx' row) →
  rows.*2 = rows'.*2 →
  for_rows what body rows acc out = for_rows what body rows' acc out.
Proof.
  intros Hb. revert rows' acc out.
  induction rows as [|[idx row] rows IH]; intros [|[idx' row'] rows'] acc out; try done.
  intros [= <- Hr]. cbn [for_rows]. rewrite (Hb idx' idx row).
  destruct (body idx row) as [r|e]; [by apply IH|].
  destruct (caught e); [by apply IH|done].
Qed.

(** X3.  The books of a table are parsed row by row, independently of
    the rows around them: parsing a table gives the warnings and the
    records of its first rows followed by those of the rows after them,
    and raises where the first rows or else the later rows do.  The
    parts are slices of the table, as [df.iloc[:k]] and [df.iloc[k:]]:
    they keep the dtypes of its columns. *)
Theorem book_rows_parse_independently (cols : list string) (types : list dtype)
    (rows1 rows2 : list (list cell)) (lat_col lng_col count_col : string) :
  parse_book_data {| columns := cols; dtypes := types; data := rows1 ++ rows2 |}
    lat_col lng_col count_col =
  match parse_book_data {| columns := cols; dtypes := types; data := rows1 |}
          lat_col lng_col count_col with
  | (out1, Ok recs1) =>
      match parse_book_data {| columns := cols; dtypes := types; data := rows2 |}
              lat_col lng_col count_col with
      | (out2, Ok recs2) => (out1 ++ out2, Ok (recs1 ++ recs2))
      | (out2, Raise e) => (out1 ++ out2, Raise e)
      end
  | (out1, Raise e) => (out1, Raise e)
  end.
Proof.
  unfold parse_book_data, iterrows, values. cbn [columns dtypes data].
  set (f := λ (i : nat) (cells : list cell), (Z.of_nat i, zip cols cells)).
  set (cast := map (astype (find_common_type types))).
  rewrite fmap_app, imap_app, for_rows_app.
  destruct (for_rows "row" (book_row lat_col lng_col count_col) (imap f (cast <$> rows1))
              [] []) as [out1 [recs1|e]]; [|done].
  rewrite for_rows_state.
  rewrite (for_rows_index_free _ _ _ (imap f (cast <$> rows2))); [done| |].
  - by intros idx idx' row.
  - rewrite !fmap_imap. by apply imap_ext.
Qed.

(** *** Tables written from records *)

Lemma for_rows_imap_Ok {A R} what (body : Z → Series → result R)
    (f : nat → A → Z * Series) (g : A → R) (l : list A) acc out :
  (∀ i x, body (f i x).1 (f i x).2 = Ok (g x)) →
  for_rows what body (imap f l) acc out = (out, Ok (acc ++ (g <$> l))).
Proof.
  intros Hb. revert f acc Hb. induction l as [|x l IH]; intros f acc Hb.
  - cbn. by rewrite app_nil_r.
  - cbn [imap for_rows]. specialize (Hb 0%nat x) as Hx.
    destruct (f 0%nat x) as [idx row]. cbn in Hx. rewrite Hx.
    rewrite IH by (intros; apply Hb). cbn. by rewrite <- app_assoc.
Qed.

Lemma values_object (df : DataFrame) :
  find_common_type (dtypes df) = Object → values df = data df.
Proof.
  intros H. unfold values. rewrite H. rewrite <- (list_fmap_id (data df)) at 2.
  apply list_fmap_ext. intros _ row _. cbn. rewrite <- (list_fmap_id row) at 2.
  apply list_fmap_ext. by intros _ [] _.
Qed.

Lemma book_row_exact (b : BookPoint) idx :
  exact_count (book_count b) = true →
  book_row "lat" "lng" "count" idx
    (zip ["lat"; "lng"; "count"]
       (map (astype Float64) [CFloat (book_lat b); CFloat (book_lng b); CInt (book_count b)]))
  = Ok b.
Proof.
  unfold exact_count. destruct b as [lat lng n]. cbn [book_count book_lat book_lng].
  destruct (float_of_int n) as [x|] eqn:Hx; [|done].
  destruct (int_of_float x) as [z| |] eqn:Hz; [|done..].
  intros ->%bool_decide_eq_true_1.
  cbn [map astype]. rewrite Hx. cbn [from_option].
  unfold book_row. cbv - [int_of_float]. by rewrite Hz.
Qed.

Lemma parse_book_data_frame (points : list BookPoint) :
  forallb (λ b, exact_count (book_count b)) points = true →
  parse_book_data (books_frame points) "lat" "lng" "count" = ([], Ok points).
Proof.
  intros Hexact. unfold parse_book_data, iterrows, values, books_frame.
  cbn [columns dtypes data].
  change (find_common_type [Float64; Float64; Int64]) with Float64.
  rewrite <- list_fmap_compose.
  assert (H : ∀ k,
    for_rows "row" (book_row "lat" "lng" "count")
      (imap (λ i cells, (Z.of_nat (k + i), zip ["lat"; "lng"; "count"] cells))
         ((map (astype Float64)
           ∘ (λ b, [CFloat (book_lat b); CFloat (book_lng b); CInt (book_count b)]))
          <$> points)) [] [] = ([], Ok points)).
  { induction points as [|b points IH]; intros k; [done|].
    cbn [forallb] in Hexact. apply andb_true_iff in Hexact as [Hb Hexact].
    cbn [fmap list_fmap imap for_rows compose].
    rewrite book_row_exact by done. rewrite for_rows_state.
    rewrite (imap_ext _ (λ i cells,
               (Z.of_nat (S k + i), zip ["lat"; "lng"; "count"] cells))); first last.
    { intros i cells _. cbn. do 2 f_equal. lia. }
    by rewrite IH. }
  apply (H 0%nat).
Qed.

Lemma parse_volunteers_frame (people : list Volunteer) :
  parse_volunteers (volunteers_frame people) "id" "lat" "lng" "name" "books" =
    ([], Ok people).
Proof.
  unfold parse_volunteers, iterrows. rewrite values_object by done.
  unfold volunteers_frame. cbn [columns data].
  rewrite imap_fmap, (for_rows_imap_Ok _ _ _ id), list_fmap_id; [done|].
  by intros i [].
Qed.

Lemma parse_schools_frame (places : list School) :
  parse_schools (schools_frame places) "id" "lat" "lng" "name" "students" =
    ([], Ok places).
Proof.
  unfold parse_schools, iterrows. rewrite values_object by done.
  unfold schools_frame. cbn [columns data].
  rewrite imap_fmap, (for_rows_imap_Ok _ _ _ id), list_fmap_id; [done|].
  by intros i [].
Qed.

(** X4.  Records written to a table under the default column names are
    read back unchanged: each parser returns the very records, in
    order, without a warning; the identifiers of the [id] column are
    kept as they are.  The books table is all numbers, so that its rows
    reach the parser as floats: its counts are taken to be integers
    that a float holds exactly.  The name column makes the rows of the
    other two tables objects, whose cells come as stored. *)
Theorem clean_tables_round_trip (points : list BookPoint) (people : list Volunteer)
    (places : list School) :
  forallb (λ b, exact_count (book_count b)) points = true →
  parse_book_data (books_frame points) "lat" "lng" "count" = ([], Ok points)
  ∧ parse_volunteers (volunteers_frame people) "id" "lat" "lng" "name" "books" =
      ([], Ok people)
  ∧ parse_schools (schools_frame places) "id" "lat" "lng" "name" "students" =
      ([], Ok places).
Proof.
  intros Hexact. split_and!;
    [by apply parse_book_data_frame|apply parse_volunteers_frame|apply parse_schools_frame].
Qed.

(** *** Counting rows *)

Lemma failures_handled {R} (body : Z → Series → result R) rows :
  handled body rows = true → Forall (λ e, caught e = true) (failures body rows).
Proof.
  unfold handled, failures. induction rows as [|[idx row] rows IH]; [by constructor|].
  cbn [forallb omap list_omap]. intros [Hrow Hh]%andb_true_iff.
  destruct (body idx row) as [r|e]; cbn; [by apply IH|].
  constructor; [done|by apply IH].
Qed.

Lemma for_rows_accounts {R} what (body : Z → Series → result R) rows out recs :
  for_rows what body rows [] [] = (out, Ok recs) →
  (length recs + length out)%nat = length rows
  ∧ Forall (λ ev, ∃ e, ev = Warning what e ∧ caught e = true) out.
Proof.
  intros (Hh & -> & ->)%for_rows_Ok. cbn [app]. split.
  - rewrite length_fmap. apply coerced_failures_length.
  - apply Forall_fmap. eapply Forall_impl; [by apply failures_handled|].
    cbn. eauto.
Qed.

(** X5.  Of a parser that returns, every row of the table is accounted
    for: the records returned and the lines printed are together as
    many as the rows, and every line printed is a warning of the
    parser's kind for a [ValueError] or a [KeyError]. *)
Theorem every_row_is_accounted_for (df : DataFrame)
    (id_col lat_col lng_col name_col count_col : string) (out : list event) :
  (∀ recs, parse_book_data df lat_col lng_col count_col = (out, Ok recs) →
     (length recs + length out)%nat = length (data df)
     ∧ Forall (λ ev, ∃ e, ev = Warning "row" e ∧ caught e = true) out)
  ∧ (∀ recs,
       parse_volunteers df id_col lat_col lng_col name_col count_col = (out, Ok recs) →
       (length recs + length out)%nat = length (data df)
       ∧ Forall (λ ev, ∃ e, ev = Warning "volunteer row" e ∧ caught e = true) out)
  ∧ (∀ recs,
       parse_schools df id_col lat_col lng_col name_col count_col = (out, Ok recs) →
       (length recs + length out)%nat = length (data df)
       ∧ Forall (λ ev, ∃ e, ev = Warning "school row" e ∧ caught e = true) out).
Proof.
  assert (Hlen : length (iterrows df) = length (data df))
    by apply length_iterrows.
  rewrite <- Hlen. split_and!; intros recs H; by eapply for_rows_accounts.
Qed.

(** ** Column Detector *)

Lemma first_candidate_elem_of cols patterns col :
  first_candidate cols patterns = Some col → col ∈ cols ∧ lower col ∈ patterns.
Proof.
  intros (earlier & pattern & later & -> & _ & Hm)%first_candidate_Some.
  apply matching_Some in Hm as (before & after & -> & <- & _). split.
  - apply elem_of_app. right. by left.
  - apply elem_of_app. right. by left.
Qed.

(** X6.  The detector only ever names columns of the table: a role is
    mapped to a column whose lower-case name is one of the role's
    candidates, so the name the loader passes on is a column of the
    table or the role's own name.  Roles that the dataset does not have
    are never mapped, and a data type other than [books], [volunteers]
    and [schools] gives the empty mapping. *)
Theorem detected_columns_are_table_columns (df : DataFrame) (data_type role : string) :
  (∀ col, auto_detect_columns df data_type !! role = Some col →
     col ∈ columns df ∧ lower col ∈ candidates data_type role)
  ∧ (get (auto_detect_columns df data_type) role ∈ columns df
     ∨ get (auto_detect_columns df data_type) role = role)
  ∧ (candidates data_type role = [] → auto_detect_columns df data_type !! role = None)
  ∧ (data_type ∉ ["books"; "volunteers"; "schools"] →
     auto_detect_columns df data_type = ∅).
Proof.
  split_and!.
  - intros col. rewrite auto_detect_columns_lookup. apply first_candidate_elem_of.
  - unfold get. destruct (auto_detect_columns df data_type !! role) as [col|] eqn:H.
    + left. rewrite auto_detect_columns_lookup in H.
      by apply first_candidate_elem_of in H as [? _].
    + by right.
  - intros H. by rewrite auto_detect_columns_lookup, H.
  - intros H. rewrite !not_elem_of_cons in H. destruct H as (H1 & H2 & H3 & _).
    unfold auto_detect_columns. by rewrite !bool_decide_eq_false_2.
Qed.

Lemma matching_lower pattern cols :
  lower <$> matching pattern cols =
  if bool_decide (pattern ∈ lower <$> cols) then Some pattern else None.
Proof.
  destruct (matching pattern cols) as [col|] eqn:Hm.
  - apply matching_Some in Hm as (before & after & -> & <- & _).
    rewrite bool_decide_eq_true_2; [done|].
    rewrite fmap_app, fmap_cons. apply elem_of_app. right. by left.
  - rewrite matching_None in Hm. rewrite bool_decide_eq_false_2; [done|].
    intros (col & -> & Hin)%list_elem_of_fmap. by apply (Hm col).
Qed.

Lemma first_candidate_lower cols cols' patterns :
  lower <$> cols = lower <$> cols' →
  lower <$> first_candidate cols patterns = lower <$> first_candidate cols' patterns.
Proof.
  intros Hl. induction patterns as [|p ps IH]; [done|]. cbn [first_candidate].
  pose proof (matching_lower p cols) as H1. pose proof (matching_lower p cols') as H2.
  rewrite Hl in H1. rewrite <- H2 in H1.
  destruct (matching p cols), (matching p cols'); done.
Qed.

(** X7.  Detection looks at the column names only up to letter case:
    two tables whose column names agree once lower-cased have the same
    roles detected, and the columns detected for a role agree once
    lower-cased. *)
Theorem detection_ignores_case (df df' : DataFrame) (data_type role : string) :
  lower <$> columns df = lower <$> columns df' →
  lower <$> (auto_detect_columns df data_type !! role) =
    lower <$> (auto_detect_columns df' data_type !! role)
  ∧ (is_Some (auto_detect_columns df data_type !! role)
     ↔ is_Some (auto_detect_columns df' data_type !! role)).
Proof.
  intros Hl. rewrite !auto_detect_columns_lookup.
  pose proof (first_candidate_lower _ _ (candidates data_type role) Hl) as H.
  split; [done|].
  destruct (first_candidate (columns df) _), (first_candidate (columns df') _);
    try done; split; intros [? [=]].
Qed.

(** ** Workbook Loader *)

Lemma read_excel_first name (df : DataFrame) (sheets : workbook) :
  read_excel ((name, df) :: sheets) name = Some df.
Proof. cbn. by rewrite bool_decide_eq_true_2. Qed.

(** X9.  Without a sheet selection a workbook with a single sheet has
    all three datasets read from that one sheet, and a workbook with
    two sheets has the schools read from the first, like the books. *)
Theorem few_sheets_are_shared (w : World) (file_path : string)
    (column_mappings : gmap string (gmap string string)) :
  path_exists w file_path = Ok true →
  (∀ s df, ExcelFile w file_path = Some [(s, df)] →
     parse_excel_file w file_path None (Some column_mappings) =
       (_ ← print (AvailableSheets [s]);
        '(column_mappings, book_data) ← load_books s df column_mappings;
        '(column_mappings, volunteers) ← load_volunteers s df column_mappings;
        '(column_mappings, schools) ← load_schools s df column_mappings;
        mret {| bookData := book_data; volunteers := volunteers; schools := schools |}))
  ∧ (∀ s1 df1 s2 df2, ExcelFile w file_path = Some [(s1, df1); (s2, df2)] → s1 ≠ s2 →
       parse_excel_file w file_path None (Some column_mappings) =
         (_ ← print (AvailableSheets [s1; s2]);
          '(column_mappings, book_data) ← load_books s1 df1 column_mappings;
          '(column_mappings, volunteers) ← load_volunteers s2 df2 column_mappings;
          '(column_mappings, schools) ← load_schools s1 df1 column_mappings;
          mret {| bookData := book_data; volunteers := volunteers;
                  schools := schools |})).
Proof.
  intros He. destruct no_selection_lookup as (Hb & Hv & Hs). split.
  - intros s df Hw. rewrite parse_excel_file_found by done. rewrite Hw.
    cbn [default from_option]. rewrite bind_lift_Ok. apply bind_ext. intros _.
    rewrite (parse_books_block_reads [(s, df)] _ _ s df);
      [|by rewrite Hb|unfold books_sheet; by rewrite Hb|apply read_excel_first].
    apply bind_ext. intros [cm1 book_data].
    rewrite (parse_volunteers_block_reads [(s, df)] _ _ s df);
      [|by rewrite Hv|unfold volunteers_sheet; by rewrite Hv|apply read_excel_first].
    apply bind_ext. intros [cm2 vols].
    by rewrite (parse_schools_block_reads [(s, df)] _ _ s df);
      [|by rewrite Hs|unfold schools_sheet; by rewrite Hs|apply read_excel_first].
  - intros s1 df1 s2 df2 Hw Hne. rewrite parse_excel_file_found by done. rewrite Hw.
    cbn [default from_option]. rewrite bind_lift_Ok. apply bind_ext. intros _.
    set (wb := [(s1, df1); (s2, df2)]).
    rewrite (parse_books_block_reads wb _ _ s1 df1);
      [|by rewrite Hb|unfold books_sheet; by rewrite Hb|apply read_excel_first].
    apply bind_ext. intros [cm1 book_data].
    rewrite (parse_volunteers_block_reads wb _ _ s2 df2);
      [|by rewrite Hv|unfold volunteers_sheet; by rewrite Hv
       |cbn; rewrite bool_decide_eq_false_2 by done; by rewrite bool_decide_eq_true_2].
    apply bind_ext. intros [cm2 vols].
    by rewrite (parse_schools_block_reads wb _ _ s1 df1);
      [|by rewrite Hs|unfold schools_sheet; by rewrite Hs|apply read_excel_first].
Qed.

Lemma by_position_cases (sheet_names : gmap string (option string)) key :
  (by_position sheet_names key = true ∧ is_Some (sheet_names !! key)
   ∧ truthy (mjoin (sheet_names !! key)) = None)
  ∨ (by_position sheet_names key = false
     ∧ (sheet_names !! key = None
        ∨ ∃ name, is_Some (sheet_names !! key)
            ∧ truthy (mjoin (sheet_names !! key)) = Some name)).
Proof.
  unfold by_position. case_bool_decide as H1; [|right; split; [done|left]].
  - case_bool_decide as H2; [by left|right]. split; [done|right].
    destruct (truthy _) as [name|]; [eauto|done].
  - destruct (sheet_names !! key); [|done]. by destruct H1.
Qed.

Lemma books_block_no_sheets sheet_names (column_mappings : gmap string (gmap string string)) :
  parse_books_block [] sheet_names column_mappings =
  if by_position sheet_names "books" then ([], Raise IndexError)
  else mret (column_mappings, []).
Proof.
  unfold parse_books_block, books_sheet.
  destruct (by_position_cases sheet_names "books")
    as [(-> & Hs & Ht)|(-> & [Hn|(name & Hs & Ht)])].
  - rewrite bool_decide_eq_true_2 by done. by rewrite Ht.
  - rewrite bool_decide_eq_false_2; [done|]. rewrite Hn. by intros [? [=]].
  - rewrite bool_decide_eq_true_2 by done. by rewrite Ht.
Qed.

Lemma volunteers_block_no_sheets sheet_names
    (column_mappings : gmap string (gmap string string)) :
  parse_volunteers_block [] sheet_names column_mappings =
  if by_position sheet_names "volunteers" then ([], Raise IndexError)
  else mret (column_mappings, []).
Proof.
  unfold parse_volunteers_block, volunteers_sheet.
  destruct (by_position_cases sheet_names "volunteers")
    as [(-> & Hs & Ht)|(-> & [Hn|(name & Hs & Ht)])].
  - rewrite bool_decide_eq_true_2 by done. by rewrite Ht.
  - rewrite bool_decide_eq_false_2; [done|]. rewrite Hn. by intros [? [=]].
  - rewrite bool_decide_eq_true_2 by done. by rewrite Ht.
Qed.

Lemma schools_block_no_sheets sheet_names
    (column_mappings : gmap string (gmap string string)) :
  parse_schools_block [] sheet_names column_mappings =
  if by_position sheet_names "schools" then ([], Raise IndexError)
  else mret (column_mappings, []).
Proof.
  unfold parse_schools_block, schools_sheet.
  destruct (by_position_cases sheet_names "schools")
    as [(-> & Hs & Ht)|(-> & [Hn|(name & Hs & Ht)])].
  - rewrite bool_decide_eq_true_2 by done. by rewrite Ht.
  - rewrite bool_decide_eq_false_2; [done|]. rewrite Hn. by intros [? [=]].
  - rewrite bool_decide_eq_true_2 by done. by rewrite Ht.
Qed.

(** X10.  On a workbook without any sheet the loader raises [IndexError]
    as soon as one listed dataset has to take its sheet by position,
    which is the case of all three when there is no selection; when
    every listed dataset names its sheet, the loader returns three
    empty sequences. *)
Theorem workbook_without_sheets (w : World) (file_path : string)
    (sheet_names : option (gmap string (option string)))
    (column_mappings : option (gmap string (gmap string string))) :
  path_exists w file_path = Ok true → ExcelFile w file_path = Some [] →
  let selection := default no_selection sheet_names in
  parse_excel_file w file_path sheet_names column_mappings =
    ([AvailableSheets []],
     if by_position selection "books" || by_position selection "volunteers"
        || by_position selection "schools"
     then Raise IndexError
     else Ok {| bookData := []; volunteers := []; schools := [] |})
  ∧ (sheet_names = None →
     parse_excel_file w file_path sheet_names column_mappings =
       ([AvailableSheets []], Raise IndexError)).
Proof.
  intros He Hw selection.
  assert (H : parse_excel_file w file_path sheet_names column_mappings =
    ([AvailableSheets []],
     if by_position selection "books" || by_position selection "volunteers"
        || by_position selection "schools"
     then Raise IndexError
     else Ok {| bookData := []; volunteers := []; schools := [] |})).
  { rewrite parse_excel_file_found by done. rewrite Hw. cbn [from_option].
    fold selection. rewrite bind_lift_Ok. cbn [fmap list_fmap].
    rewrite books_block_no_sheets.
    destruct (by_position selection "books"); [done|].
    cbn [mbind io_bind print mret io_ret orb]. rewrite volunteers_block_no_sheets.
    destruct (by_position selection "volunteers"); [done|].
    cbn [mbind io_bind print mret io_ret orb]. rewrite schools_block_no_sheets.
    by destruct (by_position selection "schools"). }
  split; [done|]. intros ->. rewrite H. subst selection. cbn [default].
  destruct no_selection_lookup as (Hb & _ & _).
  unfold by_position at 1. rewrite Hb. cbn [mjoin option_join truthy].
  rewrite !bool_decide_eq_true_2; [done..|]. by eexists.
Qed.

(** *** Supplied mappings *)

Lemma parse_book_data_missing (df : DataFrame) lat_col lng_col count_col col out recs :
  col ∈ [lat_col; lng_col; count_col] → col ∉ columns df →
  parse_book_data df lat_col lng_col count_col = (out, Ok recs) →
  recs = [] ∧ length out = length (data df).
Proof.
  intros Hin Hcol H.
  replace (length (data df)) with (length (iterrows df))
    by apply length_iterrows.
  eapply for_rows_none_coerced; [|exact H].
  intros idx row r (cells & ->)%iterrows_elem_of
    ((c1 & H1 & _) & (c2 & H2 & _) & (c3 & H3 & _))%book_row_Ok.
  rewrite !elem_of_cons, elem_of_nil in Hin.
  destruct Hin as [<-|[<-|[<-|[]]]];
    [rewrite getitem_zip_absent in H1 by done|rewrite getitem_zip_absent in H2 by done
    |rewrite getitem_zip_absent in H3 by done]; done.
Qed.

(** X12.  A books mapping supplied by the caller turns detection off
    for the books: nothing is detected or printed about the mapping,
    the mappings are returned as given, and a role the supplied mapping
    leaves out is read from the column of its own name; when the table
    has no such column, no book point is returned, even if the table
    has a column the detector knows. *)
Theorem supplied_mapping_is_not_completed (sheet_name : string) (df : DataFrame)
    (column_mappings : gmap string (gmap string string)) (mapping : gmap string string) :
  column_mappings !! "books" = Some mapping →
  load_books sheet_name df column_mappings =
    (_ ← print (ParsingFrom "books" sheet_name);
     _ ← print (ColumnsOf (columns df));
     book_data ← parse_book_data df
       (get mapping "lat") (get mapping "lng") (get mapping "count");
     _ ← print (Parsed (length book_data) "book data points");
     mret (column_mappings, book_data))
  ∧ (∀ role, role ∈ ["lat"; "lng"; "count"] → mapping !! role = None →
     role ∉ columns df →
     ∀ out column_mappings' book_data,
       load_books sheet_name df column_mappings = (out, Ok (column_mappings', book_data)) →
       column_mappings' = column_mappings ∧ book_data = []
       ∧ ∃ warnings, length warnings = length (data df)
           ∧ out = [ParsingFrom "books" sheet_name; ColumnsOf (columns df)]
                   ++ warnings ++ [Parsed 0 "book data points"]).
Proof.
  intros Hcm.
  assert (Heq : load_books sheet_name df column_mappings =
    (_ ← print (ParsingFrom "books" sheet_name);
     _ ← print (ColumnsOf (columns df));
     book_data ← parse_book_data df
       (get mapping "lat") (get mapping "lng") (get mapping "count");
     _ ← print (Parsed (length book_data) "book data points");
     mret (column_mappings, book_data))).
  { unfold load_books, mapping_for. rewrite Hcm.
    cbn [mbind io_bind print mret io_ret].
    by destruct (parse_book_data _ _ _ _) as [o [r|e]]. }
  split; [exact Heq|].
  intros role Hin Hrole Hcol out cm' recs H. rewrite Heq in H.
  cbn [mbind io_bind print mret io_ret] in H.
  destruct (parse_book_data _ _ _ _) as [o [r|e]] eqn:Hp; [|done].
  injection H as <- <- <-.
  apply (parse_book_data_missing _ _ _ _ role) in Hp as [-> Hlen]; [|
    |done].
  - split_and!; [done..|]. exists o. split; [done|]. reflexivity.
  - assert (Hget : get mapping role = role) by (unfold get; by rewrite Hrole).
    rewrite !elem_of_cons, elem_of_nil in Hin |- *.
    destruct Hin as [->|[->|[->|[]]]]; rewrite Hget; auto.
Qed.

(** *** A workbook of clean tables *)








(** ** Command line *)

(** X16.  When the lower-case form of the format argument is [ts] or
    [typescript], the program takes the TypeScript branch: once the
    workbook is loaded it exports with [export_to_typescript] to the
    output file argument, or to [data.ts] when that argument is missing
    or empty, prints the summary and exits with status 0; a failure of
    the loader or of the export is reported with status 1. *)
Theorem typescript_format_writes_typescript (w : World)
    (prog excel_file output_format : string) (rest : list string)
    (fs : gmap string string) :
  lower output_format = "ts" ∨ lower output_format = "typescript" →
  let output_path := default "data.ts" (truthy (rest !! 0%nat)) in
  main w (prog :: excel_file :: output_format :: rest) fs =
    match parse_excel_file w excel_file (Some no_selection) None with
    | (out, Ok data) =>
        match export_to_typescript w data output_path fs with
        | (out', Ok fs') =>
            {| stdout := out ++ out'
                         ++ [Summary (length (bookData data)) (length (volunteers data))
                               (length (schools data))];
               stderr := None; exit_code := 0; files := fs' |}
        | (out', Raise e) =>
            {| stdout := out ++ out'; stderr := Some e; exit_code := 1; files := fs |}
        end
    | (out, Raise e) =>
        {| stdout := out; stderr := Some e; exit_code := 1; files := fs |}
    end.
Proof.
  intros Hfmt output_path. unfold main, main_try.
  cbn [lookup list_lookup default].
  replace (bool_decide (lower output_format = "ts")
           || bool_decide (lower output_format = "typescript")) with true.
  2: { symmetry. destruct Hfmt as [H|H]; rewrite (bool_decide_eq_true_2 _ H);
       [done|apply orb_true_r]. }
  fold output_path.
  destruct (parse_excel_file w excel_file (Some no_selection) None) as [out [data|e]];
    [|done].
  cbn [mbind io_bind]. destruct (export_to_typescript _ _ _ _) as [out' [fs'|e]]; [|done].
  reflexivity.
Qed.

(** X17.  How the arguments are read.  With fewer than two words on the
    command line the usage text is printed and the status is 1.  A
    missing format is [json]; an empty output file counts as a missing
    one; words after the output file are ignored; and the format is
    compared in lower case, so that two formats with the same
    lower-case form give the same run. *)
Theorem arguments_and_defaults (w : World) (argv : list string)
    (prog excel_file output_format output_format' output_file : string)
    (more : list string) (fs : gmap string string) :
  ((length argv < 2)%nat →
     main w argv fs = {| stdout := [Usage]; stderr := None; exit_code := 1; files := fs |})
  ∧ main w [prog; excel_file] fs = main w [prog; excel_file; "json"] fs
  ∧ main w [prog; excel_file; output_format] fs =
      main w [prog; excel_file; output_format; EmptyString] fs
  ∧ main w (prog :: excel_file :: output_format :: output_file :: more) fs =
      main w [prog; excel_file; output_format; output_file] fs
  ∧ (lower output_format = lower output_format' →
     main w (prog :: excel_file :: output_format :: more) fs =
       main w (prog :: excel_file :: output_format' :: more) fs).
Proof.
  split_and!.
  - destruct argv as [|a [|b argv]]; cbn; [done..|lia].
  - reflexivity.
  - reflexivity.
  - reflexivity.
  - intros Hl. unfold main, main_try. cbn [lookup list_lookup default id]. by rewrite Hl.
Qed.

(** X18.  When the loader fails, the run ends there: the output is what
    the loader had printed, the error is reported with status 1, and no
    file is written, whatever the format and output arguments are.  In
    particular an input path that does not exist gives
    [FileNotFoundError] and prints nothing. *)
Theorem loader_failure_ends_the_run (w : World) (prog excel_file : string)
    (rest : list string) (fs : gmap string string) :
  (∀ out e, parse_excel_file w excel_file (Some no_selection) None = (out, Raise e) →
     main w (prog :: excel_file :: rest) fs =
       {| stdout := out; stderr := Some e; exit_code := 1; files := fs |})
  ∧ (path_exists w excel_file = Ok false →
     main w (prog :: excel_file :: rest) fs =
       {| stdout := []; stderr := Some (FileNotFoundError excel_file); exit_code := 1;
          files := fs |}).
Proof.
  assert (H : ∀ out e,
    parse_excel_file w excel_file (Some no_selection) None = (out, Raise e) →
    main w (prog :: excel_file :: rest) fs =
      {| stdout := out; stderr := Some e; exit_code := 1; files := fs |}).
  { intros out e Hp. unfold main, main_try. by rewrite Hp. }
  split; [exact H|]. intros He. apply H. by apply parse_excel_file_missing.
Qed.


End Properties.

(** * The JSON round trip *)

Section RoundTrip.
Context {num : PyNumeric} {num_ok : PyNumericOk num}.
Context {txt : PyText} {txt_ok : PyTextOk txt}.

Ltac div_lia := zify; Z.to_euclidean_division_equations; lia.

Ltac N_cases :=
  repeat (match goal with
          | |- context [(?a <=? ?b)%N] => destruct (N.leb_spec a b)
          | |- context [(?a <? ?b)%N] => destruct (N.ltb_spec a b)
          | |- context [(?a =? ?b)%N] => destruct (N.eqb_spec a b)
          end; cbn [andb orb negb]).

Lemma N_of_ascii_lt (c : ascii) : (N_of_ascii c < 256)%N.
Proof. apply N_ascii_bounded. Qed.

Lemma hex_value_digit (d : N) : (d < 16)%N → hex_value (hex_digit d) = Some d.
Proof.
  intros Hd. unfold hex_value, hex_digit. cbn zeta.
  destruct (N.ltb_spec d 10).
  - rewrite N_ascii_embedding by lia. N_cases; try lia. f_equal. lia.
  - rewrite N_ascii_embedding by lia. N_cases; try lia. f_equal. lia.
Qed.

Lemma hex4_value_hex4 (n : N) (X : string) : (n < 65536)%N →
  ∃ h1 h2 h3 h4, hex4 n +:+ X = String h1 (String h2 (String h3 (String h4 X)))
    ∧ hex4_value h1 h2 h3 h4 = Some n.
Proof.
  intros Hn. unfold hex4. eexists _, _, _, _. split; [reflexivity|].
  unfold hex4_value. rewrite !hex_value_digit by div_lia. cbn. f_equal. div_lia.
Qed.

Lemma scanstring_raw (c : ascii) (X : string) :
  (32 ≤ N_of_ascii c)%N → N_of_ascii c ≠ 34%N → N_of_ascii c ≠ 92%N →
  scanstring (String c X) =
    match scanstring X with
    | Some (text, rest) => Some (String c text, rest)
    | None => None
    end.
Proof. intros. cbn [scanstring]. cbn zeta. N_cases; try lia. done. Qed.

Lemma scanstring_u (n : N) (X : string) :
  (n < 65536)%N → (n < 55296 ∨ 57343 < n)%N →
  scanstring (backslash +:+ "u" +:+ hex4 n +:+ X) = consume n X.
Proof.
  intros Hn Hs. destruct (hex4_value_hex4 n X Hn) as (h1 & h2 & h3 & h4 & -> & Hv).
  unfold backslash. rewrite !append_cons, !append_nil.
  cbn [scanstring]. cbn zeta. change (N_of_ascii (ascii_of_nat 92)) with 92%N.
  change (N_of_ascii "u") with 117%N. cbn [N.eqb Pos.eqb]. rewrite Hv.
  N_cases; try lia; done.
Qed.

Lemma scanstring_pair (cp : N) (X : string) :
  (65536 ≤ cp ≤ 1114111)%N →
  scanstring (backslash +:+ "u" +:+ hex4 (55296 + (cp - 65536) / 1024)
              +:+ backslash +:+ "u" +:+ hex4 (56320 + (cp - 65536) mod 1024) +:+ X) =
    consume cp X.
Proof.
  intros Hcp.
  set (n := (55296 + (cp - 65536) / 1024)%N). set (m := (56320 + (cp - 65536) mod 1024)%N).
  assert (Hn : (55296 ≤ n ≤ 56319)%N) by (subst n; div_lia).
  assert (Hm : (56320 ≤ m ≤ 57343)%N) by (subst m; div_lia).
  assert (Hc : (65536 + (n - 55296) * 1024 + (m - 56320) = cp)%N) by (subst n m; div_lia).
  destruct (hex4_value_hex4 m X) as (l1 & l2 & l3 & l4 & -> & Hl); [lia|].
  destruct (hex4_value_hex4 n (backslash +:+ "u" +:+ String l1 (String l2 (String l3 (String l4 X)))))
    as (h1 & h2 & h3 & h4 & -> & Hh); [lia|].
  unfold backslash. rewrite !append_cons, !append_nil.
  cbn [scanstring]. cbn zeta. change (N_of_ascii (ascii_of_nat 92)) with 92%N.
  change (N_of_ascii "u") with 117%N. cbn [N.eqb Pos.eqb andb]. rewrite Hh.
  destruct (N.leb_spec 55296 n); [|lia]. destruct (N.leb_spec n 56319); [|lia].
  cbn [andb]. rewrite Hl.
  destruct (N.leb_spec 56320 m); [|lia]. destruct (N.leb_spec m 57343); [|lia].
  cbn [andb]. by rewrite Hc.
Qed.

Lemma scanstring_escape_code_point (cp : N) (X : string) :
  scalar cp → scanstring (escape_code_point cp +:+ X) = consume cp X.
Proof.
  intros [Hs Hmax]. unfold escape_code_point.
  destruct (N.eqb_spec cp 34) as [->|]; [reflexivity|].
  destruct (N.eqb_spec cp 92) as [->|]; [reflexivity|].
  destruct (N.eqb_spec cp 8) as [->|]; [reflexivity|].
  destruct (N.eqb_spec cp 12) as [->|]; [reflexivity|].
  destruct (N.eqb_spec cp 10) as [->|]; [reflexivity|].
  destruct (N.eqb_spec cp 13) as [->|]; [reflexivity|].
  destruct (N.eqb_spec cp 9) as [->|]; [reflexivity|].
  destruct (N.leb_spec 32 cp); cbn [andb].
  - destruct (N.leb_spec cp 126); cbn [andb].
    + rewrite append_cons, append_nil, scanstring_raw;
        rewrite ?N_ascii_embedding by lia; [|lia..].
      unfold consume, utf8. destruct (N.ltb_spec cp 128); [done|lia].
    + destruct (N.ltb_spec cp 65536).
      * rewrite !append_assoc. by apply scanstring_u.
      * rewrite !append_assoc. apply scanstring_pair. lia.
  - destruct (N.ltb_spec cp 65536); [|lia].
    rewrite !append_assoc. apply scanstring_u; lia.
Qed.

Lemma trailing_spec (b : N) : trailing b = true → (128 ≤ b ≤ 191)%N.
Proof. unfold trailing. N_cases; (done || lia). Qed.

Lemma decode2_utf8 (c0 c1 : ascii) (cp : N) :
  decode2 (N_of_ascii c0) (N_of_ascii c1) = Some cp →
  scalar cp ∧ utf8 cp = String c0 (String c1 EmptyString).
Proof.
  unfold decode2. destruct (_ && trailing _) eqn:H; [|done].
  apply andb_true_iff in H as [H0 H1%trailing_spec].
  apply andb_true_iff in H0 as [?%N.leb_le ?%N.leb_le]. intros [= <-].
  set (b0 := N_of_ascii c0) in *. set (b1 := N_of_ascii c1) in *.
  split; [unfold scalar; lia|]. unfold utf8.
  destruct (N.ltb_spec ((b0 - 192) * 64 + (b1 - 128)) 128); [lia|].
  destruct (N.ltb_spec ((b0 - 192) * 64 + (b1 - 128)) 2048); [|lia].
  replace (192 + ((b0 - 192) * 64 + (b1 - 128)) / 64)%N with b0 by div_lia.
  replace (128 + ((b0 - 192) * 64 + (b1 - 128)) mod 64)%N with b1 by div_lia.
  subst b0 b1. by rewrite !ascii_N_embedding.
Qed.

Lemma decode3_utf8 (c0 c1 c2 : ascii) (cp : N) :
  decode3 (N_of_ascii c0) (N_of_ascii c1) (N_of_ascii c2) = Some cp →
  scalar cp ∧ utf8 cp = String c0 (String c1 (String c2 EmptyString)).
Proof.
  unfold decode3. cbn zeta.
  set (b0 := N_of_ascii c0) in *. set (b1 := N_of_ascii c1) in *.
  set (b2 := N_of_ascii c2) in *.
  set (v := ((b0 - 224) * 4096 + (b1 - 128) * 64 + (b2 - 128))%N).
  destruct (_ && negb _) eqn:H; [|done]. intros [= <-].
  apply andb_true_iff in H as [H Hsur]. apply andb_true_iff in H as [H Hmin%N.leb_le].
  apply andb_true_iff in H as [H H2%trailing_spec].
  apply andb_true_iff in H as [H H1%trailing_spec].
  apply andb_true_iff in H as [?%N.leb_le ?%N.leb_le].
  apply negb_true_iff, andb_false_iff in Hsur.
  assert (Hs : (v < 55296 ∨ 57343 < v)%N).
  { destruct Hsur as [?%N.leb_gt|?%N.leb_gt]; lia. }
  assert (Hv : (v < 65536)%N) by (subst v; lia).
  split; [unfold scalar; lia|]. unfold utf8.
  destruct (N.ltb_spec v 128); [lia|]. destruct (N.ltb_spec v 2048); [lia|].
  destruct (N.ltb_spec v 65536); [|lia].
  replace (224 + v / 4096)%N with b0 by (subst v; div_lia).
  replace (128 + (v / 64) mod 64)%N with b1 by (subst v; div_lia).
  replace (128 + v mod 64)%N with b2 by (subst v; div_lia).
  subst b0 b1 b2. by rewrite !ascii_N_embedding.
Qed.

Lemma decode4_utf8 (c0 c1 c2 c3 : ascii) (cp : N) :
  decode4 (N_of_ascii c0) (N_of_ascii c1) (N_of_ascii c2) (N_of_ascii c3) = Some cp →
  scalar cp ∧ utf8 cp = String c0 (String c1 (String c2 (String c3 EmptyString))).
Proof.
  unfold decode4. cbn zeta.
  set (b0 := N_of_ascii c0) in *. set (b1 := N_of_ascii c1) in *.
  set (b2 := N_of_ascii c2) in *. set (b3 := N_of_ascii c3) in *.
  set (v := ((b0 - 240) * 262144 + (b1 - 128) * 4096 + (b2 - 128) * 64 + (b3 - 128))%N).
  destruct (_ && (v <=? _)%N) eqn:H; [|done]. intros [= <-].
  apply andb_true_iff in H as [H Hmax%N.leb_le]. apply andb_true_iff in H as [H Hmin%N.leb_le].
  apply andb_true_iff in H as [H H3%trailing_spec].
  apply andb_true_iff in H as [H H2%trailing_spec].
  apply andb_true_iff in H as [H H1%trailing_spec].
  apply andb_true_iff in H as [?%N.leb_le ?%N.leb_le].
  split; [unfold scalar; lia|]. unfold utf8.
  destruct (N.ltb_spec v 128); [lia|]. destruct (N.ltb_spec v 2048); [lia|].
  destruct (N.ltb_spec v 65536); [lia|].
  replace (240 + v / 262144)%N with b0 by (subst v; div_lia).
  replace (128 + (v / 4096) mod 64)%N with b1 by (subst v; div_lia).
  replace (128 + (v / 64) mod 64)%N with b2 by (subst v; div_lia).
  replace (128 + v mod 64)%N with b3 by (subst v; div_lia).
  subst b0 b1 b2 b3. by rewrite !ascii_N_embedding.
Qed.

Lemma decode2_lead b0 b1 cp : decode2 b0 b1 = Some cp → (128 ≤ b0)%N.
Proof. unfold decode2. N_cases; (done || lia). Qed.

(** The decoder reads back the text of every string the encoder
    writes. *)
Lemma scanstring_escape (s rest : string) :
  scanstring (escape s +:+ dquote +:+ rest) = Some (s, rest).
Proof.
  remember (String.length s) as n eqn:Hn.
  assert (Hle : (String.length s ≤ n)%nat) by lia. clear Hn.
  revert s Hle. induction n as [|n IH]; intros s Hle.
  { destruct s; [reflexivity|cbn in Hle; lia]. }
  destruct s as [|c0 s1]; [reflexivity|]. cbn [String.length] in Hle.
  assert (IH1 : scanstring (escape s1 +:+ dquote +:+ rest) = Some (s1, rest))
    by (apply IH; lia).
  assert (Hraw : (128 ≤ N_of_ascii c0)%N →
    scanstring (String c0 (escape s1) +:+ dquote +:+ rest) = Some (String c0 s1, rest)).
  { intros Hb. rewrite append_cons, scanstring_raw by lia. by rewrite IH1. }
  cbn [escape]. cbn zeta. destruct (N.ltb_spec (N_of_ascii c0) 128) as [Hb|Hb].
  { rewrite append_assoc, scanstring_escape_code_point by (unfold scalar; lia).
    unfold consume. rewrite IH1. unfold utf8.
    destruct (N.ltb_spec (N_of_ascii c0) 128); [|lia]. by rewrite ascii_N_embedding. }
  destruct s1 as [|c1 s2].
  { rewrite append_cons, scanstring_raw by lia. reflexivity. }
  cbn [String.length] in Hle.
  destruct (decode2 _ _) as [cp|] eqn:H2.
  { apply decode2_utf8 in H2 as [Hs Hu].
    rewrite append_assoc, scanstring_escape_code_point by done.
    unfold consume. rewrite IH by lia. by rewrite Hu. }
  destruct s2 as [|c2 s3]; [by apply Hraw|]. cbn [String.length] in Hle.
  destruct (decode3 _ _ _) as [cp|] eqn:H3.
  { apply decode3_utf8 in H3 as [Hs Hu].
    rewrite append_assoc, scanstring_escape_code_point by done.
    unfold consume. rewrite IH by lia. by rewrite Hu. }
  destruct s3 as [|c3 s4]; [by apply Hraw|]. cbn [String.length] in Hle.
  destruct (decode4 _ _ _ _) as [cp|] eqn:H4; [|by apply Hraw].
  apply decode4_utf8 in H4 as [Hs Hu].
  rewrite append_assoc, scanstring_escape_code_point by done.
  unfold consume. rewrite IH by lia. by rewrite Hu.
Qed.

Lemma append_nil_r (a : string) : a +:+ EmptyString = a.
Proof. induction a as [|c a IH]; [done|]. by rewrite append_cons, IH. Qed.

Lemma delimiter_spec c :
  delimiter c = true →
  is_digit c = false ∧ N_of_ascii c ≠ 45%N ∧ N_of_ascii c ≠ 46%N ∧ N_of_ascii c ≠ 101%N
  ∧ N_of_ascii c ≠ 69%N ∧ N_of_ascii c ≠ 43%N.
Proof.
  unfold delimiter, is_space, is_digit. cbn zeta. intros H.
  split_and!; [|intros E; rewrite E in H; discriminate H..].
  revert H. N_cases; (done || lia).
Qed.

Lemma span_digits_app a rest :
  delimited rest →
  span_digits (a +:+ rest) = let '(d, r) := span_digits a in (d, r +:+ rest).
Proof.
  intros Hr. induction a as [|c a IH].
  - rewrite append_nil. destruct rest as [|c rest]; [done|].
    cbn in Hr. apply delimiter_spec in Hr as (Hd & _). cbn. by rewrite Hd.
  - rewrite append_cons. cbn [span_digits]. destruct (is_digit c); [|done].
    rewrite IH. by destruct (span_digits a).
Qed.

Lemma span_digits_text s d r : span_digits s = (d, r) → s = d +:+ r.
Proof.
  revert d r. induction s as [|c s IH]; intros d r; cbn.
  - by intros [= <- <-].
  - destruct (is_digit c).
    + destruct (span_digits s) as [d' r']. intros [= <- <-].
      rewrite append_cons. f_equal. by apply IH.
    + by intros [= <- <-].
Qed.

Lemma span_digits_only t r :
  digits_only t = true → (∀ c r', r = String c r' → is_digit c = false) →
  span_digits (t +:+ r) = (t, r).
Proof.
  intros Ht Hr. induction t as [|c t IH].
  - rewrite append_nil. destruct r as [|c r]; [done|]. cbn. by rewrite (Hr c r).
  - cbn in Ht. apply andb_true_iff in Ht as [Hc Ht].
    rewrite append_cons. cbn [span_digits]. rewrite Hc, IH by done. done.
Qed.

Lemma digits_only_app a b :
  digits_only a = true → digits_only b = true → digits_only (a +:+ b) = true.
Proof.
  intros Ha Hb. induction a as [|c a IH]; [done|].
  cbn in Ha. apply andb_true_iff in Ha as [Hc Ha].
  rewrite append_cons. cbn. by rewrite Hc, IH.
Qed.

Lemma digits_value_app a b acc :
  digits_value (a +:+ b) acc = digits_value b (digits_value a acc).
Proof.
  revert acc. induction a as [|c a IH]; intros acc; [done|].
  rewrite append_cons. cbn. apply IH.
Qed.

Lemma pretty_N_char_digit d :
  (d < 10)%N → is_digit (pretty_N_char d) = true
  ∧ (N_of_ascii (pretty_N_char d) - 48 = d)%N.
Proof.
  intros Hd.
  assert (d = 0 ∨ d = 1 ∨ d = 2 ∨ d = 3 ∨ d = 4 ∨ d = 5 ∨ d = 6 ∨ d = 7 ∨ d = 8 ∨ d = 9)%N
    as H by lia.
  destruct H as [->|[->|[->|[->|[->|[->|[->|[->|[->| ->]]]]]]]]]; done.
Qed.

(** The decimal text of a positive number: digits that do not start
    with 0 and whose value is the number. *)
Lemma pretty_N_go_digits x s :
  (0 < x)%N →
  ∃ c t, pretty_N_go x s = String c (t +:+ s)
    ∧ is_digit c = true ∧ N_of_ascii c ≠ 48%N ∧ digits_only t = true
    ∧ digits_value (String c t) 0 = x.
Proof.
  revert s. induction (N.lt_wf_0 x) as [x _ IH]. intros s Hx.
  rewrite pretty_N_go_step by done.
  destruct (pretty_N_char_digit (x `mod` 10)) as [Hd Hv]; [by apply N.mod_lt|].
  destruct (decide (x `div` 10 = 0)%N) as [Hq|Hq].
  - rewrite Hq, pretty_N_go_0. exists (pretty_N_char (x `mod` 10)), EmptyString.
    split_and!; [done..| |done|].
    + intros E. rewrite E in Hv. div_lia.
    + cbn. rewrite Hv. div_lia.
  - destruct (IH (x `div` 10)%N) with (s := String (pretty_N_char (x `mod` 10)) s)
      as (c & t & -> & Hc & H0 & Ht & Hval).
    { apply N.div_lt; lia. }
    { div_lia. }
    exists c, (t +:+ String (pretty_N_char (x `mod` 10)) EmptyString).
    split_and!; [|done..| |].
    + by rewrite append_assoc, append_cons, append_nil.
    + apply digits_only_app; [done|]. cbn. by rewrite Hd.
    + rewrite <- append_cons, digits_value_app, Hval. cbn. rewrite Hv. div_lia.
Qed.

Lemma scan_sign_app a rest :
  delimited rest →
  scan_sign (a +:+ rest) = let '(sign, r) := scan_sign a in (sign, r +:+ rest).
Proof.
  intros Hr. destruct a as [|c a].
  - rewrite append_nil. destruct rest as [|c rest]; [done|].
    cbn in Hr. apply delimiter_spec in Hr as (_ & H & _). cbn.
    by destruct (N.eqb_spec (N_of_ascii c) 45).
  - rewrite append_cons. cbn. by destruct (N_of_ascii c =? 45)%N.
Qed.

Lemma scan_int_app a rest int r :
  delimited rest → scan_int a = Some (int, r) →
  scan_int (a +:+ rest) = Some (int, r +:+ rest).
Proof.
  intros Hr. destruct a as [|c a]; [done|]. rewrite append_cons.
  unfold scan_int. destruct (N_of_ascii c =? 48)%N; [by intros [= <- <-]|].
  rewrite <- append_cons, span_digits_app by done.
  destruct (span_digits (String c a)) as [d r']. destruct d; [done|]. by intros [= <- <-].
Qed.

Lemma scan_frac_app a rest :
  delimited rest →
  scan_frac (a +:+ rest) = let '(frac, r) := scan_frac a in (frac, r +:+ rest).
Proof.
  intros Hr. destruct a as [|c a].
  - rewrite append_nil. destruct rest as [|c rest]; [done|].
    cbn in Hr. apply delimiter_spec in Hr as (_ & _ & H & _). cbn.
    by destruct (N.eqb_spec (N_of_ascii c) 46).
  - rewrite append_cons. unfold scan_frac. destruct (N_of_ascii c =? 46)%N; [|done].
    rewrite span_digits_app by done. destruct (span_digits a) as [d r]. by destruct d.
Qed.

Lemma scan_exp_app a rest :
  delimited rest →
  scan_exp (a +:+ rest) = let '(exp, r) := scan_exp a in (exp, r +:+ rest).
Proof.
  intros Hr. destruct a as [|c a].
  - rewrite append_nil. destruct rest as [|c rest]; [done|].
    cbn in Hr. apply delimiter_spec in Hr as (_ & _ & _ & H1 & H2 & _). cbn.
    destruct (N.eqb_spec (N_of_ascii c) 101); [done|].
    by destruct (N.eqb_spec (N_of_ascii c) 69).
  - rewrite append_cons. unfold scan_exp.
    destruct (_ || _); [|done]. destruct a as [|g a].
    + rewrite append_nil.
      assert (Hs : match rest with
                   | String g t =>
                       if ((N_of_ascii g =? 43) || (N_of_ascii g =? 45))%N
                       then (String g EmptyString, t) else (EmptyString, rest)
                   | EmptyString => (EmptyString, rest)
                   end = (EmptyString, rest)).
      { destruct rest as [|g t]; [done|]. cbn in Hr.
        apply delimiter_spec in Hr as (_ & H1 & _ & _ & _ & H2).
        destruct (N.eqb_spec (N_of_ascii g) 43); [done|].
        by destruct (N.eqb_spec (N_of_ascii g) 45). }
      rewrite Hs. rewrite <- (append_nil rest) at 1.
      rewrite span_digits_app by done. done.
    + rewrite append_cons. destruct (_ || _).
      * rewrite span_digits_app by done. destruct (span_digits a) as [d r]. by destruct d.
      * rewrite <- append_cons, span_digits_app by done.
        destruct (span_digits (String g a)) as [d r]. by destruct d.
Qed.

Lemma scan_number_app a rest sign int frac exp r :
  delimited rest → scan_number a = Some (sign, int, frac, exp, r) →
  scan_number (a +:+ rest) = Some (sign, int, frac, exp, r +:+ rest).
Proof.
  intros Hr. unfold scan_number. rewrite scan_sign_app by done.
  destruct (scan_sign a) as [sg s1].
  destruct (scan_int s1) as [[i s2]|] eqn:Hi; [|done].
  rewrite (scan_int_app _ _ _ _ Hr Hi). cbn.
  rewrite scan_frac_app by done. destruct (scan_frac s2) as [f s3].
  rewrite scan_exp_app by done. destruct (scan_exp s3) as [e s4].
  by intros [= <- <- <- <- <-].
Qed.

Lemma scan_number_text s sign int frac exp r :
  scan_number s = Some (sign, int, frac, exp, r) →
  s = sign +:+ int +:+ frac +:+ exp +:+ r.
Proof.
  unfold scan_number.
  destruct (scan_sign s) as [sg s1] eqn:Hsg.
  assert (s = sg +:+ s1) as ->.
  { destruct s as [|c s]; cbn in Hsg; [by injection Hsg as <- <-|].
    destruct (N_of_ascii c =? 45)%N; by injection Hsg as <- <-. }
  destruct (scan_int s1) as [[i s2]|] eqn:Hi; [|done]. cbn.
  assert (s1 = i +:+ s2) as ->.
  { destruct s1 as [|c s1]; [done|]. unfold scan_int in Hi.
    destruct (N_of_ascii c =? 48)%N; [by injection Hi as <- <-|].
    destruct (span_digits (String c s1)) as [d r'] eqn:Hd. apply span_digits_text in Hd.
    destruct d; [done|]. by injection Hi as <- <-. }
  destruct (scan_frac s2) as [f s3] eqn:Hf.
  assert (s2 = f +:+ s3) as ->.
  { destruct s2 as [|c s2]; cbn in Hf; [by injection Hf as <- <-|].
    destruct (N_of_ascii c =? 46)%N; [|by injection Hf as <- <-].
    destruct (span_digits s2) as [d r'] eqn:Hd. apply span_digits_text in Hd.
    destruct d; injection Hf as <- <-; [done|]. by rewrite Hd. }
  destruct (scan_exp s3) as [e s4] eqn:He.
  assert (s3 = e +:+ s4) as ->.
  { destruct s3 as [|c s3]; cbn in He; [by injection He as <- <-|].
    destruct (_ || _); [|by injection He as <- <-].
    destruct s3 as [|g t].
    - cbn in He. by injection He as <- <-.
    - destruct (_ || _).
      + destruct (span_digits t) as [d r'] eqn:Hd. apply span_digits_text in Hd.
        destruct d; injection He as <- <-; [done|]. by rewrite Hd.
      + destruct (span_digits (String g t)) as [d r'] eqn:Hd.
        apply span_digits_text in Hd.
        destruct d; injection He as <- <-; [done|]. by rewrite Hd. }
  by intros [= <- <- <- <- <-].
Qed.

Lemma scan_number_minus X int frac exp r :
  scan_number X = Some (EmptyString, int, frac, exp, r) →
  scan_number (String "-" X) = Some ("-", int, frac, exp, r).
Proof.
  unfold scan_number. change (scan_sign (String "-" X)) with ("-", X).
  destruct X as [|c X]; [done|]. cbn [scan_sign].
  destruct (N_of_ascii c =? 45)%N.
  - destruct (scan_int X) as [[i s2]|]; [|done]. cbn.
    destruct (scan_frac s2) as [f s3]. by destruct (scan_exp s3).
  - destruct (scan_int (String c X)) as [[i s2]|]; [|done]. cbn.
    destruct (scan_frac s2) as [f s3]. destruct (scan_exp s3).
    by intros [= <- <- <- <-].
Qed.

(** The decoder reads a float text with [float]. *)
Lemma parse_number_float (text rest : string) :
  json_float text = true → delimited rest →
  parse_number (text +:+ rest) = (x ← float_of_str text; Some (JFloat x, rest)).
Proof.
  unfold json_float. intros Ht Hr.
  destruct (scan_number text) as [[[[[sg i] f] e] r]|] eqn:Hs; [|done].
  destruct r; [|done]. apply negb_true_iff, bool_decide_eq_false in Ht.
  unfold parse_number. rewrite (scan_number_app _ _ _ _ _ _ _ Hr Hs). cbn.
  rewrite bool_decide_eq_false_2 by done.
  apply scan_number_text in Hs. rewrite !append_nil_r in Hs. by rewrite <- Hs.
Qed.

Lemma scan_delimited rest :
  delimited rest →
  scan_frac rest = (EmptyString, rest) ∧ scan_exp rest = (EmptyString, rest).
Proof.
  intros Hr. split.
  - rewrite <- (append_nil rest) at 1. by rewrite scan_frac_app.
  - rewrite <- (append_nil rest) at 1. by rewrite scan_exp_app.
Qed.

Lemma parse_number_positive (x : N) (rest : string) :
  (0 < x)%N → delimited rest →
  scan_number (pretty_N_go x EmptyString +:+ rest)
    = Some (EmptyString, pretty_N_go x EmptyString, EmptyString, EmptyString, rest)
  ∧ digits_value (pretty_N_go x EmptyString) 0 = x.
Proof.
  intros Hx Hr.
  destruct (pretty_N_go_digits x EmptyString Hx) as (c & t & -> & Hc & H0 & Ht & Hv).
  rewrite append_nil_r. split; [|done].
  destruct (scan_delimited rest Hr) as [Hf He].
  unfold scan_number. rewrite append_cons. cbn [scan_sign].
  assert (N_of_ascii c ≠ 45%N) as H45.
  { unfold is_digit in Hc. intros E. rewrite E in Hc. done. }
  destruct (N.eqb_spec (N_of_ascii c) 45); [done|].
  unfold scan_int. destruct (N.eqb_spec (N_of_ascii c) 48); [done|].
  rewrite <- append_cons, span_digits_only; first last.
  { intros c' r' ->. cbn in Hr. by apply delimiter_spec in Hr as (? & _). }
  { cbn. by rewrite Hc, Ht. }
  cbn. by rewrite Hf, He.
Qed.

(** The decoder reads the decimal text of an integer back. *)
Lemma parse_number_int (n : Z) (rest : string) :
  delimited rest → parse_number (pretty n +:+ rest) = Some (JInt n, rest).
Proof.
  intros Hr. destruct (scan_delimited rest Hr) as [Hf He].
  destruct n as [|p|p].
  - unfold parse_number, scan_number. change (pretty 0) with "0".
    rewrite append_cons, append_nil.
    change (scan_sign (String "0" rest)) with (EmptyString, String "0"%char rest).
    cbv beta iota zeta.
    change (scan_int (String "0" rest)) with (Some ("0", rest)).
    cbn [mbind option_bind]. rewrite Hf, He. reflexivity.
  - change (pretty (Z.pos p)) with (pretty_N_go (N.pos p) EmptyString).
    destruct (parse_number_positive (N.pos p) rest) as [Hs Hv]; [done..|].
    unfold parse_number. rewrite Hs. cbn [mbind option_bind].
    rewrite !bool_decide_eq_true_2 by done. by rewrite Hv.
  - change (pretty (Z.neg p)) with ("-" +:+ pretty_N_go (N.pos p) EmptyString).
    destruct (parse_number_positive (N.pos p) rest) as [Hs Hv]; [done..|].
    unfold parse_number. rewrite append_assoc, append_cons, append_nil.
    rewrite (scan_number_minus _ _ _ _ _ Hs). cbn [mbind option_bind].
    rewrite bool_decide_eq_true_2 by done. rewrite bool_decide_eq_false_2 by done.
    by rewrite Hv.
Qed.

Lemma length_append (a b : string) :
  String.length (a +:+ b) = (String.length a + String.length b)%nat.
Proof. induction a as [|c a IH]; [done|]. rewrite append_cons. cbn. by rewrite IH. Qed.

Lemma skip_ws_head c X : is_space c = false → skip_ws (String c X) = String c X.
Proof. intros H. cbn. by rewrite H. Qed.

Lemma skip_ws_spaces n X : skip_ws (spaces n +:+ X) = skip_ws X.
Proof. induction n as [|n IH]; [done|]. cbn [spaces]. rewrite append_cons. apply IH. Qed.

Lemma skip_ws_newline_indent level X : skip_ws (newline_indent level +:+ X) = skip_ws X.
Proof.
  unfold newline_indent, nl. rewrite append_assoc, append_cons, append_nil.
  change (skip_ws (String (ascii_of_nat 10) ?s)) with (skip_ws s).
  apply skip_ws_spaces.
Qed.

Lemma delimited_newline_indent level X : delimited (newline_indent level +:+ X).
Proof. unfold newline_indent, nl. by rewrite append_assoc, append_cons. Qed.

(** The first character of a number. *)

Lemma scan_int_head s int r :
  scan_int s = Some (int, r) → ∃ c t, int = String c t ∧ is_digit c = true.
Proof.
  destruct s as [|c s]; [done|]. unfold scan_int.
  destruct (N.eqb_spec (N_of_ascii c) 48) as [E|_].
  - intros [= <- <-]. exists c, EmptyString. split; [done|]. unfold is_digit. by rewrite E.
  - cbn [span_digits]. destruct (is_digit c) eqn:Hc; [|done].
    destruct (span_digits s) as [d r']. intros [= <- <-]. eauto.
Qed.

Lemma json_float_head text :
  json_float text = true → ∃ c t, text = String c t ∧ number_head c = true.
Proof.
  unfold json_float. destruct (scan_number text) as [[[[[sg i] f] e] r]|] eqn:Hs; [|done].
  intros _. pose proof (scan_number_text _ _ _ _ _ _ Hs) as ->.
  unfold scan_number in Hs. destruct (scan_sign _) as [sg' s1] eqn:Hsg.
  destruct (scan_int s1) as [[i' s2]|] eqn:Hi; [|done]. cbn in Hs.
  destruct (scan_frac s2) as [f' s3]. destruct (scan_exp s3) as [e' s4].
  injection Hs as <- <- <- <- <-.
  apply scan_int_head in Hi as (c & t & -> & Hc).
  destruct (sg' +:+ String c t +:+ f' +:+ e' +:+ s4) as [|c0 t0] eqn:E.
  { destruct sg'; discriminate E. }
  unfold scan_sign in Hsg. destruct (N.eqb_spec (N_of_ascii c0) 45) as [E45|].
  - exists c0, t0. split; [done|]. unfold number_head. rewrite E45.
    by rewrite orb_true_r.
  - injection Hsg as <- <-. rewrite append_nil, append_cons in E.
    injection E as <- <-. eexists _, _. split; [done|]. unfold number_head. by rewrite Hc.
Qed.

Lemma pretty_Z_head (n : Z) : ∃ c t, pretty n = String c t ∧ number_head c = true.
Proof.
  destruct n as [|p|p].
  - by exists "0"%char, EmptyString.
  - change (pretty (Z.pos p)) with (pretty_N_go (N.pos p) EmptyString).
    destruct (pretty_N_go_digits (N.pos p) EmptyString) as (c & t & -> & Hc & _); [done|].
    eexists _, _. split; [done|]. unfold number_head. by rewrite Hc.
  - change (pretty (Z.neg p)) with ("-" +:+ pretty_N_go (N.pos p) EmptyString).
    eexists _, _. split; [by rewrite append_cons, append_nil|done].
Qed.

Lemma number_head_spec c X :
  number_head c = true →
  value_head c = true
  ∧ (N_of_ascii c =? 34)%N = false ∧ (N_of_ascii c =? 123)%N = false
  ∧ (N_of_ascii c =? 91)%N = false
  ∧ parse_constant (String c X) = None.
Proof.
  unfold number_head, value_head, is_digit, is_space. cbn zeta. intros H.
  assert (N_of_ascii c = 45 ∨ 48 ≤ N_of_ascii c ≤ 57)%N as Hc.
  { revert H. N_cases; (done || lia). }
  split_and!; [N_cases; (done || lia)..|].
  unfold parse_constant. cbn [after_word].
  rewrite !bool_decide_eq_false_2; [done|intros <-; cbn in Hc; lia..].
Qed.

Lemma float_repr_finite (x : float) :
  finite x = true → float_repr x = str_of_float x ∧ json_float (str_of_float x) = true.
Proof.
  unfold finite. destruct (int_of_float x) as [z| |] eqn:Hx; [|done..]. intros _.
  pose proof (repr_json_float x z Hx) as Hj. split; [|done].
  unfold float_repr. cbn zeta.
  rewrite !bool_decide_eq_false_2; [done|intros E; by rewrite E in Hj..].
Qed.

Lemma json_ind' (P : json → Prop) :
  P JNull → (∀ b, P (JBool b)) → (∀ n, P (JInt n)) → (∀ x, P (JFloat x)) →
  (∀ s, P (JStr s)) →
  (∀ items, Forall P items → P (JList items)) →
  (∀ items, Forall (λ kv, P kv.2) items → P (JDict items)) →
  ∀ v, P v.
Proof.
  intros Hnull Hbool Hint Hfloat Hstr Hlist Hdict.
  fix IH 1. intros [|b|n|x|s|items|items].
  - exact Hnull.
  - apply Hbool.
  - apply Hint.
  - apply Hfloat.
  - apply Hstr.
  - apply Hlist. induction items as [|item items IHitems]; constructor.
    + apply IH.
    + exact IHitems.
  - apply Hdict. induction items as [|[key item] items IHitems]; constructor.
    + apply IH.
    + exact IHitems.
Qed.

(** The first character of the text of a value. *)
Lemma dumps_head level v :
  json_finite v = true →
  ∃ c t, dumps level v = String c t ∧ value_head c = true.
Proof.
  destruct v as [|[]|n|x|s|[|item items]|[|kv items]]; cbn [json_finite dumps];
    intros Hv; try (by eexists _, _).
  - destruct (pretty_Z_head n) as (c & t & -> & Hc). exists c, t. split; [done|].
    by apply (number_head_spec c EmptyString).
  - apply float_repr_finite in Hv as [-> Hj].
    apply json_float_head in Hj as (c & t & -> & Hc). exists c, t. split; [done|].
    by apply (number_head_spec c EmptyString).
Qed.

Lemma skip_ws_dumps level v X :
  json_finite v = true → skip_ws (dumps level v +:+ X) = dumps level v +:+ X.
Proof.
  intros (c & t & -> & Hc)%(dumps_head level). rewrite append_cons.
  apply skip_ws_head. unfold value_head in Hc. by destruct (is_space c).
Qed.

(** One step of the decoder. *)
Lemma parse_value_S fuel c s1 :
  parse_value (S fuel) (String c s1) =
    let b := N_of_ascii c in
    if (b =? 34)%N then
      '(text, rest) ← scanstring s1; Some (JStr text, rest)
    else if (b =? 123)%N then
      match skip_ws s1 with
      | EmptyString => None
      | String c2 s2 =>
          if (N_of_ascii c2 =? 125)%N then Some (JDict [], s2)
          else if (N_of_ascii c2 =? 34)%N then
            '(items, rest) ← parse_members fuel s2; Some (JDict items, rest)
          else None
      end
    else if (b =? 91)%N then
      match skip_ws s1 with
      | EmptyString => None
      | String c2 s2 =>
          if (N_of_ascii c2 =? 93)%N then Some (JList [], s2)
          else
            '(items, rest) ← parse_elements fuel (String c2 s2);
            Some (JList items, rest)
      end
    else
      match parse_constant (String c s1) with
      | Some r => Some r
      | None => parse_number (String c s1)
      end.
Proof. reflexivity. Qed.

Lemma parse_elements_S fuel s :
  parse_elements (S fuel) s =
    '(item, s1) ← parse_value fuel s;
    match skip_ws s1 with
    | EmptyString => None
    | String c s2 =>
        if (N_of_ascii c =? 93)%N then Some ([item], s2)
        else if (N_of_ascii c =? 44)%N then
          '(items, rest) ← parse_elements fuel (skip_ws s2);
          Some (item :: items, rest)
        else None
    end.
Proof. reflexivity. Qed.

Lemma parse_members_S fuel s :
  parse_members (S fuel) s =
    '(key, s1) ← scanstring s;
    match skip_ws s1 with
    | EmptyString => None
    | String c s2 =>
        if (N_of_ascii c =? 58)%N then
          '(item, s3) ← parse_value fuel (skip_ws s2);
          match skip_ws s3 with
          | EmptyString => None
          | String c' s4 =>
              if (N_of_ascii c' =? 125)%N then Some ([(key, item)], s4)
              else if (N_of_ascii c' =? 44)%N then
                match skip_ws s4 with
                | EmptyString => None
                | String q s5 =>
                    if (N_of_ascii q =? 34)%N then
                      '(items, rest) ← parse_members fuel s5;
                      Some ((key, item) :: items, rest)
                    else None
                end
              else None
          end
        else None
    end.
Proof. reflexivity. Qed.

Lemma parse_number_value fuel c t (v : json) rest :
  number_head c = true →
  parse_number (String c t +:+ rest) = Some (v, rest) →
  parse_value (S fuel) (String c t +:+ rest) = Some (v, rest).
Proof.
  intros Hc Hn. rewrite append_cons in Hn |- *. rewrite parse_value_S. cbn zeta.
  destruct (number_head_spec c (t +:+ rest) Hc) as (_ & -> & -> & -> & ->). exact Hn.
Qed.

Lemma parse_elements_dumps level items rest fuel :
  items ≠ [] → Forall (λ v, json_finite v = true ∧ parses v) items →
  (list_sum (map (λ item, S (need item)) items) ≤ fuel)%nat →
  parse_elements fuel
    (join ("," +:+ newline_indent (S level)) (map (dumps (S level)) items)
     +:+ newline_indent level +:+ "]" +:+ rest) = Some (items, rest).
Proof.
  intros Hne Hitems. revert fuel. induction Hitems as [|v items [Hf Hv] Hitems IH]; [done|].
  clear Hne. intros fuel Hfuel. cbn [map list_sum fold_right] in Hfuel.
  fold (list_sum (map (λ item, S (need item)) items)) in Hfuel.
  destruct fuel as [|fuel]; [lia|]. rewrite parse_elements_S.
  destruct items as [|v' items].
  - cbn [map join]. rewrite Hv; [|apply delimited_newline_indent|cbn in Hfuel; lia].
    cbn [mbind option_bind]. rewrite skip_ws_newline_indent, append_cons, append_nil.
    by rewrite skip_ws_head.
  - cbn [map join]. cbn [map] in IH, Hfuel. rewrite !append_assoc.
    rewrite Hv; [|by rewrite append_cons|lia].
    cbn [mbind option_bind]. rewrite append_cons, append_nil, skip_ws_head by done.
    change (N_of_ascii "," =? 93)%N with false. change (N_of_ascii "," =? 44)%N with true.
    cbn iota. rewrite skip_ws_newline_indent.
    assert (Hhead : ∀ X, skip_ws (join ("," +:+ newline_indent (S level))
              (dumps (S level) v' :: map (dumps (S level)) items) +:+ X) =
            join ("," +:+ newline_indent (S level))
              (dumps (S level) v' :: map (dumps (S level)) items) +:+ X).
    { intros X. apply Forall_cons in Hitems as [[Hf' _] _].
      destruct items; cbn [map join]; rewrite ?append_assoc; by apply skip_ws_dumps. }
    rewrite Hhead. rewrite <- !append_assoc in IH. rewrite <- !append_assoc.
    rewrite !append_assoc in IH |- *. rewrite IH; [done|done|lia].
Qed.

Lemma join_cons sep (p p' : string) parts :
  join sep (p :: p' :: parts) = p +:+ sep +:+ join sep (p' :: parts).
Proof. reflexivity. Qed.

Lemma colon_space X : ": " +:+ X = String ":" (String " " X).
Proof. reflexivity. Qed.

Lemma parse_members_dumps level items rest fuel :
  items ≠ [] → Forall (λ kv : string * json, json_finite kv.2 = true ∧ parses kv.2) items →
  (list_sum (map (λ kv, S (need kv.2)) items) ≤ fuel)%nat →
  ∃ s,
    join ("," +:+ newline_indent (S level))
      (map (λ kv, quote kv.1 +:+ ": " +:+ dumps (S level) kv.2) items)
    +:+ newline_indent level +:+ "}" +:+ rest = String (ascii_of_nat 34) s
    ∧ parse_members fuel s = Some (items, rest).
Proof.
  intros Hne Hitems. revert fuel.
  induction Hitems as [|[k v] items [Hf Hv] Hitems IH]; [done|].
  clear Hne. intros fuel Hfuel. cbn [map list_sum fold_right] in Hfuel.
  fold (list_sum (map (λ kv : string * json, S (need kv.2)) items)) in Hfuel.
  cbn [fst snd] in Hf, Hv, Hfuel.
  destruct fuel as [|fuel]; [lia|].
  destruct items as [|kv' items].
  - cbn [map join fst snd]. unfold quote, dquote. rewrite !append_assoc, append_cons, append_nil.
    eexists. split; [reflexivity|]. rewrite parse_members_S.
    fold dquote. rewrite scanstring_escape. cbn [mbind option_bind].
    rewrite colon_space, skip_ws_head by done.
    change (N_of_ascii ":" =? 58)%N with true. cbn iota.
    change (skip_ws (String " " ?X)) with (skip_ws X).
    rewrite skip_ws_dumps by done.
    rewrite Hv; [|apply delimited_newline_indent|cbn in Hfuel; lia].
    cbn [mbind option_bind].
    rewrite skip_ws_newline_indent, append_cons, append_nil, skip_ws_head by done.
    done.
  - destruct (IH ltac:(done) fuel ltac:(cbn [map] in Hfuel |- *; lia)) as (s' & Es' & Hs').
    cbn [map fst snd]. rewrite join_cons. cbn [map] in Es', Hfuel.
    unfold quote at 1, dquote at 1 2. rewrite !append_assoc, append_cons, append_nil.
    eexists. split; [reflexivity|]. rewrite parse_members_S.
    fold dquote. rewrite scanstring_escape. cbn [mbind option_bind].
    rewrite colon_space, skip_ws_head by done.
    change (N_of_ascii ":" =? 58)%N with true. cbn iota.
    change (skip_ws (String " " ?X)) with (skip_ws X).
    rewrite skip_ws_dumps by done.
    rewrite Hv; [|by rewrite append_cons|lia].
    cbn [mbind option_bind]. rewrite append_cons, append_nil, skip_ws_head by done.
    change (N_of_ascii "," =? 125)%N with false. change (N_of_ascii "," =? 44)%N with true.
    cbn iota. rewrite skip_ws_newline_indent.
    rewrite ?append_assoc in Es'. rewrite Es'. rewrite skip_ws_head by done.
    change (N_of_ascii (ascii_of_nat 34) =? 34)%N with true. cbn iota.
    by rewrite Hs'.
Qed.

Lemma forallb_Forall_parses (items : list json) :
  Forall (λ v, json_finite v = true → parses v) items →
  forallb json_finite items = true →
  Forall (λ v, json_finite v = true ∧ parses v) items.
Proof.
  induction 1 as [|v items Hv _ IH]; [constructor|].
  cbn [forallb]. intros [Hf Hfs]%andb_true_iff. constructor; auto.
Qed.

Lemma forallb_Forall_parses_members (items : list (string * json)) :
  Forall (λ kv, json_finite kv.2 = true → parses kv.2) items →
  forallb (λ kv, json_finite kv.2) items = true →
  Forall (λ kv : string * json, json_finite kv.2 = true ∧ parses kv.2) items.
Proof.
  induction 1 as [|v items Hv _ IH]; [constructor|].
  cbn [forallb]. intros [Hf Hfs]%andb_true_iff. constructor; auto.
Qed.

(** The decoder reads the text of a value back. *)
Lemma parse_value_dumps (v : json) : json_finite v = true → parses v.
Proof.
  induction v as [|b|n|x|s|items IH|items IH] using json_ind';
    intros Hfin level rest fuel Hrest Hfuel;
    (destruct fuel as [|fuel]; [cbn in Hfuel; lia|]).
  - cbn [dumps]. rewrite !append_cons, append_nil. reflexivity.
  - destruct b; cbn [dumps]; rewrite !append_cons, append_nil; reflexivity.
  - cbn [dumps]. destruct (pretty_Z_head n) as (c & t & E & Hc).
    pose proof (parse_number_int n rest Hrest) as Hn. rewrite E in Hn |- *.
    by apply parse_number_value.
  - cbn [dumps json_finite] in Hfin |- *.
    destruct (float_repr_finite x Hfin) as [-> Hj].
    pose proof (parse_number_float (str_of_float x) rest Hj Hrest) as Hn.
    unfold finite in Hfin. destruct (int_of_float x) as [z| |] eqn:Hx; [|done..].
    rewrite (repr_round_trip x z Hx) in Hn. cbn [mbind option_bind] in Hn.
    destruct (json_float_head _ Hj) as (c & t & E & Hc). rewrite E in Hn |- *.
    by apply parse_number_value.
  - cbn [dumps]. unfold quote, dquote at 1. rewrite !append_assoc, append_cons, append_nil.
    rewrite parse_value_S. cbn zeta.
    change (N_of_ascii (ascii_of_nat 34) =? 34)%N with true. cbn iota.
    by rewrite scanstring_escape.
  - cbn [json_finite need] in Hfin, Hfuel.
    pose proof (forallb_Forall_parses items IH Hfin) as Hitems.
    destruct items as [|item items].
    { cbn [dumps]. rewrite !append_cons, append_nil. reflexivity. }
    change (dumps level (JList (item :: items))) with
      ("[" +:+ newline_indent (S level)
       +:+ join ("," +:+ newline_indent (S level)) (map (dumps (S level)) (item :: items))
       +:+ newline_indent level +:+ "]").
    rewrite !append_assoc, append_cons, append_nil. rewrite parse_value_S. cbn zeta.
    change (N_of_ascii "[" =? 34)%N with false. change (N_of_ascii "[" =? 123)%N with false.
    change (N_of_ascii "[" =? 91)%N with true. cbn iota.
    rewrite skip_ws_newline_indent.
    pose proof (parse_elements_dumps level (item :: items) rest fuel
                  ltac:(done) Hitems ltac:(lia)) as Hp.
    assert (Hhead : ∃ c t, join ("," +:+ newline_indent (S level))
                     (map (dumps (S level)) (item :: items))
                   +:+ newline_indent level +:+ "]" +:+ rest = String c t
                   ∧ value_head c = true).
    { apply Forall_cons in Hitems as [[Hf' _] _].
      destruct (dumps_head (S level) item Hf') as (c & t & E & Hc).
      destruct items; cbn [map join]; rewrite E, ?append_assoc, append_cons; eauto. }
    destruct Hhead as (c & t & E & Hc). rewrite E in Hp |- *.
    unfold value_head in Hc. apply andb_true_iff in Hc as [Hs Hb].
    apply negb_true_iff in Hs, Hb. rewrite skip_ws_head by done. rewrite Hb.
    by rewrite Hp.
  - cbn [json_finite need] in Hfin, Hfuel.
    pose proof (forallb_Forall_parses_members items IH Hfin) as Hitems.
    destruct items as [|item items].
    { cbn [dumps]. rewrite !append_cons, append_nil. reflexivity. }
    change (dumps level (JDict (item :: items))) with
      ("{" +:+ newline_indent (S level)
       +:+ join ("," +:+ newline_indent (S level))
             (map (λ kv, quote kv.1 +:+ ": " +:+ dumps (S level) kv.2) (item :: items))
       +:+ newline_indent level +:+ "}").
    rewrite !append_assoc, append_cons, append_nil. rewrite parse_value_S. cbn zeta.
    change (N_of_ascii "{" =? 34)%N with false. change (N_of_ascii "{" =? 123)%N with true.
    cbn iota. rewrite skip_ws_newline_indent.
    destruct (parse_members_dumps level (item :: items) rest fuel
                ltac:(done) Hitems ltac:(lia)) as (s' & E & Hp).
    rewrite E. rewrite skip_ws_head by done.
    change (N_of_ascii (ascii_of_nat 34) =? 125)%N with false.
    change (N_of_ascii (ascii_of_nat 34) =? 34)%N with true. cbn iota.
    by rewrite Hp.
Qed.

(** The text of a value is at least as long as the decoder's work on it. *)
Lemma length_join sep (parts : list string) :
  (1 ≤ String.length sep)%nat →
  (list_sum (map (λ p, S (String.length p)) parts) ≤ S (String.length (join sep parts)))%nat.
Proof.
  intros Hsep. induction parts as [|p [|p' parts] IH]; [cbn; lia|cbn; lia|].
  rewrite join_cons, !length_append.
  change (list_sum (map (λ p, S (String.length p)) (p :: p' :: parts))) with
    (S (String.length p) + list_sum (map (λ p, S (String.length p)) (p' :: parts)))%nat.
  lia.
Qed.

Lemma list_sum_le {A} (f g : A → nat) (l : list A) :
  Forall (λ a, f a ≤ g a)%nat l → (list_sum (map f l) ≤ list_sum (map g l))%nat.
Proof.
  induction 1 as [|a l Ha _ IH]; [done|].
  change (f a + list_sum (map f l) ≤ g a + list_sum (map g l))%nat. lia.
Qed.

Lemma length_separator level :
  (1 ≤ String.length ("," +:+ newline_indent level))%nat.
Proof. rewrite length_append. cbn. lia. Qed.

Lemma need_le_length (v : json) level :
  json_finite v = true → (need v ≤ String.length (dumps level v))%nat.
Proof.
  revert level. induction v as [|b|n|x|s|items IH|items IH] using json_ind';
    intros level Hfin.
  - cbn. lia.
  - destruct b; cbn; lia.
  - cbn [need dumps]. destruct (pretty_Z_head n) as (c & t & -> & _). cbn. lia.
  - cbn [need dumps json_finite] in Hfin |- *.
    destruct (float_repr_finite x Hfin) as [-> Hj].
    destruct (json_float_head _ Hj) as (c & t & -> & _). cbn. lia.
  - cbn [need dumps]. unfold quote. rewrite !length_append. cbn. lia.
  - cbn [json_finite] in Hfin. destruct items as [|item items]; [cbn; lia|].
    change (dumps level (JList (item :: items))) with
      ("[" +:+ newline_indent (S level)
       +:+ join ("," +:+ newline_indent (S level)) (map (dumps (S level)) (item :: items))
       +:+ newline_indent level +:+ "]").
    cbn [need]. rewrite !length_append.
    pose proof (length_join _ (map (dumps (S level)) (item :: items))
                  (length_separator (S level))) as Hj.
    rewrite map_map in Hj.
    assert (Forall (λ v, S (need v) ≤ S (String.length (dumps (S level) v)))%nat
              (item :: items)) as Hs.
    { revert IH Hfin. generalize (item :: items). intros l IH Hfin.
      induction IH as [|v l' Hv _ IHl]; [constructor|].
      cbn [forallb] in Hfin. apply andb_true_iff in Hfin as [Hf Hfs].
      constructor; [|by apply IHl]. specialize (Hv (S level) Hf). lia. }
    apply list_sum_le in Hs. change (String.length "[") with 1%nat.
    change (String.length "]") with 1%nat. lia.
  - cbn [json_finite] in Hfin. destruct items as [|item items]; [cbn; lia|].
    change (dumps level (JDict (item :: items))) with
      ("{" +:+ newline_indent (S level)
       +:+ join ("," +:+ newline_indent (S level))
             (map (λ kv, quote kv.1 +:+ ": " +:+ dumps (S level) kv.2) (item :: items))
       +:+ newline_indent level +:+ "}").
    cbn [need]. rewrite !length_append.
    pose proof (length_join _
                  (map (λ kv, quote kv.1 +:+ ": " +:+ dumps (S level) kv.2) (item :: items))
                  (length_separator (S level))) as Hj.
    rewrite map_map in Hj.
    assert (Forall (λ kv : string * json, S (need kv.2) ≤
              S (String.length (quote kv.1 +:+ ": " +:+ dumps (S level) kv.2)))%nat
              (item :: items)) as Hs.
    { revert IH Hfin. generalize (item :: items). intros l IH Hfin.
      induction IH as [|kv l' Hv _ IHl]; [constructor|].
      cbn [forallb] in Hfin. apply andb_true_iff in Hfin as [Hf Hfs].
      constructor; [|by apply IHl]. specialize (Hv (S level) Hf).
      rewrite !length_append. lia. }
    apply list_sum_le in Hs. change (String.length "{") with 1%nat.
    change (String.length "}") with 1%nat. lia.
Qed.

(** [loads] inverts [dumps] on the values whose floats are finite. *)
Lemma loads_dumps (v : json) : json_finite v = true → loads (dumps 0 v) = Some v.
Proof.
  intros Hfin. unfold loads. rewrite <- (append_nil_r (dumps 0 v)) at 2.
  rewrite skip_ws_dumps by done.
  rewrite (parse_value_dumps v Hfin 0%nat EmptyString); [done|done|].
  by apply need_le_length.
Qed.

(** ** The exported aggregate *)

Lemma json_finite_books (points : list BookPoint) :
  forallb (λ b, finite (book_lat b) && finite (book_lng b)) points = true →
  forallb json_finite (book_dict <$> points) = true.
Proof.
  induction points as [|b points IH]; [done|].
  cbn [forallb fmap list_fmap]. intros [[H1 H2]%andb_true_iff H]%andb_true_iff.
  rewrite IH by done. cbn [book_dict json_finite forallb snd]. by rewrite H1, H2.
Qed.

Lemma json_finite_volunteers (people : list Volunteer) :
  forallb (λ v, finite (vol_lat v) && finite (vol_lng v)) people = true →
  forallb json_finite (volunteer_dict <$> people) = true.
Proof.
  induction people as [|v people IH]; [done|].
  cbn [forallb fmap list_fmap]. intros [[H1 H2]%andb_true_iff H]%andb_true_iff.
  rewrite IH by done. cbn [volunteer_dict json_finite forallb snd]. by rewrite H1, H2.
Qed.

Lemma json_finite_schools (places : list School) :
  forallb (λ s, finite (sch_lat s) && finite (sch_lng s)) places = true →
  forallb json_finite (school_dict <$> places) = true.
Proof.
  induction places as [|p places IH]; [done|].
  cbn [forallb fmap list_fmap]. intros [[H1 H2]%andb_true_iff H]%andb_true_iff.
  rewrite IH by done. cbn [school_dict json_finite forallb snd]. by rewrite H1, H2.
Qed.

Lemma json_finite_data_dict (data : Aggregate) :
  finite_coordinates data = true → json_finite (data_dict data) = true.
Proof.
  unfold finite_coordinates. intros [[Hb Hv]%andb_true_iff Hs]%andb_true_iff.
  cbn [data_dict json_finite forallb snd].
  by rewrite json_finite_books, json_finite_volunteers, json_finite_schools.
Qed.

(** C7 (as amended).  For every aggregate whose latitudes and
    longitudes are numbers, none of them NaN or an infinity, and so for
    every such aggregate that the loader returns: exporting it to JSON
    at a path that can be opened writes one file, and parsing the text
    of that file as JSON gives the aggregate back, that is an object
    with exactly the keys bookData, volunteers and schools, in this
    order, whose arrays have the lengths of the aggregate's three
    sequences and hold, record by record, the same fields with the same
    values.  The encoder is [json.dump] with [indent=2], the decoder
    reads by the JSON grammar, and [repr] and [float] are assumed to
    agree on the floats that are numbers. *)
Theorem json_export_round_trip (w : World) (data : Aggregate) (output_path : string)
    (fs : gmap string string) :
  finite_coordinates data = true → writable w output_path = true →
  ∃ text books people places,
    export_to_json (encoder := dumps 0) w data output_path fs
      = ([ExportedTo "JSON" output_path], Ok (<[output_path := text]> fs))
    ∧ loads text = Some (JDict [("bookData", JList books); ("volunteers", JList people);
                                ("schools", JList places)])
    ∧ books = book_dict <$> bookData data
    ∧ people = volunteer_dict <$> volunteers data
    ∧ places = school_dict <$> schools data
    ∧ length books = length (bookData data)
    ∧ length people = length (volunteers data)
    ∧ length places = length (schools data).
Proof.
  intros Hfin Hw.
  exists (dumps 0 (data_dict data)), (book_dict <$> bookData data),
    (volunteer_dict <$> volunteers data), (school_dict <$> schools data).
  split_and!; [|by apply loads_dumps, json_finite_data_dict|done..| | |];
    [|by rewrite length_fmap..].
  unfold export_to_json. by rewrite Hw.
Qed.

(** X20.  The arrays of the TypeScript file read back: when the
    latitudes and longitudes of the records are numbers, each of the
    three constants that [export_to_typescript] declares is initialised
    with a text that parses, as JSON, to the records of its sequence,
    in order and with the same field values. *)
Theorem typescript_arrays_read_back (w : World) (data : Aggregate) (output_path : string)
    (fs : gmap string string) :
  finite_coordinates data = true → writable w output_path = true →
  ∃ books people places,
    export_to_typescript (encoder := dumps 0) w data output_path fs =
      ([ExportedTo "TypeScript" output_path],
       Ok (<[output_path :=
               "// Auto-generated from Excel file" +:+ nl +:+ "// Book Data" +:+ nl
               +:+ declaration "bookData" books +:+ nl
               +:+ "// Volunteers" +:+ nl +:+ declaration "volunteers" people +:+ nl
               +:+ "// Schools" +:+ nl +:+ declaration "schools" places]> fs))
    ∧ loads books = Some (JList (book_dict <$> bookData data))
    ∧ loads people = Some (JList (volunteer_dict <$> volunteers data))
    ∧ loads places = Some (JList (school_dict <$> schools data)).
Proof.
  unfold finite_coordinates. intros [[Hb Hv]%andb_true_iff Hs]%andb_true_iff Hw.
  exists (dumps 0 (JList (book_dict <$> bookData data))),
    (dumps 0 (JList (volunteer_dict <$> volunteers data))),
    (dumps 0 (JList (school_dict <$> schools data))).
  split_and!.
  - unfold export_to_typescript. rewrite Hw. cbn [mbind io_bind print mret io_ret].
    do 3 f_equal. unfold declaration, write, json_dumps. by rewrite !append_assoc.
  - apply loads_dumps. cbn [json_finite]. by apply json_finite_books.
  - apply loads_dumps. cbn [json_finite]. by apply json_finite_volunteers.
  - apply loads_dumps. cbn [json_finite]. by apply json_finite_schools.
Qed.


End RoundTrip.

(** * The properties on the example tables *)

Import Decimal Folding Examples.

(** The folding instance meets what is assumed of [str.lower()]. *)
Lemma fold_ascii_text (s : string) : ascii_text s = true → fold s = ascii_lower s.
Proof.
  induction s as [|c s IH]; [done|]. cbn [ascii_text].
  intros [Hc Hs]%andb_true_iff. apply bool_decide_eq_true_1 in Hc.
  cbn [fold ascii_lower]. rewrite bool_decide_eq_false_2 by lia.
  by rewrite IH.
Qed.

#[global] Instance text_ok : PyTextOk text := {| lower_ascii_text := fold_ascii_text |}.

(** On a header spelled with the Kelvin sign the detector finds the
    count column, as [str.lower()] makes it [books]. *)
Lemma detector_kelvin_header :
  lower ("BOO" +:+ kelvin +:+ "S") = "books"
  ∧ auto_detect_columns kelvin_headers "books" !! "count" = Some ("BOO" +:+ kelvin +:+ "S").
Proof. split; reflexivity. Qed.

(** ** The decimal floats obey the laws of [repr] *)

Lemma digit_cases (c : ascii) :
  is_digit c = true →
  c ∈ ["0"; "1"; "2"; "3"; "4"; "5"; "6"; "7"; "8"; "9"]%char.
Proof.
  unfold is_digit. intros [H1 H2]%andb_true_iff.
  apply N.leb_le in H1, H2. rewrite <- (ascii_N_embedding c).
  assert (N_of_ascii c = 48 ∨ N_of_ascii c = 49 ∨ N_of_ascii c = 50 ∨ N_of_ascii c = 51
          ∨ N_of_ascii c = 52 ∨ N_of_ascii c = 53 ∨ N_of_ascii c = 54 ∨ N_of_ascii c = 55
          ∨ N_of_ascii c = 56 ∨ N_of_ascii c = 57)%N as H by lia.
  destruct H as [->|[->|[->|[->|[->|[->|[->|[->|[->| ->]]]]]]]]];
    change (ascii_of_N _) with "0"%char || change (ascii_of_N _) with "1"%char
    || change (ascii_of_N _) with "2"%char || change (ascii_of_N _) with "3"%char
    || change (ascii_of_N _) with "4"%char || change (ascii_of_N _) with "5"%char
    || change (ascii_of_N _) with "6"%char || change (ascii_of_N _) with "7"%char
    || change (ascii_of_N _) with "8"%char || change (ascii_of_N _) with "9"%char;
    set_solver.
Qed.

Ltac digit_cases c H :=
  let Hc := fresh in
  pose proof (digit_cases c H) as Hc;
  repeat (apply elem_of_cons in Hc as [->|Hc]); [..|by apply elem_of_nil in Hc].

Lemma signed_digit {A} (f : string → option A) (neg : A → A) c s :
  is_digit c = true → signed f neg (String c s) = f (String c s).
Proof. intros H. digit_cases c H; reflexivity. Qed.

Lemma digit_of_digit c :
  is_digit c = true → digit_of c = Some (Z.of_N (N_of_ascii c - 48)).
Proof. intros H. digit_cases c H; reflexivity. Qed.

Lemma digits_digits_value s acc :
  digits_only s = true →
  digits s (Z.of_N acc) = Some (Z.of_N (digits_value s acc)).
Proof.
  revert acc. induction s as [|c s IH]; intros acc; [done|].
  cbn [digits_only digits digits_value]. intros [Hc Hs]%andb_true_iff.
  rewrite digit_of_digit by done. rewrite <- IH by done. f_equal. lia.
Qed.

Lemma split_dot_digits s : digits_only s = true → split_dot s = (s, None).
Proof.
  induction s as [|c s IH]; [done|]. cbn [digits_only]. intros [Hc Hs]%andb_true_iff.
  specialize (IH Hs). digit_cases c Hc; cbn [split_dot]; by rewrite IH.
Qed.

Lemma split_exp_digits s X :
  digits_only s = true → split_exp (s +:+ String "e" X) = (s, Some X).
Proof.
  induction s as [|c s IH]; [done|]. cbn [digits_only]. intros [Hc Hs]%andb_true_iff.
  specialize (IH Hs). rewrite append_cons. cbn [split_exp]. rewrite IH.
  digit_cases c Hc; reflexivity.
Qed.

Lemma unsigned_float_digits c t X :
  is_digit c = true →
  unsigned_float (String c t +:+ X) =
    match split_exp (String c t +:+ X) with
    | (a, None) => '(m, e) ← mantissa a; Some (DFin m e)
    | (a, Some x) => '(m, e) ← mantissa a; k ← parse_int x; Some (DFin m (e + k))
    end.
Proof. intros H. rewrite append_cons. digit_cases c H; reflexivity. Qed.

(** The decimal text of a natural number. *)
Lemma pretty_N_digits (x : N) :
  ∃ c t, pretty x = String c t ∧ is_digit c = true ∧ digits_only t = true
    ∧ (N_of_ascii c = 48%N → t = EmptyString)
    ∧ digits_value (String c t) 0 = x.
Proof.
  destruct (decide (x = 0%N)) as [->|Hx].
  - by exists "0"%char, EmptyString.
  - change (pretty x) with (pretty_N x). unfold pretty_N. rewrite decide_False by done.
    destruct (pretty_N_go_digits x EmptyString) as (c & t & -> & Hc & H0 & Ht & Hv); [lia|].
    exists c, t. rewrite append_nil_r. done.
Qed.

(** The decimal text of an integer: a sign and the text of its
    absolute value. *)
Lemma pretty_Z_sign (n : Z) :
  pretty n = (if bool_decide (n < 0) then "-" else EmptyString) +:+ pretty (Z.abs_N n).
Proof. by destruct n. Qed.

Lemma scan_int_digits c t R :
  is_digit c = true → digits_only t = true → (N_of_ascii c = 48%N → t = EmptyString) →
  (∀ c' r', R = String c' r' → is_digit c' = false) →
  scan_int (String c t +:+ R) = Some (String c t, R).
Proof.
  intros Hc Ht H0 HR. rewrite append_cons. unfold scan_int.
  destruct (N.eqb_spec (N_of_ascii c) 48) as [E|_].
  - by rewrite (H0 E), append_nil.
  - rewrite <- append_cons, span_digits_only; [done| |done]. cbn. by rewrite Hc, Ht.
Qed.

Lemma scan_number_show (m e : Z) :
  ∃ int exp,
    scan_number (show (DFin m e)) =
      Some (if bool_decide (m < 0) then "-" else EmptyString, int, EmptyString,
            String "e" exp, EmptyString).
Proof.
  cbn [show]. rewrite (pretty_Z_sign m), (pretty_Z_sign e).
  destruct (pretty_N_digits (Z.abs_N m)) as (c & t & -> & Hc & Ht & H0 & _).
  destruct (pretty_N_digits (Z.abs_N e)) as (c' & t' & -> & Hc' & Ht' & _ & _).
  exists (String c t), ((if bool_decide (e < 0) then "-" else EmptyString) +:+ String c' t').
  assert (∀ X, scan_sign (String c X) = (EmptyString, String c X)) as Hsign.
  { intros X. digit_cases c Hc; reflexivity. }
  assert (scan_number (String c t +:+ "e" +:+
            (if bool_decide (e < 0) then "-" else EmptyString) +:+ String c' t') =
          Some (EmptyString, String c t, EmptyString,
                String "e" ((if bool_decide (e < 0) then "-" else EmptyString)
                            +:+ String c' t'), EmptyString)) as Hs.
  { unfold scan_number. rewrite append_cons, Hsign, <- append_cons.
    rewrite scan_int_digits; [|done..|]; first last.
    { intros c0 r0. rewrite append_cons, append_nil. by intros [= <- _]. }
    cbn [mbind option_bind]. rewrite append_cons, append_nil.
    change (scan_frac (String "e" ?X)) with (EmptyString, String "e" X).
    cbv beta iota zeta. unfold scan_exp.
    change (N_of_ascii "e" =? 101)%N with true. cbn [orb].
    assert (span_digits (String c' t') = (String c' t', EmptyString)) as Hd.
    { rewrite <- (append_nil_r (String c' t')) at 1. apply span_digits_only; [|done].
      cbn. by rewrite Hc', Ht'. }
    case_bool_decide.
    - rewrite append_cons, append_nil. change (N_of_ascii "-" =? 43)%N with false.
      change (N_of_ascii "-" =? 45)%N with true. cbn [orb]. by rewrite Hd.
    - rewrite append_nil.
      assert (((N_of_ascii c' =? 43) || (N_of_ascii c' =? 45))%N = false) as ->.
      { digit_cases c' Hc'; reflexivity. }
      by rewrite Hd. }
  destruct (bool_decide (m < 0)); [|by rewrite append_nil].
  rewrite append_cons, append_nil. by apply scan_number_minus.
Qed.

Lemma parse_int_pretty (n : Z) : parse_int (pretty n) = Some n.
Proof.
  rewrite (pretty_Z_sign n).
  destruct (pretty_N_digits (Z.abs_N n)) as (c & t & -> & Hc & Ht & _ & Hv).
  assert (unsigned_int (String c t) = Some (Z.of_N (Z.abs_N n))) as Hu.
  { unfold unsigned_int. change 0 with (Z.of_N 0).
    rewrite digits_digits_value; [by rewrite Hv|]. cbn. by rewrite Hc, Ht. }
  unfold parse_int. case_bool_decide.
  - rewrite append_cons, append_nil. change (signed ?f ?g (String "-" ?s)) with (g <$> f s).
    rewrite Hu. cbn. f_equal. lia.
  - rewrite append_nil, signed_digit, Hu by done. f_equal. lia.
Qed.

Lemma parse_float_show (m e : Z) : parse_float (show (DFin m e)) = Some (DFin m e).
Proof.
  cbn [show]. rewrite (pretty_Z_sign m).
  destruct (pretty_N_digits (Z.abs_N m)) as (c & t & -> & Hc & Ht & _ & Hv).
  assert (unsigned_float (String c t +:+ "e" +:+ pretty e)
          = Some (DFin (Z.of_N (Z.abs_N m)) e)) as Hu.
  { rewrite unsigned_float_digits by done.
    change ("e" +:+ pretty e) with (String "e" (pretty e)).
    rewrite split_exp_digits by (cbn; by rewrite Hc, Ht).
    unfold mantissa. rewrite split_dot_digits by (cbn; by rewrite Hc, Ht).
    unfold unsigned_int.
    pose proof (digits_digits_value (String c t) 0%N) as Hd.
    change (Z.of_N 0) with 0 in Hd. rewrite Hd by (cbn; by rewrite Hc, Ht).
    rewrite Hv. cbn [mbind option_bind]. rewrite parse_int_pretty.
    cbn [mbind option_bind]. by rewrite Z.add_0_l. }
  unfold parse_float. rewrite append_assoc. case_bool_decide.
  - change ("-" +:+ ?X) with (String "-" X).
    change (signed ?f ?g (String "-" ?s)) with (g <$> f s).
    rewrite Hu. cbn. do 2 f_equal. lia.
  - rewrite append_nil, (append_cons c t), signed_digit, <- (append_cons c t), Hu by done.
    do 2 f_equal. lia.
Qed.

#[export] Instance numeric_ok : PyNumericOk numeric.
Proof.
  split.
  - intros [| |m e] z; [done..|]. intros _.
    change (json_float (show (DFin m e)) = true). unfold json_float.
    destruct (scan_number_show m e) as (int & exp & ->).
    apply negb_true_iff, bool_decide_eq_false. by intros [_ ?].
  - intros [| |m e] z; [done..|]. intros _. apply parse_float_show.
Qed.

(** The scenario of the specification: the row with [abc] is dropped
    with one warning and the other row is returned. *)
Lemma row_coercer_records_and_warnings_witness :
  handled (book_row "latitude" "longitude" "quantity") (iterrows scenario_sheet) = true
  ∧ parse_book_data scenario_sheet "latitude" "longitude" "quantity" =
      ([Warning "row" (ValueError (CStr "abc"))],
       Ok [scenario_point]).
Proof.
  assert (H : handled (book_row "latitude" "longitude" "quantity")
                (iterrows scenario_sheet) = true) by reflexivity.
  split; [exact H|].
  destruct (row_coercer_records_and_warnings scenario_sheet
              "id" "latitude" "longitude" "name" "quantity") as (Hbooks & _).
  rewrite (Hbooks H). reflexivity.
Defined.

(** C1 as stated fails: the first row of [books_with_date] has three
    valid numbers and the second a latitude that is not a number, yet
    the parser returns no record for the first and prints no warning
    for the second, because [float] of a date raises [TypeError]. *)
Lemma row_coercer_counterexample :
  coerced (book_row "lat" "lng" "count") (iterrows books_with_date) =
    [scenario_point]
  ∧ parse_book_data books_with_date "lat" "lng" "count" =
      ([], Raise (TypeError (CDate "2024-01-05 00:00:00")))
  ∧ ∀ out recs, parse_book_data books_with_date "lat" "lng" "count" ≠ (out, Ok recs).
Proof.
  assert (E : parse_book_data books_with_date "lat" "lng" "count" =
              ([], Raise (TypeError (CDate "2024-01-05 00:00:00")))) by reflexivity.
  split_and!; [reflexivity|exact E|]. intros out recs. rewrite E. discriminate.
Qed.

Lemma handled_failure_skips_the_row_witness :
  parse_book_data scenario_sheet "latitude" "longitude" "quantity" =
    skip_row "row" (book_row "latitude" "longitude" "quantity")
      (iterrows scenario_sheet) 1 (ValueError (CStr "abc"))
  ∧ skip_row "row" (book_row "latitude" "longitude" "quantity")
      (iterrows scenario_sheet) 1 (ValueError (CStr "abc")) =
      ([Warning "row" (ValueError (CStr "abc"))],
       Ok [scenario_point]).
Proof.
  destruct (handled_failure_skips_the_row scenario_sheet
              "id" "latitude" "longitude" "name" "quantity")
    as (_ & _ & _ & _ & _ & Hskip & _).
  destruct (Hskip 1%nat _ (ValueError (CStr "abc")) eq_refl eq_refl) as (Hbooks & _).
  split; [apply Hbooks|]; reflexivity.
Defined.

(** C2 as stated fails: the date in the students column of the second
    row of [schools_with_date] makes [int] raise [TypeError], which
    ends [parse_schools]: no warning, and the first row is lost too. *)
Lemma handled_failure_counterexample :
  school_row "id" "lat" "lng" "name" "students" 1
    (zip (columns schools_with_date)
       [CStr "Adams"; CFloat (DFin 3617 (-2)); CFloat (DFin (-8679) (-2));
        CDate "2024-09-01 00:00:00"]) =
    Raise (TypeError (CDate "2024-09-01 00:00:00"))
  ∧ parse_schools schools_with_date "id" "lat" "lng" "name" "students" =
      ([], Raise (TypeError (CDate "2024-09-01 00:00:00")))
  ∧ ∀ out recs,
      parse_schools schools_with_date "id" "lat" "lng" "name" "students" ≠ (out, Ok recs).
Proof.
  assert (E : parse_schools schools_with_date "id" "lat" "lng" "name" "students" =
              ([], Raise (TypeError (CDate "2024-09-01 00:00:00")))) by reflexivity.
  split_and!; [reflexivity|exact E|]. intros out recs. rewrite E. discriminate.
Qed.

Lemma detector_first_matching_candidate_witness :
  "books" ∈ ["books"; "volunteers"; "schools"]
  ∧ "lat" ∈ columns books_with_date
  ∧ auto_detect_columns books_with_date "books" !! "lat" = Some "lat".
Proof.
  assert (Hk : "books" ∈ ["books"; "volunteers"; "schools"]) by (by left).
  assert (Hl : "lat" ∈ columns books_with_date) by (by left).
  split_and!; [done..|].
  destruct (detector_first_matching_candidate books_with_date "books" "lat")
    as (_ & _ & _ & H).
  destruct (H Hk Hl) as (col & -> & _ & _ & Hu). f_equal. apply Hu.
  intros c Hc. cbn in Hc. rewrite !elem_of_cons, elem_of_nil in Hc.
  destruct Hc as [->|[->|[->|[]]]]; done.
Defined.

(** C3 as stated fails: [two_lat_columns] has a column named [lat], and
    the role [lat] is mapped to the later column [LAT]. *)
Lemma detector_counterexample :
  "lat" ∈ columns two_lat_columns
  ∧ auto_detect_columns two_lat_columns "books" !! "lat" = Some "LAT"
  ∧ auto_detect_columns two_lat_columns "books" !! "lat" ≠ Some "lat".
Proof.
  assert (H : auto_detect_columns two_lat_columns "books" !! "lat" = Some "LAT")
    by reflexivity.
  split_and!; [by left|done|]. by rewrite H.
Qed.

(** The three-sheet scenario of the specification. *)
Lemma sheet_resolution_witness :
  path_exists disk "data.xlsx" = Ok true
  ∧ ExcelFile disk "data.xlsx" = Some three_sheets
  ∧ parse_excel_file disk "data.xlsx" None (Some ∅) =
      (_ ← print (AvailableSheets ["Books"; "Volunteers"; "Schools"]);
       '(column_mappings, book_data) ← load_books "Books" scenario_sheet ∅;
       '(column_mappings, volunteers) ←
         load_volunteers "Volunteers" volunteers_sheet_no_id column_mappings;
       '(column_mappings, schools) ←
         load_schools "Schools" schools_sheet_plain column_mappings;
       mret {| bookData := book_data; volunteers := volunteers; schools := schools |}).
Proof.
  split_and!; [reflexivity..|].
  destruct (sheet_resolution three_sheets no_selection ∅) as (_ & _ & _ & _ & H).
  by apply H.
Defined.

(** C4 as stated fails: with a selection that names only the books
    sheet, the volunteers are not read from the 2nd sheet (nor the
    schools from the 3rd), although that sheet holds two volunteers. *)
Lemma sheet_resolution_counterexample :
  books_only !! "volunteers" = None
  ∧ parse_volunteers_block three_sheets books_only ∅ = ([], Ok (∅, []))
  ∧ (parse_excel_file disk "data.xlsx" (Some books_only) None).2 =
      Ok one_book
  ∧ length (coerced (volunteer_row "id" "Lat" "Lon" "Name" "Books")
              (iterrows volunteers_sheet_no_id)) = 2%nat.
Proof. split_and!; reflexivity. Qed.

Lemma default_ids_are_row_positions_witness :
  ("id" ∉ columns volunteers_sheet_no_id)
  ∧ parse_volunteers volunteers_sheet_no_id "id" "Lat" "Lon" "Name" "Books" =
      ([Warning "volunteer row" (ValueError (CStr "n/a"))],
       Ok [ann; cy])
  ∧ ∃ positions : list nat,
      StronglySorted lt positions
      ∧ Forall2 (λ r i, ∃ cells, values volunteers_sheet_no_id !! i = Some cells
                   ∧ volunteer_row "id" "Lat" "Lon" "Name" "Books" (Z.of_nat i)
                       (zip (columns volunteers_sheet_no_id) cells) = Ok r
                   ∧ vol_id r = Z.of_nat i + 1)
          [ann; cy]
          positions.
Proof.
  assert (Hid : "id" ∉ columns volunteers_sheet_no_id).
  { apply (bool_decide_unpack _). exact I. }
  split_and!; [done|reflexivity|].
  destruct (default_ids_are_row_positions volunteers_sheet_no_id
              "id" "Lat" "Lon" "Name" "Books") as (_ & H).
  destruct (H Hid) as (Hvols & _).
  by apply (Hvols [Warning "volunteer row" (ValueError (CStr "n/a"))]).
Defined.

Lemma loader_not_found_and_missing_sheet_witness :
  path_exists disk "missing.xlsx" = Ok false
  ∧ parse_excel_file disk "missing.xlsx" None None =
      ([], Raise (FileNotFoundError "missing.xlsx"))
  ∧ path_exists disk long_name = Raise (OSError long_name)
  ∧ parse_excel_file disk long_name None None = ([], Raise (OSError long_name))
  ∧ parse_excel_file disk "data.xlsx" (Some wrong_names) None =
      ([AvailableSheets ["Books"; "Volunteers"; "Schools"]],
       Ok {| bookData := []; volunteers := []; schools := [] |}).
Proof.
  assert (Hlong : path_exists disk long_name = Raise (OSError long_name))
    by reflexivity.
  split_and!; [reflexivity| |exact Hlong| |].
  - destruct (loader_not_found_and_missing_sheet disk "missing.xlsx" None None)
      as (_ & H & _).
    by apply H.
  - destruct (loader_not_found_and_missing_sheet disk long_name None None)
      as (_ & _ & H & _).
    by destruct (H _ Hlong).
  - destruct (loader_not_found_and_missing_sheet disk "data.xlsx" (Some wrong_names) None)
      as (_ & _ & _ & _ & _ & H).
    apply (H three_sheets "B" "V" "S"); try reflexivity;
      apply (bool_decide_unpack _); exact I.
Defined.

(** C6 as stated fails: no file is at [long_name], a name too long
    for the file system, yet the loader does not end with
    [FileNotFoundError]: [file_path.exists()] raises [OSError], which
    nothing catches. *)
Lemma loader_not_found_counterexample :
  on_disk disk long_name = false
  ∧ parse_excel_file disk long_name None None = ([], Raise (OSError long_name))
  ∧ ¬ ((∃ out path, parse_excel_file disk long_name None None =
                      (out, Raise (FileNotFoundError path)))
       ↔ on_disk disk long_name = false).
Proof.
  assert (E : parse_excel_file disk long_name None None =
              ([], Raise (OSError long_name))) by reflexivity.
  split_and!; [reflexivity|exact E|].
  intros [_ H]. destruct H as (out & path & H); [reflexivity|].
  rewrite E in H. discriminate H.
Qed.

(** The aggregate loaded from [three_sheets] comes back from its JSON
    file. *)
Lemma json_export_round_trip_witness :
  (∃ out, parse_excel_file disk "data.xlsx" None None = (out, Ok three_datasets))
  ∧ finite_coordinates three_datasets = true
  ∧ writable disk "data.json" = true
  ∧ ∃ text,
      export_to_json disk three_datasets "data.json" ∅
        = ([ExportedTo "JSON" "data.json"], Ok {["data.json" := text]})
      ∧ loads text = Some (data_dict three_datasets).
Proof.
  split; [eexists; reflexivity|].
  split; [reflexivity|]. split; [reflexivity|].
  destruct (json_export_round_trip disk three_datasets "data.json" ∅ eq_refl eq_refl)
    as (text & books & people & places & He & Hl & -> & -> & -> & _).
  exists text. split; [exact He|exact Hl].
Defined.

(** C7 as stated fails: the second row of [blank_latitude] has no
    latitude, the loader returns a record whose latitude is NaN, and
    the exporter writes it as the token [NaN], which is not JSON: the
    exported text does not parse, so nothing is read back. *)
Lemma json_round_trip_counterexample :
  (∃ out, parse_excel_file shelf "blank.xlsx" None None = (out, Ok blank_books))
  ∧ export_to_json shelf blank_books "data.json" ∅
      = ([ExportedTo "JSON" "data.json"],
         Ok {["data.json" := json_dumps (data_dict blank_books)]})
  ∧ loads (json_dumps (data_dict blank_books)) = None
  ∧ loads (json_dumps (data_dict blank_books)) ≠ Some (data_dict blank_books).
Proof.
  assert (H : loads (json_dumps (data_dict blank_books)) = None) by reflexivity.
  split; [eexists; reflexivity|]. split; [reflexivity|].
  split; [exact H|]. rewrite H. discriminate.
Qed.

Lemma typescript_export_layout_witness :
  ∃ content,
    export_to_typescript disk
      one_book "data.ts" ∅ =
      ([ExportedTo "TypeScript" "data.ts"], Ok {["data.ts" := content]})
    ∧ declared_names content = ["bookData"; "volunteers"; "schools"].
Proof.
  destruct (typescript_export_layout disk
              one_book "data.ts" ∅) as (Hw & _ & Hn).
  eexists. split; [apply Hw; reflexivity|].
  apply Hn; vm_compute; repeat constructor.
Defined.

Lemma present_id_never_defaults_witness :
  contains (zip (columns volunteers_sheet_with_id)
              [CStr "abc"; CFloat (DFin 3617 (-2)); CFloat (DFin (-8679) (-2));
               CStr "Bob"; CInt 5]) "id" = true
  ∧ parse_volunteers volunteers_sheet_with_id "id" "lat" "lng" "name" "books" =
      skip_row "volunteer row" (volunteer_row "id" "lat" "lng" "name" "books")
        (iterrows volunteers_sheet_with_id) 1 (ValueError (CStr "abc")).
Proof.
  split; [reflexivity|].
  destruct (present_id_never_defaults volunteers_sheet_with_id
              "id" "lat" "lng" "name" "books") as (H & _).
  destruct (H 1%nat _ eq_refl eq_refl) as (c & Hc & _ & He).
  injection Hc as <-.
  destruct (He (ValueError (CStr "abc")) eq_refl) as (_ & _ & Hskip).
  by apply Hskip.
Defined.

(** C9 as stated fails: the identifier column of [volunteers_sheet_date_id]
    is present and its first value, a date, fails [int], yet the row is
    not dropped with a warning: [TypeError] ends [parse_volunteers], and
    the valid second row is not returned either. *)
Lemma present_id_counterexample :
  contains (zip (columns volunteers_sheet_date_id)
              [CDate "2024-03-01 00:00:00"; CFloat (DFin 3616 (-2));
               CFloat (DFin (-8678) (-2)); CStr "Ann"; CInt 12]) "id" = true
  ∧ py_int (CDate "2024-03-01 00:00:00") = Raise (TypeError (CDate "2024-03-01 00:00:00"))
  ∧ parse_volunteers volunteers_sheet_date_id "id" "lat" "lng" "name" "books" =
      ([], Raise (TypeError (CDate "2024-03-01 00:00:00")))
  ∧ ∀ out recs,
      parse_volunteers volunteers_sheet_date_id "id" "lat" "lng" "name" "books"
      ≠ (out, Ok recs).
Proof.
  assert (E : parse_volunteers volunteers_sheet_date_id "id" "lat" "lng" "name" "books" =
              ([], Raise (TypeError (CDate "2024-03-01 00:00:00")))) by reflexivity.
  split_and!; [reflexivity..|exact E|]. intros out recs. rewrite E. discriminate.
Qed.

Lemma unrecognised_format_writes_json_witness :
  lower "xml" ≠ "ts" ∧ lower "xml" ≠ "typescript"
  ∧ ∃ text,
      files (main disk ["parse_excel.py"; "data.xlsx"; "xml"] ∅) = {["data.json" := text]}
      ∧ exit_code (main disk ["parse_excel.py"; "data.xlsx"; "xml"] ∅) = 0
      ∧ stderr (main disk ["parse_excel.py"; "data.xlsx"; "xml"] ∅) = None.
Proof.
  assert (H1 : lower "xml" ≠ "ts") by done.
  assert (H2 : lower "xml" ≠ "typescript") by done.
  split_and!; [done..|].
  rewrite (unrecognised_format_writes_json disk "parse_excel.py" "data.xlsx" "xml" []
             ∅ H1 H2).
  eexists. split_and!; reflexivity.
Defined.

(** ** Further properties on the example tables *)

Lemma parser_raises_at_first_unhandled_row_witness :
  parse_book_data books_with_date "lat" "lng" "count" =
    ([], Raise (TypeError (CDate "2024-01-05 00:00:00")))
  ∧ raises_at "row" (book_row "lat" "lng" "count") (iterrows books_with_date) []
      (TypeError (CDate "2024-01-05 00:00:00"))
  ∧ escapes_handler (TypeError (CDate "2024-01-05 00:00:00")).
Proof.
  assert (E : parse_book_data books_with_date "lat" "lng" "count" =
              ([], Raise (TypeError (CDate "2024-01-05 00:00:00")))) by reflexivity.
  destruct (parser_raises_at_first_unhandled_row books_with_date
              "id" "lat" "lng" "name" "count") as (Hat & Hesc & _).
  split_and!; [exact E|by apply Hat|].
  by destruct (Hesc _ _ (or_introl E)).
Defined.

Lemma missing_column_drops_every_row_witness :
  ("lat" ∉ columns unknown_headers)
  ∧ parse_book_data unknown_headers "lat" "lng" "count" =
      ([Warning "row" (KeyError "lat"); Warning "row" (KeyError "lat")], Ok []).
Proof.
  assert (Habs : "lat" ∉ columns unknown_headers).
  { apply (bool_decide_unpack _). exact I. }
  split; [exact Habs|].
  destruct (missing_column_drops_every_row unknown_headers
              "id" "lat" "lng" "name" "count") as (H & _).
  by rewrite (H Habs).
Defined.

Lemma every_row_is_accounted_for_witness :
  parse_book_data scenario_sheet "latitude" "longitude" "quantity" =
    ([Warning "row" (ValueError (CStr "abc"))], Ok [scenario_point])
  ∧ (length [scenario_point] + length [Warning "row" (ValueError (CStr "abc"))])%nat =
      length (data scenario_sheet)
  ∧ Forall (λ ev, ∃ e, ev = Warning "row" e ∧ caught e = true)
      [Warning "row" (ValueError (CStr "abc"))].
Proof.
  assert (E : parse_book_data scenario_sheet "latitude" "longitude" "quantity" =
    ([Warning "row" (ValueError (CStr "abc"))], Ok [scenario_point])) by reflexivity.
  split; [exact E|].
  destruct (every_row_is_accounted_for scenario_sheet
              "id" "latitude" "longitude" "name" "quantity"
              [Warning "row" (ValueError (CStr "abc"))]) as (H & _).
  exact (H _ E).
Defined.

Lemma detected_columns_are_table_columns_witness :
  auto_detect_columns scenario_sheet "books" !! "lat" = Some "latitude"
  ∧ "latitude" ∈ columns scenario_sheet
  ∧ lower "latitude" ∈ candidates "books" "lat".
Proof.
  assert (E : auto_detect_columns scenario_sheet "books" !! "lat" = Some "latitude")
    by reflexivity.
  split; [exact E|].
  destruct (detected_columns_are_table_columns scenario_sheet "books" "lat") as (H & _).
  exact (H _ E).
Defined.

Lemma detection_ignores_case_witness :
  lower <$> columns books_with_date = lower <$> columns upper_case_headers
  ∧ lower <$> (auto_detect_columns books_with_date "books" !! "lat") =
      lower <$> (auto_detect_columns upper_case_headers "books" !! "lat")
  ∧ auto_detect_columns upper_case_headers "books" !! "lat" = Some "LAT".
Proof.
  assert (E : lower <$> columns books_with_date = lower <$> columns upper_case_headers)
    by reflexivity.
  split_and!; [exact E| |reflexivity].
  by destruct (detection_ignores_case books_with_date upper_case_headers
                 "books" "lat" E).
Defined.

Lemma few_sheets_are_shared_witness :
  path_exists shelf "one.xlsx" = Ok true
  ∧ ExcelFile shelf "one.xlsx" = Some [("Sheet1", scenario_sheet)]
  ∧ parse_excel_file shelf "one.xlsx" None (Some ∅) =
      (_ ← print (AvailableSheets ["Sheet1"]);
       '(column_mappings, book_data) ← load_books "Sheet1" scenario_sheet ∅;
       '(column_mappings, volunteers) ←
         load_volunteers "Sheet1" scenario_sheet column_mappings;
       '(column_mappings, schools) ← load_schools "Sheet1" scenario_sheet column_mappings;
       mret {| bookData := book_data; volunteers := volunteers; schools := schools |}).
Proof.
  assert (He : path_exists shelf "one.xlsx" = Ok true) by reflexivity.
  assert (Hw : ExcelFile shelf "one.xlsx" = Some [("Sheet1", scenario_sheet)])
    by reflexivity.
  split_and!; [exact He|exact Hw|].
  destruct (few_sheets_are_shared shelf "one.xlsx" ∅ He) as (H & _).
  exact (H _ _ Hw).
Defined.

Lemma workbook_without_sheets_witness :
  path_exists shelf "empty.xlsx" = Ok true
  ∧ ExcelFile shelf "empty.xlsx" = Some []
  ∧ parse_excel_file shelf "empty.xlsx" None None =
      ([AvailableSheets []], Raise IndexError).
Proof.
  assert (He : path_exists shelf "empty.xlsx" = Ok true) by reflexivity.
  assert (Hw : ExcelFile shelf "empty.xlsx" = Some []) by reflexivity.
  split_and!; [exact He|exact Hw|].
  destruct (workbook_without_sheets shelf "empty.xlsx" None None He Hw) as (_ & H).
  exact (H eq_refl).
Defined.

Lemma supplied_mapping_is_not_completed_witness :
  latitude_only !! "books" = Some {["lat" := "latitude"]}
  ∧ auto_detect_columns scenario_sheet "books" !! "lng" = Some "longitude"
  ∧ ("lng" ∉ columns scenario_sheet)
  ∧ ∃ out,
      load_books "Books" scenario_sheet latitude_only = (out, Ok (latitude_only, []))
      ∧ ∃ warnings, length warnings = length (data scenario_sheet)
          ∧ out = [ParsingFrom "books" "Books"; ColumnsOf (columns scenario_sheet)]
                  ++ warnings ++ [Parsed 0 "book data points"].
Proof.
  assert (Hcm : latitude_only !! "books" = Some {["lat" := "latitude"]}) by reflexivity.
  assert (Hrole : ({["lat" := "latitude"]} : gmap string string) !! "lng" = None)
    by reflexivity.
  assert (Hin : "lng" ∈ ["lat"; "lng"; "count"]) by (right; left).
  assert (Habs : "lng" ∉ columns scenario_sheet).
  { apply (bool_decide_unpack _). exact I. }
  split_and!; [exact Hcm|reflexivity|exact Habs|].
  eexists. split; [reflexivity|].
  destruct (supplied_mapping_is_not_completed "Books" scenario_sheet latitude_only _ Hcm)
    as (_ & H).
  by destruct (H "lng" Hin Hrole Habs _ _ _ eq_refl) as (_ & _ & Hout).
Defined.

Lemma clean_tables_round_trip_witness :
  forallb (λ b, exact_count (book_count b)) [scenario_point] = true
  ∧ parse_book_data (books_frame [scenario_point]) "lat" "lng" "count" =
      ([], Ok [scenario_point]).
Proof.
  split; [reflexivity|].
  by destruct (clean_tables_round_trip [scenario_point] [] [] eq_refl) as (H & _).
Defined.


Lemma typescript_format_writes_typescript_witness :
  (lower "TS" = "ts" ∨ lower "TS" = "typescript")
  ∧ ∃ text,
      files (main disk ["parse_excel.py"; "data.xlsx"; "TS"] ∅) = {["data.ts" := text]}
      ∧ exit_code (main disk ["parse_excel.py"; "data.xlsx"; "TS"] ∅) = 0.
Proof.
  assert (H : lower "TS" = "ts" ∨ lower "TS" = "typescript") by (by left).
  split; [exact H|].
  rewrite (typescript_format_writes_typescript disk "parse_excel.py" "data.xlsx" "TS" []
             ∅ H).
  eexists. split; reflexivity.
Defined.

Lemma arguments_and_defaults_witness :
  (length ["parse_excel.py"] < 2)%nat
  ∧ main disk ["parse_excel.py"] ∅ =
      {| stdout := [Usage]; stderr := None; exit_code := 1; files := ∅ |}
  ∧ lower "Json" = lower "JSON"
  ∧ main disk ["parse_excel.py"; "data.xlsx"; "Json"] ∅ =
      main disk ["parse_excel.py"; "data.xlsx"; "JSON"] ∅.
Proof.
  assert (Hlen : (length ["parse_excel.py"] < 2)%nat) by (cbn; lia).
  assert (Hl : lower "Json" = lower "JSON") by reflexivity.
  destruct (arguments_and_defaults disk ["parse_excel.py"] "parse_excel.py" "data.xlsx"
              "Json" "JSON" EmptyString [] ∅) as (Husage & _ & _ & _ & Hcase).
  split_and!; [exact Hlen|exact (Husage Hlen)|exact Hl|exact (Hcase Hl)].
Defined.

Lemma loader_failure_ends_the_run_witness :
  path_exists disk "missing.xlsx" = Ok false
  ∧ main disk ["parse_excel.py"; "missing.xlsx"; "ts"; "out.ts"] ∅ =
      {| stdout := []; stderr := Some (FileNotFoundError "missing.xlsx");
         exit_code := 1; files := ∅ |}.
Proof.
  assert (He : path_exists disk "missing.xlsx" = Ok false) by reflexivity.
  split; [exact He|].
  destruct (loader_failure_ends_the_run disk "parse_excel.py" "missing.xlsx"
              ["ts"; "out.ts"] ∅) as (_ & H).
  exact (H He).
Defined.


Lemma typescript_arrays_read_back_witness :
  finite_coordinates three_datasets = true
  ∧ writable disk "data.ts" = true
  ∧ ∃ books people places,
      export_to_typescript disk three_datasets "data.ts" ∅ =
        ([ExportedTo "TypeScript" "data.ts"],
         Ok (<["data.ts" :=
                 "// Auto-generated from Excel file" +:+ nl +:+ "// Book Data" +:+ nl
                 +:+ declaration "bookData" books +:+ nl
                 +:+ "// Volunteers" +:+ nl +:+ declaration "volunteers" people +:+ nl
                 +:+ "// Schools" +:+ nl +:+ declaration "schools" places]> ∅))
      ∧ loads books = Some (JList [book_dict scenario_point])
      ∧ loads people = Some (JList [volunteer_dict ann; volunteer_dict cy])
      ∧ loads places = Some (JList [school_dict lincoln]).
Proof.
  split; [reflexivity|]. split; [reflexivity|].
  exact (typescript_arrays_read_back disk three_datasets "data.ts" ∅ eq_refl eq_refl).
Defined.

